(** * Synthetic-password unlock path of [Decrypt.cpp]

    A shallow embedding of the recovery-side unlock code of
    [src/Decrypt.cpp]: blob lookup, the [.pwd] and [.weaver] parsers, the
    weaver and secure-discardable branches of [Decrypt_User_Synth_Pass],
    [unwrapSyntheticPasswordBlob] and the dispatcher [Decrypt_User].

    The code talks to the outside through the file system, hardware
    services and two crypto libraries.  These are gathered in a record
    [World]; every call to a service is recorded in a history of events,
    and a service may answer according to the history so far (the keystore
    accepts an operation only once an auth token was added, for instance).
    Reads outside a buffer and dereferences of null pointers end a run in
    [Undef]. *)

From Stdlib Require Import ZArith List String Ascii Bool Lia.
From Stdlib Require Import Strings.Byte.
From Stdlib Require Import DecimalString.
Import ListNotations.

Local Open Scope Z_scope.

(** ** Bytes, strings and C integers *)

Definition bytes := list byte.

Definition LF : string := String "010"%char EmptyString.

Infix "+++" := String.append (at level 60, right associativity).

Definition Z_of_byte (b : byte) : Z := Z.of_N (Byte.to_N b).

Definition byte_of_Z (z : Z) : byte :=
  match Byte.of_N (Z.to_N (z mod 256)) with
  | Some b => b
  | None => x00
  end.

(** [int] is 32 bits wide, two's complement. *)
Definition to_int32 (z : Z) : Z := (z + 2 ^ 31) mod 2 ^ 32 - 2 ^ 31.

Definition to_uint32 (z : Z) : Z := z mod 2 ^ 32.

(** [int64_t], two's complement. *)
Definition to_int64 (z : Z) : Z := (z + 2 ^ 63) mod 2 ^ 64 - 2 ^ 63.

(** [printf("%i")] / [printf("%d")] of an [int]. *)
Definition fmt_int (z : Z) : string := NilZero.string_of_int (Z.to_int z).

Inductive endianness := LittleEndian | BigEndian.

(** The value of [bs] read with the least significant byte first. *)
Fixpoint le_combine (bs : bytes) : Z :=
  match bs with
  | [] => 0
  | b :: tl => Z.lor (Z_of_byte b) (Z.shiftl (le_combine tl) 8)
  end.

Fixpoint le_split (n : nat) (z : Z) : bytes :=
  match n with
  | O => []
  | S n' => byte_of_Z z :: le_split n' (Z.shiftr z 8)
  end.

(** [*(const int* )p] on a host of the given byte order. *)
Definition decode_int (e : endianness) (bs : bytes) : Z :=
  to_int32 (le_combine (match e with LittleEndian => bs | BigEndian => rev bs end)).

(** Modelled from the spec: [endianswap] is declared outside [src/]; the
    [.pwd] integers are big-endian on disk and are swapped after the load,
    so it reverses the four bytes of the [int]. *)
Definition endianswap (x : Z) : Z :=
  to_int32 (le_combine (rev (le_split 4 (to_uint32 x)))).

(** ** Outcomes, events and the monad of runs *)

Inductive outcome (A : Type) : Type :=
| Ret (a : A)
| Undef.
Arguments Ret {A} a.
Arguments Undef {A}.

(** [android::os::IVold::STORAGE_FLAG_CE]. *)
Definition STORAGE_FLAG_CE : Z := 2.

(** The authorization list of the keystore [createOperation] call. *)
Inductive Algorithm := AES.
Inductive BlockMode := GCM.
Inductive PaddingMode := NONE.
Inductive KeyPurpose := DECRYPT.

Record begin_params_t := {
  TAG_ALGORITHM : Algorithm;
  TAG_BLOCK_MODE : BlockMode;
  TAG_PADDING : PaddingMode;
  TAG_PURPOSE : KeyPurpose;
  TAG_NONCE : bytes;
  TAG_MAC_LENGTH : Z
}.

(** [HardwareAuthToken] as handed to the authorization service: the
    AIDL type, whose [long] fields are [int64_t] and whose authenticator
    type is an enumeration over [int32_t]. *)
Record HardwareAuthToken := {
  timestamp_milliSeconds : Z;
  challenge : Z;
  userId : Z;
  authenticatorId : Z;
  authenticatorType : Z;
  mac : bytes
}.

Inductive event :=
| EvPrintf (msg : string)
| EvCopySqliteDb (src dst : string)
| EvStartThreadPool
| EvWeaverConnect
| EvWeaverGetKeySize
| EvWeaverVerify (slot : Z) (weaver_key : bytes)
| EvGatekeeperVerify (aidl : bool) (uid challenge : Z) (handle password : bytes)
| EvAddAuthToken (token : HardwareAuthToken)
| EvKeystoreGetKeyEntry (alias : string)
| EvKeystoreCreateOperation (key : string) (params : begin_params_t)
| EvKeystoreFinish (input : bytes)
| EvFscryptUnlockCeStorage (user_id : Z) (secret : string)
| EvFscryptPrepareUserStorage (volume_uuid : string) (user_id : Z) (flags : Z).

Definition history := list event.

Definition M (A : Type) : Type := history -> outcome A * history.

Definition ret {A} (a : A) : M A := fun h => (Ret a, h).

Definition bind {A B} (m : M A) (k : A -> M B) : M B :=
  fun h =>
    match m h with
    | (Ret a, h') => k a h'
    | (Undef, h') => (Undef, h')
    end.

Definition undef {A} : M A := fun h => (Undef, h).

Definition emit (e : event) : M unit := fun h => (Ret tt, h ++ [e]).

(** A call to a service: the answer may depend on the calls made so far. *)
Definition ask {A} (e : event) (oracle : history -> A) : M A :=
  fun h => (Ret (oracle h), h ++ [e]).

Definition lift {A} (o : outcome A) : M A := fun h => (o, h).

Definition printf (msg : string) : M unit := emit (EvPrintf msg).

Declare Scope run_scope.
Delimit Scope run_scope with run.
Notation "x <- m ;; k" := (bind m (fun x => k))
  (at level 61, m at next level, right associativity) : run_scope.
Notation "m ;; k" := (bind m (fun _ => k))
  (at level 61, right associativity) : run_scope.
Local Open Scope run_scope.

(** ** The world around the code *)

Inductive file_state :=
| Absent
| Unreadable (st_size : Z)
| Readable (data : bytes).

Record AidlGatekeeperVerifyResp := {
  aidl_statusCode : Z;
  aidl_timeoutMs : Z;
  (** [authToken2AidlVec(rsp.hardwareAuthToken)] *)
  aidl_hardwareAuthToken : bytes
}.

Record GatekeeperResponse := {
  hidl_code : Z;
  hidl_timeout : Z;
  hidl_data : bytes
}.

Record WeaverService := {
  (** [operator bool] of [android::vold::Weaver] *)
  weaver_ok : history -> bool;
  weaver_GetKeySize : history -> option Z;
  weaver_WeaverVerify : history -> Z -> bytes -> option bytes
}.

Record KeyEntryError := {
  ks_error_code : Z;
  ks_description : string
}.

Record World := {
  host_endian : endianness;
  fs : string -> file_state;
  (** indeterminate first contents of the local arrays [password_token]
      and [tag], which the code declares without an initializer *)
  uninit_password_token : bytes;
  uninit_tag : bytes;
  (** [KeystoreInfo] *)
  getHandle : Z -> string;
  getAlias : string -> string;
  (** [crypto_scrypt(passwd, salt, N, r, p, buf, buflen)]; [None] is a
      non-zero return *)
  crypto_scrypt : bytes -> bytes -> Z -> Z -> Z -> nat -> option bytes;
  (** [HashPassword.h]; [None] is a null pointer *)
  PersonalizedHashBinary : string -> bytes -> option bytes;
  PersonalizedHash : string -> bytes -> string;
  PersonalizedHashSP800 : string -> string -> bytes -> string;
  HashPassword : string -> string;
  (** OpenSSL AES-256-GCM: the bytes [EVP_DecryptUpdate] writes for
      (key, iv, input), and the verdict of [EVP_DecryptFinal_ex] for
      (key, iv, input, expected tag) *)
  EVP_DecryptUpdate : bytes -> bytes -> bytes -> bytes;
  EVP_DecryptFinal_ex : bytes -> bytes -> bytes -> bytes -> bool;
  weaver : WeaverService;
  aidl_gk_device :
    option (history -> Z -> Z -> bytes -> bytes -> AidlGatekeeperVerifyResp);
  (** [None] as the answer: the transport failed, [hwRet.isOk()] is false *)
  gk_device :
    option (history -> Z -> Z -> bytes -> bytes -> option GatekeeperResponse);
  authorization_service : history -> bool;
  keystore_service : history -> bool;
  ks_getKeyEntry : history -> string -> KeyEntryError + string;
  ks_createOperation : history -> string -> begin_params_t -> bool;
  (** [None]: [finish] failed; [Some None]: no plaintext came back *)
  ks_finish : history -> bytes -> option (option bytes);
  fscrypt_unlock_ce_storage : history -> Z -> string -> bool;
  fscrypt_prepare_user_storage : history -> string -> Z -> Z -> bool
}.

(** ** Reading a [std::string] buffer through raw pointers *)

(** [data()] of a [std::string]: the contents followed by the terminating
    NUL; anything further is out of bounds. *)
Definition c_buffer (data : bytes) : bytes := data ++ [x00].

Definition load_bytes (buf : bytes) (off n : nat) : outcome bytes :=
  if (off + n <=? List.length buf)%nat then Ret (firstn n (skipn off buf)) else Undef.

Definition load_u8 (buf : bytes) (off : nat) : outcome byte :=
  match nth_error buf off with
  | Some b => Ret b
  | None => Undef
  end.

Definition load_int (e : endianness) (buf : bytes) (off : nat) : outcome Z :=
  match load_bytes buf off 4 with
  | Ret bs => Ret (decode_int e bs)
  | Undef => Undef
  end.

(** ** Blob store *)

(** Modelled from the spec: [android::vold::pathExists] lives in [Utils.cpp],
    outside [src/]; a path exists unless it is absent. *)
Definition pathExists (w : World) (path : string) : bool :=
  match fs w path with
  | Absent => false
  | _ => true
  end.

(** [stat(path, &st) == 0] *)
Definition stat_ok (w : World) (path : string) : bool :=
  match fs w path with
  | Absent => false
  | _ => true
  end.

Definition st_size_of (w : World) (path : string) : Z :=
  match fs w path with
  | Absent => 0
  | Unreadable n => n
  | Readable d => Z.of_nat (List.length d)
  end.

Definition ReadFileToString (w : World) (path : string) : option bytes :=
  match fs w path with
  | Readable d => Some d
  | _ => None
  end.

(** The [for (auto& file : file_paths)] loop of [Get_Spblob_Data]. *)
Fixpoint read_first (w : World) (file_paths : list string) : M (option bytes) :=
  match file_paths with
  | [] => ret None
  | file :: rest =>
      match ReadFileToString w file with
      | None =>
          printf ("Failed to read '" +++ file +++ "'" +++ LF) ;;
          read_first w rest
      | Some data => ret (Some data)
      end
  end.

Definition Get_Spblob_Data (w : World) (spblob_path handle_str suffix tag : string)
  : M (option bytes) :=
  let file := spblob_path +++ handle_str +++ suffix in
  if pathExists w file then
    match ReadFileToString w file with
    | None =>
        printf ("Failed to read '" +++ file +++ "'" +++ LF) ;;
        ret None
    | Some data => ret (Some data)
    end
  else
    printf ("trying to read " +++ tag +++ "_file data with leading 0" +++ LF) ;;
    read_first w [ spblob_path +++ "0" +++ handle_str +++ suffix;
                   spblob_path +++ "00" +++ handle_str +++ suffix ].

(** ** The [.pwd] file *)

Record password_data_struct := {
  password_type : Z;
  scryptN : byte;
  scryptR : byte;
  scryptP : byte;
  salt_len : Z;
  salt : option bytes;
  handle_len : Z;
  password_handle : option bytes
}.

(** [Get_Password_Data]; [None] is the [false] return.  [malloc] of a
    negative [int] (a huge [size_t]) gives a null pointer, any other
    [malloc] succeeds. *)
Definition Get_Password_Data (w : World) (spblob_path handle_str : string)
  : M (option password_data_struct) :=
  found <- Get_Spblob_Data w spblob_path handle_str ".pwd" "password" ;;
  match found with
  | None => ret None
  | Some pwd_data =>
      let buf := c_buffer pwd_data in
      let e := host_endian w in
      ty <- lift (load_int e buf 0) ;;
      let ty := endianswap ty in
      n <- lift (load_u8 buf 4) ;;
      r <- lift (load_u8 buf 5) ;;
      p <- lift (load_u8 buf 6) ;;
      sl <- lift (load_int e buf 7) ;;
      let sl := endianswap sl in
      if sl =? 0 then
        printf ("Get_Password_Data salt_len is 0" +++ LF) ;;
        ret None
      else if sl <? 0 then
        printf ("Get_Password_Data malloc salt" +++ LF) ;;
        ret None
      else
        slt <- lift (load_bytes buf 11 (Z.to_nat sl)) ;;
        let off := (11 + Z.to_nat sl)%nat in
        hl <- lift (load_int e buf off) ;;
        let hl := endianswap hl in
        if hl =? 0 then
          printf ("Get_Password_Data handle_len is 0" +++ LF) ;;
          ret (Some {| password_type := ty; scryptN := n; scryptR := r;
                       scryptP := p; salt_len := sl; salt := Some slt;
                       handle_len := hl; password_handle := None |})
        else if hl <? 0 then
          printf ("Get_Password_Data malloc password_handle" +++ LF) ;;
          ret None
        else
          ph <- lift (load_bytes buf (off + 4) (Z.to_nat hl)) ;;
          ret (Some {| password_type := ty; scryptN := n; scryptR := r;
                       scryptP := p; salt_len := sl; salt := Some slt;
                       handle_len := hl; password_handle := Some ph |})
  end.

(** [1 << n] stored in an [unsigned int]; shifting an [int] by its width
    or more is undefined. *)
Definition shl1 (n : byte) : outcome Z :=
  if Z_of_byte n <? 32 then Ret (to_uint32 (Z.shiftl 1 (Z_of_byte n))) else Undef.

Definition PASSWORD_TOKEN_SIZE : nat := 32.
Definition SHA512_DIGEST_LENGTH : nat := 64.

(** [memcpy(dst, src, length src)] into an array holding [dst]. *)
Definition memcpy (dst src : bytes) : bytes :=
  src ++ skipn (List.length src) dst.

(** [Get_Password_Token]: on success the 32 bytes scrypt wrote.  The
    caller passes the address of a local array, so the null test at the
    top of the function never fires. *)
Definition Get_Password_Token (w : World) (pwd : password_data_struct)
  (Password : string) (password_token : bytes) : M (option bytes) :=
  N <- lift (shl1 (scryptN pwd)) ;;
  r <- lift (shl1 (scryptR pwd)) ;;
  p <- lift (shl1 (scryptP pwd)) ;;
  match salt pwd with
  | None => undef
  | Some slt =>
      match crypto_scrypt w (list_byte_of_string Password) slt N r p 32 with
      | None => printf ("scrypt error" +++ LF) ;; ret None
      | Some out => ret (Some (memcpy password_token out))
      end
  end.

(** ** The [.weaver] file *)

Record weaver_data_struct := {
  version : byte;
  slot : Z
}.

(** [Get_Weaver_Data].  The slot is loaded through
    [(const int* )weaver_data.data() + sizeof(unsigned char)]: the cast
    binds first, so the pointer moves by one [int], four bytes. *)
Definition Get_Weaver_Data (w : World) (spblob_path handle_str : string)
  : M (option weaver_data_struct) :=
  printf ("Get_Weaver_Data" +++ LF) ;;
  let weaver_file := spblob_path +++ handle_str +++ ".weaver" in
  match ReadFileToString w weaver_file with
  | None =>
      printf ("Failed to read '" +++ weaver_file +++ "'" +++ LF) ;;
      ret None
  | Some weaver_data =>
      let buf := c_buffer weaver_data in
      v <- lift (load_u8 buf 0) ;;
      s <- lift (load_int (host_endian w) buf (1 * 4)) ;;
      ret (Some {| version := v; slot := s |})
  end.

(** ** Constants of the synthetic-password format *)

Definition SYNTHETIC_PASSWORD_VERSION_V1 : Z := 1.
Definition SYNTHETIC_PASSWORD_VERSION_V2 : Z := 2.
Definition SYNTHETIC_PASSWORD_VERSION_V3 : Z := 3.
Definition SYNTHETIC_PASSWORD_PASSWORD_BASED : Z := 0.

(** Modelled from the spec: the personalization labels are macros of
    [HashPassword.h], outside [src/]; the spec lists their values. *)
Definition PERSONALISATION_APPLICATION_ID : string := "application-id".
Definition PERSONALIZATION_FBE_KEY : string := "fbe-key".
Definition PERSONALISATION_CONTEXT : string := "fbe-key-context".
Definition PERSONALISATION_SECDISCARDABLE : string := "secdiscardable-transform".
Definition PERSONALISATION_WEAVER_KEY : string := "weaver-key".
Definition PERSONALISATION_WEAVER_PASSWORD : string := "weaver-pwd".
Definition PERSONALIZATION_USER_GK_AUTH : string := "user-gk-authentication".

(** Status codes of the gatekeeper interfaces (AIDL and HIDL 1.0 agree) and
    [ks2::ResponseCode::KEY_NOT_FOUND]. *)
Definition STATUS_OK : Z := 0.
Definition ERROR_RETRY_TIMEOUT : Z := -2.
Definition KEY_NOT_FOUND : Z := 7.

(** The current answer of a service, without a call. *)
Definition peek {A} (oracle : history -> A) : M A :=
  fun h => (Ret (oracle h), h).

(** ** [unwrapSyntheticPasswordBlob] *)

Definition copySqliteDb : M unit :=
  let keystore_path := "/tmp/misc/keystore/"%string in
  let dst := keystore_path +++ "persistent.sqlite" in
  let src := "/data/misc/keystore/persistent.sqlite"%string in
  printf ("copying '" +++ src +++ "' to '" +++ dst +++ "'" +++ LF) ;;
  emit (EvCopySqliteDb src dst).

(** The empty string is the error return. *)
Definition unwrapSyntheticPasswordBlob (w : World) (spblob_path handle_str : string)
  (user_id : Z) (application_id : bytes) : M string :=
  printf ("Attempting to unwrap synthetic password blob" +++ LF) ;;
  let disk_decryption_secret_key := EmptyString in
  emit EvStartThreadPool ;;
  found <- Get_Spblob_Data w spblob_path handle_str ".spblob" "spblob" ;;
  match found with
  | None => ret disk_decryption_secret_key
  | Some spblob_data =>
      let buf := c_buffer spblob_data in
      b0 <- lift (load_u8 buf 0) ;;
      let synthetic_password_version := Z_of_byte b0 in
      if negb (synthetic_password_version =? SYNTHETIC_PASSWORD_VERSION_V2)
         && negb (synthetic_password_version =? SYNTHETIC_PASSWORD_VERSION_V1)
         && negb (synthetic_password_version =? SYNTHETIC_PASSWORD_VERSION_V3)
      then
        printf ("Unsupported synthetic password version "
                  +++ fmt_int synthetic_password_version +++ LF) ;;
        ret disk_decryption_secret_key
      else
        b1 <- lift (load_u8 buf 1) ;;
        if negb (Z_of_byte b1 =? SYNTHETIC_PASSWORD_PASSWORD_BASED) then
          printf ("spblob data is not SYNTHETIC_PASSWORD_PASSWORD_BASED" +++ LF) ;;
          ret disk_decryption_secret_key
        else if (synthetic_password_version =? SYNTHETIC_PASSWORD_VERSION_V2)
                || (synthetic_password_version =? SYNTHETIC_PASSWORD_VERSION_V3)
        then
          printf ("spblob v2 / v3" +++ LF) ;;
          let maclen := 128 in
          let handle := getHandle w user_id in
          let keystore_alias := getAlias w handle in
          (* [spblob_data.size() - 14] wraps around for a shorter blob *)
          if (List.length spblob_data <? 14)%nat then undef
          else
            let iv := firstn 12 (skipn 2 spblob_data) in
            let cipher_text := skipn 14 spblob_data in
            let begin_params :=
              {| TAG_ALGORITHM := AES; TAG_BLOCK_MODE := GCM;
                 TAG_PADDING := NONE; TAG_PURPOSE := DECRYPT;
                 TAG_NONCE := iv; TAG_MAC_LENGTH := maclen |} in
            (* the service pointer is used unchecked *)
            have_ks <- peek (keystore_service w) ;;
            if negb have_ks then undef
            else
              rc <- ask (EvKeystoreGetKeyEntry keystore_alias)
                        (fun h => ks_getKeyEntry w h keystore_alias) ;;
              match rc with
              | inl error =>
                  (if ks_error_code error =? KEY_NOT_FOUND
                   then printf ("key not found" +++ LF)
                   else printf ("Failed to get key entry: "
                                  +++ ks_description error +++ LF)) ;;
                  ret disk_decryption_secret_key
              | inr key =>
                  begin_rc <- ask (EvKeystoreCreateOperation key begin_params)
                                  (fun h => ks_createOperation w h key begin_params) ;;
                  if negb begin_rc then
                    printf ("Begin Operation failed" +++ LF) ;;
                    ret disk_decryption_secret_key
                  else
                    fin <- ask (EvKeystoreFinish cipher_text)
                               (fun h => ks_finish w h cipher_text) ;;
                    match fin with
                    | None =>
                        printf "finish reponse failed" ;;
                        ret disk_decryption_secret_key
                    | Some None => undef
                    | Some (Some keystore_result) =>
                        match PersonalizedHashBinary w PERSONALISATION_APPLICATION_ID
                                application_id with
                        | None =>
                            printf ("Unable to obtain personalized_application_id" +++ LF) ;;
                            ret disk_decryption_secret_key
                        | Some personalized_application_id =>
                            (* the 12 bytes of the IV are read from the result *)
                            if (List.length keystore_result <? 12)%nat then undef
                            else
                              let intermediate_iv := firstn 12 keystore_result in
                              let intermediate_cipher_text := skipn 12 keystore_result in
                              let key := firstn 32 personalized_application_id in
                              let secret_key :=
                                EVP_DecryptUpdate w key intermediate_iv
                                  intermediate_cipher_text in
                              let actual_size := List.length secret_key in
                              let tag := uninit_tag w in
                              (* the verdict of the final call is dropped *)
                              let _ := EVP_DecryptFinal_ex w key intermediate_iv
                                         intermediate_cipher_text tag in
                              (* a negative [secret_key_real_size] becomes a huge length *)
                              if (actual_size <? 16)%nat then undef
                              else
                                let secret_key_real_size := (actual_size - 16)%nat in
                                let sp := firstn secret_key_real_size secret_key in
                                if synthetic_password_version =? SYNTHETIC_PASSWORD_VERSION_V3
                                then ret (PersonalizedHashSP800 w PERSONALIZATION_FBE_KEY
                                            PERSONALISATION_CONTEXT sp)
                                else ret (PersonalizedHash w PERSONALIZATION_FBE_KEY sp)
                        end
                    end
              end
        else ret disk_decryption_secret_key
  end.

Definition Get_Secdis (w : World) (spblob_path handle_str : string)
  : M (option bytes) :=
  Get_Spblob_Data w spblob_path handle_str ".secdis" "secdis".

Definition fakeUid (uid : Z) : Z := to_uint32 (100000 + uid).

Definition Is_Weaver (w : World) (spblob_path handle_str : string) : M bool :=
  printf ("Is_Weaver" +++ LF) ;;
  let weaver_file := spblob_path +++ handle_str +++ ".weaver" in
  if stat_ok w weaver_file then ret true else ret false.

Definition Free_Return (retval : bool) : M bool :=
  printf ("Free_Return" +++ LF) ;;
  ret retval.

Definition Decrypt_CE_storage (w : World) (user_id : Z) (secret : string) : M bool :=
  printf ("Attempting to unlock user storage" +++ LF) ;;
  let flags := STORAGE_FLAG_CE in
  unlocked <- ask (EvFscryptUnlockCeStorage user_id secret)
                  (fun h => fscrypt_unlock_ce_storage w h user_id secret) ;;
  if negb unlocked then
    printf ("fscrypt_unlock_ce_storage returned fail" +++ LF) ;;
    ret false
  else
    printf ("Attempting to prepare user storage" +++ LF) ;;
    prepared <- ask (EvFscryptPrepareUserStorage "" user_id flags)
                    (fun h => fscrypt_prepare_user_storage w h "" user_id flags) ;;
    if negb prepared then
      printf ("failed to fscrypt_prepare_user_storage" +++ LF) ;;
      ret false
    else
      printf ("User " +++ fmt_int (to_int32 user_id) +++ " Decrypted Successfully!" +++ LF) ;;
      ret true.

(** ** [Decrypt_User_Synth_Pass] *)

(** In the blocks below [None] stands for a run that already left the
    function through [return Free_Return(retval, ...)] with [retval] still
    [false]. *)

(** [pwd] as [Decrypt_User_Synth_Pass] sets it up; the fields it leaves
    without a value are not read before [Get_Password_Data] writes them. *)
Definition pwd_init : password_data_struct :=
  {| password_type := 0; scryptN := x00; scryptR := x00; scryptP := x00;
     salt_len := 0; salt := None; handle_len := 0; password_handle := None |}.

(** Lines 712-727: the password token. *)
Definition Decrypt_User_Synth_Pass_password_token (w : World)
  (spblob_path handle_str Password : string)
  : M (option (password_data_struct * bytes)) :=
  let password_token := uninit_password_token w in
  if negb (String.eqb Password "!") then
    got <- Get_Password_Data w spblob_path handle_str ;;
    match got with
    | None =>
        printf ("Failed to Get_Password_Data" +++ LF) ;;
        Free_Return false ;;
        ret None
    | Some pwd =>
        printf ("fscrypt::GetPassword_Token" +++ LF) ;;
        tok <- Get_Password_Token w pwd Password password_token ;;
        match tok with
        | None =>
            printf ("Failed to Get_Password_Token" +++ LF) ;;
            Free_Return false ;;
            ret None
        | Some password_token => ret (Some (pwd, password_token))
        end
    end
  else
    copySqliteDb ;;
    let defpassword := "default-password"%string in
    ret (Some (pwd_init, memcpy password_token (list_byte_of_string defpassword))).

(** Lines 730-780: the weaver branch, up to the application id. *)
Definition Decrypt_User_Synth_Pass_weaver (w : World)
  (spblob_path handle_str : string) (password_token : bytes)
  : M (option bytes) :=
  printf ("using weaver" +++ LF) ;;
  got <- Get_Weaver_Data w spblob_path handle_str ;;
  match got with
  | None =>
      printf ("Failed to get weaver data" +++ LF) ;;
      Free_Return false ;;
      ret None
  | Some wd =>
      match PersonalizedHashBinary w PERSONALISATION_WEAVER_KEY
              (firstn PASSWORD_TOKEN_SIZE password_token) with
      | None =>
          printf ("malloc error getting weaver_key" +++ LF) ;;
          Free_Return false ;;
          ret None
      | Some weaver_key =>
          connected <- ask EvWeaverConnect (weaver_ok (weaver w)) ;;
          if negb connected then
            printf ("Failed to get weaver service" +++ LF) ;;
            Free_Return false ;;
            ret None
          else
            size <- ask EvWeaverGetKeySize (weaver_GetKeySize (weaver w)) ;;
            match size with
            | None =>
                printf ("Failed to get weaver key size" +++ LF) ;;
                Free_Return false ;;
                ret None
            | Some weaver_key_size =>
                printf ("weaver key size is " +++ fmt_int weaver_key_size +++ LF) ;;
                let slot32 := to_uint32 (slot wd) in
                verified <- ask (EvWeaverVerify slot32 weaver_key)
                                (fun h => weaver_WeaverVerify (weaver w) h slot32 weaver_key) ;;
                match verified with
                | None =>
                    printf ("failed to weaver verify" +++ LF) ;;
                    Free_Return false ;;
                    ret None
                | Some weaver_payload =>
                    match PersonalizedHashBinary w PERSONALISATION_WEAVER_PASSWORD
                            weaver_payload with
                    | None => undef (* [memcpy] from a null pointer *)
                    | Some weaver_secret =>
                        ret (Some (firstn PASSWORD_TOKEN_SIZE password_token
                                     ++ firstn SHA512_DIGEST_LENGTH weaver_secret))
                    end
                end
            end
      end
  end.

(** [GKResponse] *)
Inductive GKResponse :=
| GK_ok (payload : bytes)
| GK_retry (timeout : Z)
| GK_error.

Definition be_combine (bs : bytes) : Z := le_combine (rev bs).

Definition host_combine (e : endianness) (bs : bytes) : Z :=
  match e with
  | LittleEndian => le_combine bs
  | BigEndian => be_combine bs
  end.

(** The payload seen as a packed [hw_auth_token_t]: version (1 byte),
    challenge, user_id, authenticator_id (8 bytes each),
    authenticator_type (4, network order), timestamp (8, network order),
    hmac (32).  The unsigned fields of the packed structure are assigned
    to the signed fields of the AIDL token, so a value with its top bit
    set arrives negative. *)
Definition read_hw_auth_token (e : endianness) (payload : bytes)
  : outcome HardwareAuthToken :=
  if (List.length payload <? 69)%nat then Undef
  else
    let field off n := firstn n (skipn off payload) in
    Ret {| timestamp_milliSeconds := to_int64 (be_combine (field 29 8)%nat);
           challenge := to_int64 (host_combine e (field 1 8)%nat);
           userId := to_int64 (host_combine e (field 9 8)%nat);
           authenticatorId := to_int64 (host_combine e (field 17 8)%nat);
           authenticatorType := to_int32 (be_combine (field 25 4)%nat);
           mac := field 37%nat 32%nat |}.

(** Lines 892-913: a non-empty payload of an OK answer goes to the
    authorization service. *)
Definition add_auth_token (w : World) (gkResponse : GKResponse) : M unit :=
  match gkResponse with
  | GK_ok payload =>
      if negb (List.length payload =? 0)%nat then
        authToken <- lift (read_hw_auth_token (host_endian w) payload) ;;
        have_service <- peek (authorization_service w) ;;
        if negb have_service then
          printf ("error: could not connect to keystore service" +++ LF) ;;
          undef (* [service->addAuthToken] on a null service *)
        else
          emit (EvAddAuthToken authToken)
      else ret tt
  | _ => ret tt
  end.

(** Lines 797-913: the gatekeeper step of the secdis branch; [Some tt] when
    the run goes on to the unwrap. *)
Definition Decrypt_User_Synth_Pass_gatekeeper (w : World) (user_id : Z)
  (pwd : password_data_struct) (password_token : bytes) : M (option unit) :=
  let pwd_handle :=
    match password_handle pwd with Some ph => ph | None => [] end in
  match aidl_gk_device w, gk_device w with
  | None, None =>
      printf ("failed to get gatekeeper service" +++ LF) ;;
      Free_Return false ;;
      ret None
  | Some aidl_verify, _ =>
      if handle_len pwd <=? 0 then
        printf ("no password handle supplied" +++ LF) ;;
        Free_Return false ;;
        ret None
      else
        match PersonalizedHashBinary w PERSONALIZATION_USER_GK_AUTH
                (firstn PASSWORD_TOKEN_SIZE password_token) with
        | None =>
            printf ("malloc error getting gatekeeper_key" +++ LF) ;;
            Free_Return false ;;
            ret None
        | Some gk_pwd_token =>
            let gk_pwd_token := firstn SHA512_DIGEST_LENGTH gk_pwd_token in
            rsp <- ask (EvGatekeeperVerify true (fakeUid user_id) 0 pwd_handle gk_pwd_token)
                       (fun h => aidl_verify h (fakeUid user_id) 0 pwd_handle gk_pwd_token) ;;
            if aidl_statusCode rsp >=? STATUS_OK then
              printf ("GateKeeper status ok" +++ LF) ;;
              add_auth_token w (GK_ok (aidl_hardwareAuthToken rsp)) ;;
              ret (Some tt)
            else if aidl_statusCode rsp =? ERROR_RETRY_TIMEOUT then
              printf ("GateKeeper response timeout" +++ LF) ;;
              Free_Return false ;;
              ret None
            else
              printf ("gatekeeper verification failed" +++ LF) ;;
              Free_Return false ;;
              ret None
        end
  | None, Some hidl_verify =>
      if handle_len pwd <=? 0 then
        printf ("no password handle supplied" +++ LF) ;;
        Free_Return false ;;
        ret None
      else
        match PersonalizedHashBinary w PERSONALIZATION_USER_GK_AUTH
                (firstn PASSWORD_TOKEN_SIZE password_token) with
        | None =>
            printf ("malloc error getting gatekeeper_key" +++ LF) ;;
            Free_Return false ;;
            ret None
        | Some gk_pwd_token =>
            let gk_pwd_token := firstn SHA512_DIGEST_LENGTH gk_pwd_token in
            hwRet <- ask (EvGatekeeperVerify false (fakeUid user_id) 0 pwd_handle gk_pwd_token)
                         (fun h => hidl_verify h (fakeUid user_id) 0 pwd_handle gk_pwd_token) ;;
            match hwRet with
            | None =>
                printf ("gatekeeper verification failed" +++ LF) ;;
                Free_Return false ;;
                ret None
            | Some rsp =>
                (* the callback only records the answer *)
                gkResponse <-
                  (if hidl_code rsp >=? STATUS_OK then
                     printf ("GateKeeper status ok" +++ LF) ;;
                     ret (GK_ok (hidl_data rsp))
                   else if hidl_code rsp =? ERROR_RETRY_TIMEOUT then
                     printf ("GateKeeper response timeout" +++ LF) ;;
                     ret (GK_retry (hidl_timeout rsp))
                   else
                     printf ("GateKeeper response error" +++ LF) ;;
                     ret GK_error) ;;
                add_auth_token w gkResponse ;;
                ret (Some tt)
            end
        end
  end.

(** Lines 783-915: the secdis branch, up to the application id. *)
Definition Decrypt_User_Synth_Pass_secdis (w : World) (user_id : Z)
  (spblob_path handle_str Password : string)
  (pwd : password_data_struct) (password_token : bytes) : M (option bytes) :=
  printf ("using secdis to decrypt spblob" +++ LF) ;;
  got <- Get_Secdis w spblob_path handle_str ;;
  match got with
  | None =>
      printf ("Failed to get secdis data" +++ LF) ;;
      Free_Return false ;;
      ret None
  | Some secdis_data =>
      match PersonalizedHashBinary w PERSONALISATION_SECDISCARDABLE secdis_data with
      | None =>
          printf ("malloc error getting secdiscardable" +++ LF) ;;
          Free_Return false ;;
          ret None
      | Some secdiscardable =>
          let application_id :=
            firstn PASSWORD_TOKEN_SIZE password_token
              ++ firstn SHA512_DIGEST_LENGTH secdiscardable in
          if negb (String.eqb Password "!") then
            gk <- Decrypt_User_Synth_Pass_gatekeeper w user_id pwd password_token ;;
            match gk with
            | None => ret None
            | Some _ => ret (Some application_id)
            end
          else ret (Some application_id)
      end
  end.

(** Lines 712-916: everything up to the application id. *)
Definition Decrypt_User_Synth_Pass_application_id (w : World) (user_id : Z)
  (spblob_path handle_str Password : string) : M (option bytes) :=
  tok <- Decrypt_User_Synth_Pass_password_token w spblob_path handle_str Password ;;
  match tok with
  | None => ret None
  | Some (pwd, password_token) =>
      use_weaver <- Is_Weaver w spblob_path handle_str ;;
      if use_weaver
      then Decrypt_User_Synth_Pass_weaver w spblob_path handle_str password_token
      else Decrypt_User_Synth_Pass_secdis w user_id spblob_path handle_str
             Password pwd password_token
  end.

(** [sprintf(spblob_path_char, "/data/system_de/%d/spblob/", user_id)] *)
Definition spblob_path_of (user_id : Z) : string :=
  "/data/system_de/" +++ fmt_int (to_int32 user_id) +++ "/spblob/".

Definition Decrypt_User_Synth_Pass (w : World) (user_id : Z) (Password : string)
  : M bool :=
  printf ("Attempting to decrypt user's synthetic password" +++ LF) ;;
  let retval := false in
  let spblob_path := spblob_path_of user_id in
  let handle_str := getHandle w user_id in
  app <- Decrypt_User_Synth_Pass_application_id w user_id spblob_path handle_str
           Password ;;
  match app with
  | None => ret retval
  | Some application_id =>
      secret <- unwrapSyntheticPasswordBlob w spblob_path handle_str user_id
                  application_id ;;
      if (String.length secret =? 0)%nat then
        printf ("failed to unwrapSyntheticPasswordBlob" +++ LF) ;;
        Free_Return retval
      else
        decrypted <- Decrypt_CE_storage w user_id secret ;;
        if negb decrypted then Free_Return retval
        else
          let retval := true in
          Free_Return retval
  end.

(** ** [Get_Password_Type] and [Decrypt_User] *)

(** [filename] is the caller's string, returned as the function leaves it. *)
Definition Get_Password_Type (w : World) (user_id : Z) (filename : string)
  : M (Z * string) :=
  let spblob_path_char := spblob_path_of user_id in
  if stat_ok w spblob_path_char then
    let spblob_path := spblob_path_char in
    let handle_str := getHandle w user_id in
    printf ("Handle is '" +++ handle_str +++ "'" +++ LF) ;;
    got <- Get_Password_Data w spblob_path handle_str ;;
    match got with
    | None =>
        printf ("Failed to Get_Password_Data" +++ LF) ;;
        ret (0, filename)
    | Some pwd =>
        if password_type pwd =? 2 then
          printf ("password type: password/PIN" +++ LF) ;; ret (1, filename)
        else if password_type pwd =? 4 then
          printf ("password type: password" +++ LF) ;; ret (1, filename)
        else if password_type pwd =? 1 then
          printf ("password type: pattern" +++ LF) ;; ret (2, filename)
        else if password_type pwd =? 3 then
          printf ("password type: PIN" +++ LF) ;; ret (3, filename)
        else
          printf ("using default password" +++ LF) ;; ret (0, filename)
    end
  else
    path <-
      (if user_id =? 0 then ret "/data/system/"%string
       else
         let user_id_str := fmt_int (to_int32 user_id) in
         (* [char user_id_str[5]] holds four characters and the NUL *)
         if (4 <? String.length user_id_str)%nat then undef
         else ret ("/data/system/users/" +++ user_id_str +++ "/")%string) ;;
    let filename := (path +++ "gatekeeper.password.key")%string in
    if stat_ok w filename && (st_size_of w filename >? 0) then ret (1, filename)
    else
      let filename := (path +++ "gatekeeper.pattern.key")%string in
      if stat_ok w filename && (st_size_of w filename >? 0) then ret (2, filename)
      else
        printf ("Unable to locate gatekeeper password file '" +++ filename +++ "'" +++ LF) ;;
        ret (0, ""%string).

(** Lines 1018-1077: the flow on a legacy gatekeeper key file.  The sizes
    of the hex buffer come from [auth_token_len], which only an OK answer
    assigns. *)
Definition Decrypt_User_legacy (w : World) (user_id : Z) (Password filename : string)
  : M bool :=
  if negb (stat_ok w filename) then
    printf ("error stat'ing key file: No such file or directory" +++ LF) ;;
    ret false
  else
    match ReadFileToString w filename with
    | None =>
        printf ("Failed to read '" +++ filename +++ "'" +++ LF) ;;
        ret false
    | Some handle =>
        match gk_device w with
        | None => ret false
        | Some hidl_verify =>
            let curPwdHandle := handle in
            let enteredPwd := list_byte_of_string Password in
            hwRet <- ask (EvGatekeeperVerify false user_id 0 curPwdHandle enteredPwd)
                         (fun h => hidl_verify h user_id 0 curPwdHandle enteredPwd) ;;
            match hwRet with
            | None => ret false
            | Some rsp =>
                if hidl_code rsp >=? STATUS_OK then
                  printf ("GateKeeper status ok" +++ LF) ;;
                  let secret := HashPassword w Password in
                  decrypted <- Decrypt_CE_storage w user_id secret ;;
                  if negb decrypted then ret false else ret true
                else if (hidl_code rsp =? ERROR_RETRY_TIMEOUT) && (hidl_timeout rsp >? 0) then
                  printf ("GateKeeper response timeout" +++ LF) ;;
                  undef
                else
                  printf ("GateKeeper response error" +++ LF) ;;
                  undef
            end
        end
    end.

Definition Decrypt_User (w : World) (user_id : Z) (Password : string) : M bool :=
  printf ("Attempting to decrypt user" +++ LF) ;;
  if user_id >? 9999 then
    printf ("user_id is too big" +++ LF) ;;
    ret false
  else
    let Default_Password := String.eqb Password "!" in
    typed <- Get_Password_Type w user_id "" ;;
    let '(ty, filename) := typed in
    if (ty =? 0) && negb Default_Password then
      printf ("Unknown password type" +++ LF) ;;
      ret false
    else if Default_Password then
      decrypted <- Decrypt_CE_storage w user_id "!" ;;
      if negb decrypted then Decrypt_User_Synth_Pass w user_id Password
      else ret true
    else if stat_ok w "/data/system_de/0/spblob" then
      printf ("Using synthetic password method" +++ LF) ;;
      Decrypt_User_Synth_Pass w user_id Password
    else Decrypt_User_legacy w user_id Password filename.

(** ** Worlds that differ in one part *)

Definition with_fs (w : World) (f : string -> file_state) : World :=
  {| host_endian := host_endian w; fs := f;
     uninit_password_token := uninit_password_token w;
     uninit_tag := uninit_tag w;
     getHandle := getHandle w; getAlias := getAlias w;
     crypto_scrypt := crypto_scrypt w;
     PersonalizedHashBinary := PersonalizedHashBinary w;
     PersonalizedHash := PersonalizedHash w;
     PersonalizedHashSP800 := PersonalizedHashSP800 w;
     HashPassword := HashPassword w;
     EVP_DecryptUpdate := EVP_DecryptUpdate w;
     EVP_DecryptFinal_ex := EVP_DecryptFinal_ex w;
     weaver := weaver w;
     aidl_gk_device := aidl_gk_device w; gk_device := gk_device w;
     authorization_service := authorization_service w;
     keystore_service := keystore_service w;
     ks_getKeyEntry := ks_getKeyEntry w;
     ks_createOperation := ks_createOperation w;
     ks_finish := ks_finish w;
     fscrypt_unlock_ce_storage := fscrypt_unlock_ce_storage w;
     fscrypt_prepare_user_storage := fscrypt_prepare_user_storage w |}.

Definition with_weaver (w : World) (wv : WeaverService) : World :=
  {| host_endian := host_endian w; fs := fs w;
     uninit_password_token := uninit_password_token w;
     uninit_tag := uninit_tag w;
     getHandle := getHandle w; getAlias := getAlias w;
     crypto_scrypt := crypto_scrypt w;
     PersonalizedHashBinary := PersonalizedHashBinary w;
     PersonalizedHash := PersonalizedHash w;
     PersonalizedHashSP800 := PersonalizedHashSP800 w;
     HashPassword := HashPassword w;
     EVP_DecryptUpdate := EVP_DecryptUpdate w;
     EVP_DecryptFinal_ex := EVP_DecryptFinal_ex w;
     weaver := wv;
     aidl_gk_device := aidl_gk_device w; gk_device := gk_device w;
     authorization_service := authorization_service w;
     keystore_service := keystore_service w;
     ks_getKeyEntry := ks_getKeyEntry w;
     ks_createOperation := ks_createOperation w;
     ks_finish := ks_finish w;
     fscrypt_unlock_ce_storage := fscrypt_unlock_ce_storage w;
     fscrypt_prepare_user_storage := fscrypt_prepare_user_storage w |}.

Definition with_EVP_DecryptFinal_ex (w : World)
  (verdict : bytes -> bytes -> bytes -> bytes -> bool) : World :=
  {| host_endian := host_endian w; fs := fs w;
     uninit_password_token := uninit_password_token w;
     uninit_tag := uninit_tag w;
     getHandle := getHandle w; getAlias := getAlias w;
     crypto_scrypt := crypto_scrypt w;
     PersonalizedHashBinary := PersonalizedHashBinary w;
     PersonalizedHash := PersonalizedHash w;
     PersonalizedHashSP800 := PersonalizedHashSP800 w;
     HashPassword := HashPassword w;
     EVP_DecryptUpdate := EVP_DecryptUpdate w;
     EVP_DecryptFinal_ex := verdict;
     weaver := weaver w;
     aidl_gk_device := aidl_gk_device w; gk_device := gk_device w;
     authorization_service := authorization_service w;
     keystore_service := keystore_service w;
     ks_getKeyEntry := ks_getKeyEntry w;
     ks_createOperation := ks_createOperation w;
     ks_finish := ks_finish w;
     fscrypt_unlock_ce_storage := fscrypt_unlock_ce_storage w;
     fscrypt_prepare_user_storage := fscrypt_prepare_user_storage w |}.

(** ** A test bench: stub services over a listed file system *)

Module Bench.

Definition fs_of (files : list (string * file_state)) (path : string) : file_state :=
  match find (fun kv => String.eqb (fst kv) path) files with
  | Some kv => snd kv
  | None => Absent
  end.

Definition stub_weaver (key_size : Z) : WeaverService :=
  {| weaver_ok := fun _ => true;
     weaver_GetKeySize := fun _ => Some key_size;
     weaver_WeaverVerify := fun _ _ _ => Some (repeat x2a 16) |}.

(** A hash that keeps the label and the data readable: the label, a
    colon and the data, cut or NUL-padded to 64 bytes. *)
Definition toy_hash (label : string) (data : bytes) : bytes :=
  firstn 64 (list_byte_of_string label ++ [x3a] ++ data ++ repeat x00 64).

(** The cipher of the bench is the identity; its tag never verifies. *)
Definition world (files : list (string * file_state))
  (gk : option (history -> Z -> Z -> bytes -> bytes -> option GatekeeperResponse))
  (key_size : Z) : World :=
  {| host_endian := LittleEndian;
     fs := fs_of files;
     uninit_password_token := repeat xff 32;
     uninit_tag := repeat xff 16;
     getHandle := fun _ => "abc"%string;
     getAlias := fun handle => ("synthetic_password_" +++ handle)%string;
     crypto_scrypt := fun _ _ _ _ _ n => Some (repeat x11 n);
     PersonalizedHashBinary := fun label data => Some (toy_hash label data);
     PersonalizedHash :=
       fun label data => (label +++ ":" +++ string_of_list_byte data)%string;
     PersonalizedHashSP800 :=
       fun label context data =>
         (label +++ "/" +++ context +++ ":" +++ string_of_list_byte data)%string;
     HashPassword := fun p => ("hash:" +++ p)%string;
     EVP_DecryptUpdate := fun _ _ input => input;
     EVP_DecryptFinal_ex := fun _ _ _ _ => false;
     weaver := stub_weaver key_size;
     aidl_gk_device := None;
     gk_device := gk;
     authorization_service := fun _ => true;
     keystore_service := fun _ => true;
     ks_getKeyEntry := fun _ alias => inr alias;
     ks_createOperation := fun _ _ _ => true;
     ks_finish := fun _ input => Some (Some input);
     fscrypt_unlock_ce_storage := fun _ _ _ => true;
     fscrypt_prepare_user_storage := fun _ _ _ _ => true |}.

Definition dir : string := "/data/system_de/0/spblob/".

(** A [.weaver] file whose bytes 1..4 spell slot 7 and whose bytes 4..7
    spell 2304, both least significant byte first. *)
Definition weaver_bytes : bytes := [x01; x07; x00; x00; x00; x09; x00; x00].

(** A version 2 spblob of type 0: 12 bytes of IV, then what the stub
    keystore hands back unchanged, an inner IV, the text [secret] and 16
    bytes of tag. *)
Definition spblob_bytes (version : byte) : bytes :=
  [version; x00] ++ repeat x01 12
    ++ repeat x02 12 ++ list_byte_of_string "secret" ++ repeat x03 16.

End Bench.

(** ** Notions used in the statements *)

(** A computation is framed when its outcome and the events it adds are
    the same from every history: it calls no service. *)
Definition framed {A} (m : M A) : Prop :=
  forall h, m h = (fst (m []), h ++ snd (m [])).

(** A computation emits [P] when every event it adds to the history
    satisfies [P]. *)
Definition emits {A} (P : event -> Prop) (m : M A) : Prop :=
  forall h, exists evs, snd (m h) = h ++ evs /\ Forall P evs.

(** The token the claim describes. *)
Definition padded_default_password : bytes :=
  list_byte_of_string "default-password" ++ repeat x00 16.

(** Classes of events. *)
Definition is_weaver_verify (e : event) : bool :=
  match e with
  | EvWeaverVerify _ _ => true
  | _ => false
  end.

(** Version and type byte of a spblob as the code reads them: bytes 0 and
    1 of the buffer, the terminating NUL included. *)
Definition spblob_version (data : bytes) : Z := Z_of_byte (nth 0 (c_buffer data) x00).

Definition spblob_type (data : bytes) : Z := Z_of_byte (nth 1 (c_buffer data) x00).

Definition is_keystore_event (e : event) : bool :=
  match e with
  | EvKeystoreGetKeyEntry _ | EvKeystoreCreateOperation _ _ | EvKeystoreFinish _ => true
  | _ => false
  end.

Definition is_fscrypt_event (e : event) : bool :=
  match e with
  | EvFscryptUnlockCeStorage _ _ | EvFscryptPrepareUserStorage _ _ _ => true
  | _ => false
  end.

(** Events that are no call to a service. *)
Definition is_local_event (e : event) : bool :=
  match e with
  | EvPrintf _ | EvStartThreadPool => true
  | _ => false
  end.

(** What may happen before the unwrap: no keystore call, no fscrypt call. *)
Definition before_unwrap (e : event) : Prop :=
  is_keystore_event e = false /\ is_fscrypt_event e = false.

Definition is_unlock_ce (e : event) : bool :=
  match e with
  | EvFscryptUnlockCeStorage _ _ => true
  | _ => false
  end.

Definition is_create_operation (e : event) : bool :=
  match e with
  | EvKeystoreCreateOperation _ _ => true
  | _ => false
  end.

Definition printed (msg : string) (e : event) : bool :=
  match e with
  | EvPrintf m => String.eqb m msg
  | _ => false
  end.

(** The bench files of a user with a PIN: a [.pwd] file with type 3,
    scrypt parameters 1/1/1, salt [09 09] and handle [08], a secdis
    file and a version 3 spblob. *)
Definition pin_user_files : list (string * file_state) :=
  [ (Bench.dir, Unreadable 4096);
    ("/data/system_de/0/spblob"%string, Unreadable 4096);
    (Bench.dir +++ "abc.pwd",
      Readable [x00; x00; x00; x03; x01; x01; x01;
                x00; x00; x00; x02; x09; x09;
                x00; x00; x00; x01; x08]);
    (Bench.dir +++ "abc.secdis", Readable [x05]);
    (Bench.dir +++ "abc.spblob", Readable (Bench.spblob_bytes x03)) ].

(** A HIDL gatekeeper that finds every credential incorrect
    ([ERROR_GENERAL_FAILURE], no retry timeout). *)
Definition gatekeeper_incorrect
  : history -> Z -> Z -> bytes -> bytes -> option GatekeeperResponse :=
  fun _ _ _ _ _ => Some {| hidl_code := -1; hidl_timeout := 0; hidl_data := [] |}.

(** The last character of a path tells its suffix apart from [.secdis]. *)
Fixpoint last_char (s : string) : option ascii :=
  match s with
  | EmptyString => None
  | String c EmptyString => Some c
  | String _ s' => last_char s'
  end.

(** A path of a secdis blob: it ends in [.secdis]. *)
Definition is_secdis_path (path : string) : Prop :=
  exists stem, path = stem +++ ".secdis".

(** Two file systems that differ at most in secdis blobs. *)
Definition same_but_secdis (f g : string -> file_state) : Prop :=
  forall path, ~ is_secdis_path path -> f path = g path.

Definition is_weaver_event (e : event) : bool :=
  match e with
  | EvWeaverConnect | EvWeaverGetKeySize | EvWeaverVerify _ _ => true
  | _ => false
  end.

(** A 32-bit integer as the [.pwd] file stores it, most significant byte
    first. *)
Definition be32 (x : Z) : bytes := rev (le_split 4 (to_uint32 x)).

(** The layout of a [.pwd] file: type, the three scrypt bytes, the salt
    with its length before it, then a handle length and what follows it. *)
Definition pwd_layout (ty : Z) (n r p : byte) (slt : bytes) (hl : Z) (tail : bytes)
  : bytes :=
  be32 ty ++ [n; r; p] ++ be32 (Z.of_nat (List.length slt)) ++ slt ++ be32 hl ++ tail.

(** A well-formed [.pwd] file. *)
Definition pwd_file (ty : Z) (n r p : byte) (slt handle : bytes) : bytes :=
  pwd_layout ty n r p slt (Z.of_nat (List.length handle)) handle.

(** The directory of the legacy gatekeeper key files of a user, as
    [Get_Password_Type] builds it. *)
Definition legacy_key_dir (user_id : Z) : string :=
  if user_id =? 0 then "/data/system/"
  else "/data/system/users/" +++ fmt_int (to_int32 user_id) +++ "/".

(** [stat(filename, &st) == 0 && st.st_size > 0] *)
Definition usable_key_file (w : World) (filename : string) : bool :=
  stat_ok w filename && (st_size_of w filename >? 0).

(** The code [Get_Password_Type] returns for a password type of a [.pwd]
    file: 1 password or PIN of old releases, 2 pattern, 3 PIN, 0 default. *)
Definition twrp_password_type (password_type : Z) : Z :=
  if (password_type =? 2) || (password_type =? 4) then 1
  else if password_type =? 1 then 2
  else if password_type =? 3 then 3
  else 0.

(** Calls that check the credential: weaver, gatekeeper and the hand-over
    of the auth token. *)
Definition is_credential_check (e : event) : bool :=
  match e with
  | EvWeaverConnect | EvWeaverGetKeySize | EvWeaverVerify _ _
  | EvGatekeeperVerify _ _ _ _ _ | EvAddAuthToken _ => true
  | _ => false
  end.

Definition is_gatekeeper_or_auth (e : event) : bool :=
  match e with
  | EvGatekeeperVerify _ _ _ _ _ | EvAddAuthToken _ => true
  | _ => false
  end.

(** A weaver service that does not let the unlock through: it cannot be
    reached, does not tell its key size, or refuses every key. *)
Definition weaver_refuses (wv : WeaverService) : Prop :=
  (forall h, weaver_ok wv h = false)
  \/ (forall h, weaver_GetKeySize wv h = None)
  \/ (forall h slot key, weaver_WeaverVerify wv h slot key = None).



(** The bench files of a user whose [.pwd] file carries no handle. *)
Definition no_handle_files : list (string * file_state) :=
  [ (Bench.dir, Unreadable 4096);
    (Bench.dir +++ "abc.pwd", Readable (pwd_file 3 x01 x01 x01 [x09; x09] []));
    (Bench.dir +++ "abc.secdis", Readable [x05]);
    (Bench.dir +++ "abc.spblob", Readable (Bench.spblob_bytes x03)) ].

(** The keystore calls among the events of a run, in order. *)
Definition keystore_calls (evs : history) : history := filter is_keystore_event evs.

Definition with_keystore (w : World)
  (getKeyEntry : history -> string -> KeyEntryError + string)
  (createOperation : history -> string -> begin_params_t -> bool) : World :=
  {| host_endian := host_endian w; fs := fs w;
     uninit_password_token := uninit_password_token w;
     uninit_tag := uninit_tag w;
     getHandle := getHandle w; getAlias := getAlias w;
     crypto_scrypt := crypto_scrypt w;
     PersonalizedHashBinary := PersonalizedHashBinary w;
     PersonalizedHash := PersonalizedHash w;
     PersonalizedHashSP800 := PersonalizedHashSP800 w;
     HashPassword := HashPassword w;
     EVP_DecryptUpdate := EVP_DecryptUpdate w;
     EVP_DecryptFinal_ex := EVP_DecryptFinal_ex w;
     weaver := weaver w;
     aidl_gk_device := aidl_gk_device w; gk_device := gk_device w;
     authorization_service := authorization_service w;
     keystore_service := keystore_service w;
     ks_getKeyEntry := getKeyEntry;
     ks_createOperation := createOperation;
     ks_finish := ks_finish w;
     fscrypt_unlock_ce_storage := fscrypt_unlock_ce_storage w;
     fscrypt_prepare_user_storage := fscrypt_prepare_user_storage w |}.

(** ** Waiting for the keystore service *)

(** [getKeystoreBinder] and [getKeystoreBinderRetry].  The service
    manager answers a lookup with a binder or with a null pointer, and
    its answer may change with what was done before (the service is
    started, time passes in [sleep]): [getService] sees the calls made so
    far. *)
Module KeystoreBinder.

Inductive call :=
| Printf (text : string)
| PropertySet (key value : string)
| GetService (name : string)
| Sleep (seconds : Z).

Definition trace := list call.

Section Service_manager.

Variable IBinder : Type.
Variable getService : trace -> string -> option IBinder.

Definition getKeystoreBinder (t : trace) : option IBinder * trace :=
  (getService t "android.security.keystore",
   t ++ [GetService "android.security.keystore"]).

(** The [while (binder == NULL && retry_count)] loop; [retry_count--] is
    printed before it is decremented. *)
Fixpoint getKeystoreBinderRetry_loop (retry_count : nat) (binder : option IBinder)
  (t : trace) : option IBinder * trace :=
  match binder, retry_count with
  | None, S retry_count' =>
      let t1 := t ++ [ Printf ("Waiting for keystore service... "
                                 +++ fmt_int (Z.of_nat retry_count) +++ LF);
                       Sleep 1 ] in
      let '(binder', t2) := getKeystoreBinder t1 in
      getKeystoreBinderRetry_loop retry_count' binder' t2
  | _, _ => (binder, t)
  end.

Definition getKeystoreBinderRetry (t : trace) : option IBinder * trace :=
  let t0 := t ++ [ Printf ("Starting keystore..." +++ LF);
                   PropertySet "ctl.start" "keystore" ] in
  let retry_count := 50%nat in
  let '(binder, t1) := getKeystoreBinder t0 in
  getKeystoreBinderRetry_loop retry_count binder t1.


(** The seconds slept in [calls]. *)
Fixpoint seconds_slept (calls : list call) : Z :=
  match calls with
  | [] => 0
  | Sleep s :: rest => s + seconds_slept rest
  | _ :: rest => seconds_slept rest
  end.

End Service_manager.

(** A service manager that knows the keystore once [ready] seconds were
    slept. *)
Definition up_after {IBinder} (ready : Z) (binder : IBinder) (t : trace) (name : string)
  : option IBinder :=
  if ready <=? seconds_slept t then Some binder else None.

End KeystoreBinder.

(** * Metadata encryption *)

(** The code of [MetadataCrypt.cpp] that [src/KeyStorage.h] carries after
    the header proper: the parser of the metadata encryption options, the
    set-up of the dm-default-key device and the removal of the key
    directory of a DSU slot.  System properties, the device mapper, the
    file system and the key storage are the environment [Env]; every call
    is recorded in a trace, and an answer may depend on the trace so
    far. *)
Module MetadataCrypt.

(** [CryptoType] of [CryptoType.h]: the two names are C strings, null
    pointers in a value that was not filled in. *)
Record CryptoType := {
  get_config_name : option string;
  get_kernel_name : option string;
  get_keysize : Z
}.

Record CryptoOptions := {
  cipher : CryptoType;
  use_legacy_options_format : bool;
  set_dun : bool;
  use_hw_wrapped_key : bool
}.

(** [KeyGeneration] of [KeyUtil.h]: key size, whether a key may be
    generated, whether it is hardware wrapped. *)
Record KeyGeneration := {
  keysize : Z;
  allow_gen : bool;
  gen_use_hw_wrapped_key : bool
}.

Inductive DmDeviceState := INVALID | SUSPENDED | ACTIVE.

(** The arguments and flags of a [DmTargetDefaultKey]. *)
Record DmTargetDefaultKey := {
  dm_start : Z;
  dm_length : Z;
  dm_cipher : string;
  dm_key : string;
  dm_blockdev : string;
  dm_start_sector : Z;
  dm_use_legacy_options_format : bool;
  dm_set_dun : bool;
  dm_is_hw_wrapped : bool
}.

Definition DmTable := list DmTargetDefaultKey.

(** The fields of an fstab entry that this code reads. *)
Record FstabEntry := {
  mount_point : string;
  metadata_key_dir : string;
  encryption_options : string;
  metadata_encryption_options : string;
  checkpoint_blk : bool
}.

Definition Fstab := list FstabEntry.

Inductive severity := INFO | WARNING | ERROR.

Inductive call :=
| LOG (s : severity) (text : string)
| PLOG (s : severity) (text : string)
| Property (key : string)
| PathExists (path : string)
| ReadFstab
| DestroyKey (path : string)
| DeleteDir (path : string)
| Measure (blk_device : string)
| ExportKey (key : bytes)
| GetState (name : string)
| LoadTable (name : string) (table : DmTable)
| WaitForDevice (name : string) (timeout_ms : Z)
| CreateDevice (name : string) (table : DmTable) (timeout_ms : Z)
| CreatePlaceholderDevice (name : string)
| Printf (text : string)
| SetProp (key value : string)
| ReadFstabFile (path : string)
| WrappedKeySupported
| Mkdirs (dir : string) (mode : Z)
| DeleteAllKeys
| RetrieveOrGenerateKey (key_path tmp_path : string) (gen : KeyGeneration)
| FormatExt4 (blk_device : string) (num_sectors : Z) (target : string)
| FormatF2fs (blk_device zoned_device : string)
| EncryptInplace (crypto_blkdev real_blkdev : string) (nr_sec : Z)
| SetExecCon (context : option string)
| NeedsCheckpoint
| DoMount (mount_point blk_device : string) (needs_checkpoint needs_encrypt : bool).

Definition trace := list call.

Record Env := {
  (** [CryptoType.h] *)
  aes_256_xts : CryptoType;
  adiantum : CryptoType;
  invalid_crypto_type : CryptoType;
  (** [android::base]: [GetProperty(key, default)],
      [GetBoolProperty(key, default)], [SetProperty(key, value)] *)
  GetProperty : trace -> string -> string -> string;
  GetBoolProperty : trace -> string -> bool -> bool;
  SetProperty : trace -> string -> string -> bool;
  (** [Utils.h]; the sector count is written through a pointer, so the
      call is given what was there and answers the status and what is
      there afterwards; [StrToHex] answers [None] for a status other than
      [OK] *)
  GetBlockDev512Sectors : trace -> string -> Z -> Z * Z;
  StrToHex : bytes -> option string;
  pathExists : trace -> string -> bool;
  DeleteDirContentsAndDir : trace -> string -> Z;
  MkdirsSync : trace -> string -> Z -> bool;
  (** [KeyStorage.h] *)
  exportWrappedStorageKey : trace -> bytes -> option bytes;
  destroyKey : trace -> string -> bool;
  (** [KeyUtil.h]; the key is written through a pointer: the call is
      given what was there and answers what is there afterwards *)
  retrieveOrGenerateKey : trace -> string -> string -> KeyGeneration -> bytes -> bool * bytes;
  neverGen : KeyGeneration;
  is_metadata_wrapped_key_supported : trace -> bool;
  (** [libdm]; the two calls that report a path are given the string the
      path is written to *)
  dm_GetState : trace -> string -> DmDeviceState;
  dm_LoadTableAndActivate : trace -> string -> DmTable -> bool;
  dm_WaitForDevice : trace -> string -> Z -> string -> bool * string;
  dm_CreateDevice : trace -> string -> DmTable -> string -> Z -> bool * string;
  dm_CreatePlaceholderDevice : trace -> string -> bool;
  (** [fs_mgr], [libgsi]; the calls that are handed the fstab answer what
      it holds afterwards *)
  ReadDefaultFstab : trace -> Fstab -> bool * Fstab;
  ReadFstabFromFile : trace -> string -> Fstab -> bool * Fstab;
  fs_mgr_do_mount : trace -> Fstab -> string -> string -> bool -> bool -> Z * Fstab;
  GetDsuMetadataKeyDir : string -> string;
  (** [libfscrypt]: [ParseOptions(str, &options)] and the [version] that
      [options] holds after the call *)
  ParseOptions : string -> bool * Z;
  (** formatting, encryption in place, checkpoints, SELinux *)
  ext4_Format : trace -> string -> Z -> string -> Z;
  f2fs_Format : trace -> string -> string -> Z;
  encrypt_inplace : trace -> string -> string -> Z -> bool;
  cp_needsCheckpoint : trace -> bool;
  setexeccon : trace -> option string -> Z;
  sFsckContext : option string;
  DATA_MNT_POINT : string;
  (** what the local [nr_sec] of [defaultkey_setup_ext_volume] holds
      before it is assigned *)
  uninit_nr_sec : Z
}.

Definition Run (A : Type) : Type := trace -> outcome A * trace.

Definition ret {A} (a : A) : Run A := fun t => (Ret a, t).

Definition bind {A B} (m : Run A) (k : A -> Run B) : Run B :=
  fun t =>
    match m t with
    | (Ret a, t') => k a t'
    | (Undef, t') => (Undef, t')
    end.

Definition undef {A} : Run A := fun t => (Undef, t).

Definition lift {A} (o : outcome A) : Run A := fun t => (o, t).

Definition log (s : severity) (text : string) : Run unit :=
  fun t => (Ret tt, t ++ [LOG s text]).

(** [PLOG] adds the text of [errno], which is not modelled. *)
Definition plog (s : severity) (text : string) : Run unit :=
  fun t => (Ret tt, t ++ [PLOG s text]).

Definition ask {A} (c : call) (oracle : trace -> A) : Run A :=
  fun t => (Ret (oracle t), t ++ [c]).

Declare Scope metadata_scope.
Notation "x <- m ;; k" := (bind m (fun x => k))
  (at level 61, m at next level, right associativity) : metadata_scope.
Notation "m ;; k" := (bind m (fun _ => k))
  (at level 61, right associativity) : metadata_scope.
Local Open Scope metadata_scope.

Definition to_uint64 (z : Z) : Z := z mod 2 ^ 64.

(** [android::OK]. *)
Definition OK : Z := 0.

Definition kDmNameUserdata : string := "userdata".
Definition kDmNameUserdataZoned : string := "userdata_zoned".

(** The first entry in this table is the default crypto type. *)
Definition supported_crypto_types (env : Env) : list CryptoType :=
  [aes_256_xts env; adiantum env].

(** [android::base::Split]: the pieces of [s] between the characters of
    [delimiters]; there is always at least one piece. *)
Definition is_delimiter (delimiters : string) (c : ascii) : bool :=
  existsb (Ascii.eqb c) (list_ascii_of_string delimiters).

Fixpoint Split (s delimiters : string) : list string :=
  match s with
  | EmptyString => [EmptyString]
  | String c rest =>
      if is_delimiter delimiters c then EmptyString :: Split rest delimiters
      else match Split rest delimiters with
           | piece :: pieces => String c piece :: pieces
           | [] => [String c EmptyString]
           end
  end.

Definition makeGen (options : CryptoOptions) : KeyGeneration :=
  {| keysize := get_keysize (cipher options);
     allow_gen := true;
     gen_use_hw_wrapped_key := use_hw_wrapped_key options |}.

(** The loop of [lookup_cipher]; comparing a [std::string] with a null
    [get_config_name()] is undefined. *)
Fixpoint lookup_cipher_loop (env : Env) (cipher_name : string) (types : list CryptoType)
  : outcome CryptoType :=
  match types with
  | [] => Ret (invalid_crypto_type env)
  | ct :: rest =>
      match get_config_name ct with
      | None => Undef
      | Some config_name =>
          if (cipher_name =? config_name)%string then Ret ct
          else lookup_cipher_loop env cipher_name rest
      end
  end.

Definition lookup_cipher (env : Env) (cipher_name : string) : outcome CryptoType :=
  if (cipher_name =? "")%string
  then Ret (nth 0 (supported_crypto_types env) (invalid_crypto_type env))
  else lookup_cipher_loop env cipher_name (supported_crypto_types env).

Definition set_cipher (options : CryptoOptions) (c : CryptoType) : CryptoOptions :=
  {| cipher := c;
     use_legacy_options_format := use_legacy_options_format options;
     set_dun := set_dun options;
     use_hw_wrapped_key := use_hw_wrapped_key options |}.

Definition set_use_hw_wrapped_key (options : CryptoOptions) (b : bool) : CryptoOptions :=
  {| cipher := cipher options;
     use_legacy_options_format := use_legacy_options_format options;
     set_dun := set_dun options;
     use_hw_wrapped_key := b |}.

(** [options] is updated in place: the answer carries what it holds when
    the function returns, also when it returns [false]. *)
Definition parse_options (env : Env) (options_string : string) (options : CryptoOptions)
  : Run (bool * CryptoOptions) :=
  let parts := Split options_string ":" in
  if (List.length parts <? 1)%nat || (2 <? List.length parts)%nat then
    log ERROR ("Invalid metadata encryption option: " +++ options_string) ;;
    ret (false, options)
  else
    let cipher_name := nth 0 parts EmptyString in
    c <- lift (lookup_cipher env cipher_name) ;;
    let options := set_cipher options c in
    match get_kernel_name c with
    | None =>
        log ERROR ("No metadata cipher named " +++ cipher_name +++ " found") ;;
        ret (false, options)
    | Some _ =>
        if (List.length parts =? 2)%nat then
          if (nth 1 parts EmptyString =? "wrappedkey_v0")%string then
            ret (true, set_use_hw_wrapped_key options true)
          else
            log ERROR ("Invalid metadata encryption flag: " +++ nth 1 parts EmptyString) ;;
            ret (false, options)
        else ret (true, options)
    end.

(** A default-constructed [CryptoOptions]. *)
Definition CryptoOptions_default (env : Env) : CryptoOptions :=
  {| cipher := invalid_crypto_type env;
     use_legacy_options_format := false;
     set_dun := true;
     use_hw_wrapped_key := false |}.

Definition get_volume_options (env : Env) (options : CryptoOptions)
  : Run (bool * CryptoOptions) :=
  value <- ask (Property "ro.crypto.volume.metadata.encryption")
               (fun t => GetProperty env t "ro.crypto.volume.metadata.encryption" "") ;;
  parse_options env value options.

(** [*gen] is assigned only on success. *)
Definition defaultkey_volume_keygen (env : Env) (gen : KeyGeneration)
  : Run (bool * KeyGeneration) :=
  parsed <- get_volume_options env (CryptoOptions_default env) ;;
  let '(ok, options) := parsed in
  if negb ok then ret (false, gen)
  else ret (true, makeGen options).

Definition get_number_of_sectors (env : Env) (real_blkdev : string) (nr_sec : Z)
  : Run (bool * Z) :=
  measured <- ask (Measure real_blkdev)
                  (fun t => GetBlockDev512Sectors env t real_blkdev nr_sec) ;;
  let '(status, nr_sec) := measured in
  if negb (status =? OK) then
    plog ERROR ("Unable to measure size of " +++ real_blkdev) ;;
    ret (false, nr_sec)
  else ret (true, nr_sec).

(** The answer carries [*crypto_blkdev] and [*nr_sec] as they are when
    the function returns. *)
Definition create_crypto_blk_dev (env : Env) (dm_name blk_device : string)
  (key : bytes) (options : CryptoOptions) (crypto_blkdev : string) (nr_sec : Z)
  : Run (bool * string * Z) :=
  measured <- get_number_of_sectors env blk_device nr_sec ;;
  let '(ok, nr_sec) := measured in
  if negb ok then ret (false, crypto_blkdev, nr_sec)
  else
    (* [~7] is an [int], converted to [uint64_t] for the conjunction *)
    let nr_sec := Z.land (to_uint64 nr_sec) (to_uint64 (Z.lnot 7)) in
    exported <- (if use_hw_wrapped_key options
                 then ask (ExportKey key) (fun t => exportWrappedStorageKey env t key)
                 else ret (Some key)) ;;
    match exported with
    | None =>
        log ERROR "Failed to get ephemeral wrapped key" ;;
        ret (false, crypto_blkdev, nr_sec)
    | Some module_key =>
        match StrToHex env module_key with
        | None =>
            log ERROR "Failed to turn key to hex" ;;
            ret (false, crypto_blkdev, nr_sec)
        | Some hex_key =>
            (* the kernel name becomes a [std::string]: undefined for a
               null pointer *)
            match get_kernel_name (cipher options) with
            | None => undef
            | Some kernel_name =>
                let target :=
                  {| dm_start := 0; dm_length := nr_sec;
                     dm_cipher := kernel_name; dm_key := hex_key;
                     dm_blockdev := blk_device; dm_start_sector := 0;
                     dm_use_legacy_options_format := use_legacy_options_format options;
                     dm_set_dun := set_dun options;
                     dm_is_hw_wrapped := use_hw_wrapped_key options |} in
                let table := [target] in
                suspended <-
                  (if (dm_name =? kDmNameUserdata)%string then
                     state <- ask (GetState dm_name) (fun t => dm_GetState env t dm_name) ;;
                     ret (match state with SUSPENDED => true | _ => false end)
                   else ret false) ;;
                created <-
                  (if suspended then
                     (* The device was created in advance, populate it now. *)
                     loaded <- ask (LoadTable dm_name table)
                                   (fun t => dm_LoadTableAndActivate env t dm_name table) ;;
                     if negb loaded then
                       log ERROR ("Failed to populate default-key device " +++ dm_name) ;;
                       ret (false, crypto_blkdev)
                     else
                       waited <- ask (WaitForDevice dm_name 20000)
                                     (fun t => dm_WaitForDevice env t dm_name 20000
                                                 crypto_blkdev) ;;
                       let '(found, crypto_blkdev) := waited in
                       if negb found then
                         log ERROR ("Failed to wait for default-key device " +++ dm_name) ;;
                         ret (false, crypto_blkdev)
                       else ret (true, crypto_blkdev)
                   else
                     made <- ask (CreateDevice dm_name table 5000)
                                 (fun t => dm_CreateDevice env t dm_name table
                                             crypto_blkdev 5000) ;;
                     let '(done, crypto_blkdev) := made in
                     if negb done then
                       log ERROR ("Could not create default-key device " +++ dm_name) ;;
                       ret (false, crypto_blkdev)
                     else ret (true, crypto_blkdev)) ;;
                let '(ok, crypto_blkdev) := created in
                if negb ok then ret (false, crypto_blkdev, nr_sec)
                else
                  let crypto_blkdev :=
                    if (dm_name =? kDmNameUserdata)%string
                       || (dm_name =? kDmNameUserdataZoned)%string
                    then "/dev/block/mapper/" +++ dm_name
                    else crypto_blkdev in
                  ret (true, crypto_blkdev, nr_sec)
            end
        end
    end.

Definition defaultkey_setup_ext_volume (env : Env) (label blk_device : string)
  (key : bytes) (out_crypto_blkdev : string) : Run (bool * string) :=
  log INFO ("defaultkey_setup_ext_volume: " +++ label +++ " " +++ blk_device) ;;
  parsed <- get_volume_options env (CryptoOptions_default env) ;;
  let '(ok, options) := parsed in
  if negb ok then ret (false, out_crypto_blkdev)
  else
    made <- create_crypto_blk_dev env label blk_device key options out_crypto_blkdev
              (uninit_nr_sec env) ;;
    let '(ok, crypto_blkdev, _) := made in
    ret (ok, crypto_blkdev).

(** [GetEntryForMountPoint]: the first entry mounted at [path]. *)
Definition GetEntryForMountPoint (fstab : Fstab) (path : string) : option FstabEntry :=
  find (fun entry => (mount_point entry =? path)%string) fstab.

(** The loop over the suffixes in [destroy_dsu_metadata_key]. *)
Fixpoint destroy_dsu_metadata_key_loop (env : Env) (dsu_metadata_key_dir : string)
  (suffixes : list string) (ok : bool) : Run bool :=
  match suffixes with
  | [] => ret ok
  | suffix :: rest =>
      let key_path := dsu_metadata_key_dir +++ suffix in
      present <- ask (PathExists key_path) (fun t => pathExists env t key_path) ;;
      if present then
        log INFO ("Destroy key: " +++ key_path) ;;
        destroyed <- ask (DestroyKey key_path) (fun t => destroyKey env t key_path) ;;
        if negb destroyed then
          log ERROR ("Failed to destroyKey(): " +++ key_path) ;;
          destroy_dsu_metadata_key_loop env dsu_metadata_key_dir rest false
        else destroy_dsu_metadata_key_loop env dsu_metadata_key_dir rest ok
      else destroy_dsu_metadata_key_loop env dsu_metadata_key_dir rest ok
  end.

(** [fstab_default] is a global of the program: it is given and handed
    back. *)
Definition destroy_dsu_metadata_key (env : Env) (dsu_slot : string) (fstab_default : Fstab)
  : Run (bool * Fstab) :=
  log INFO ("destroy_dsu_metadata_key: " +++ dsu_slot) ;;
  let dsu_metadata_key_dir := GetDsuMetadataKeyDir env dsu_slot in
  present <- ask (PathExists dsu_metadata_key_dir)
                 (fun t => pathExists env t dsu_metadata_key_dir) ;;
  if negb present then
    log INFO ("DSU metadata_key_dir doesn't exist, nothing to remove: "
                +++ dsu_metadata_key_dir) ;;
    ret (true, fstab_default)
  else
    read <- (match fstab_default with
             | [] => ask ReadFstab (fun t => ReadDefaultFstab env t fstab_default)
             | _ :: _ => ret (true, fstab_default)
             end) ;;
    let '(opened, fstab_default) := read in
    if negb opened then
      plog ERROR "Failed to open default fstab" ;;
      ret (false, fstab_default)
    else
      let same_as_host :=
        match GetEntryForMountPoint fstab_default "/data" with
        | Some data_rec => (dsu_metadata_key_dir =? metadata_key_dir data_rec)%string
        | None => false
        end in
      if same_as_host then
        log ERROR ("DSU metadata_key_dir is same as host OS: " +++ dsu_metadata_key_dir) ;;
        ret (false, fstab_default)
      else
        ok <- destroy_dsu_metadata_key_loop env dsu_metadata_key_dir ["/key"; "/tmp"]%string
                true ;;
        if negb ok then ret (false, fstab_default)
        else
          log INFO ("Remove DSU metadata_key_dir: " +++ dsu_metadata_key_dir) ;;
          status <- ask (DeleteDir dsu_metadata_key_dir)
                        (fun t => DeleteDirContentsAndDir env t dsu_metadata_key_dir) ;;
          ret (status =? OK, fstab_default).

(** [legacy_aes_256_xts]. *)
Definition legacy_aes_256_xts : CryptoType :=
  {| get_config_name := Some "aes-256-xts"%string;
     get_kernel_name := Some "AES-256-XTS"%string;
     get_keysize := 64 |}.

(** A [bool] and an [unsigned int] written to a log stream. *)
Definition fmt_bool (b : bool) : string := if b then "1" else "0".

Definition to_uint32 (z : Z) : Z := z mod 2 ^ 32.

Definition defaultkey_precreate_dm_device (env : Env) : Run unit :=
  state <- ask (GetState kDmNameUserdata) (fun t => dm_GetState env t kDmNameUserdata) ;;
  match state with
  | INVALID =>
      created <- ask (CreatePlaceholderDevice kDmNameUserdata)
                     (fun t => dm_CreatePlaceholderDevice env t kDmNameUserdata) ;;
      if negb created then
        log ERROR "Failed to pre-create userdata metadata encryption device"
      else ret tt
  | _ =>
      log INFO "Not pre-creating userdata encryption device; device already exists"
  end.

(** [fs_mgr_do_mount] is handed the global [fstab_default]. *)
Definition mount_via_fs_mgr (env : Env) (fstab_default : Fstab)
  (mount_point blk_device : string) (needs_encrypt : bool) : Run (bool * Fstab) :=
  rc <- ask (SetExecCon (sFsckContext env))
            (fun t => setexeccon env t (sFsckContext env)) ;;
  if negb (rc =? 0) then
    plog ERROR "Failed to setexeccon" ;;
    ret (false, fstab_default)
  else
    needs_checkpoint <- ask NeedsCheckpoint (cp_needsCheckpoint env) ;;
    mounted <- ask (DoMount mount_point blk_device needs_checkpoint needs_encrypt)
                   (fun t => fs_mgr_do_mount env t fstab_default mount_point blk_device
                               needs_checkpoint needs_encrypt) ;;
    let '(mount_rc, fstab_default) := mounted in
    rc <- ask (SetExecCon None) (fun t => setexeccon env t None) ;;
    if negb (rc =? 0) then
      plog ERROR "Failed to clear setexeccon" ;;
      ret (false, fstab_default)
    else if negb (mount_rc =? 0) then
      log ERROR ("fs_mgr_do_mount failed with rc " +++ fmt_int mount_rc) ;;
      ret (false, fstab_default)
    else
      log INFO ("Mounted " +++ mount_point) ;;
      ret (true, fstab_default).

(** The answer carries [*key] as it is when the function returns. *)
Definition read_key (env : Env) (metadata_key_dir : string) (gen : KeyGeneration)
  (first_key : bool) (key : bytes) : Run (bool * bytes) :=
  if (metadata_key_dir =? "")%string then
    log ERROR "Failed to get metadata_key_dir" ;;
    ret (false, key)
  else
    let dir := metadata_key_dir +++ "/key" in
    log INFO ("metadata_key_dir/key: " +++ dir) ;;
    made <- ask (Mkdirs dir 448) (fun t => MkdirsSync env t dir 448) ;;
    if negb made then ret (false, key)
    else
      in_dsu <- ask (Property "ro.gsid.image_running")
                    (fun t => GetBoolProperty env t "ro.gsid.image_running" false) ;;
      (* !pathExists(dir) does not imply there's a factory reset when in DSU mode. *)
      present <- ask (PathExists dir) (fun t => pathExists env t dir) ;;
      (if negb present && negb in_dsu && first_key then
         delete_all <-
           ask (Property "ro.crypto.metadata_init_delete_all_keys.enabled")
               (fun t => GetBoolProperty env t
                           "ro.crypto.metadata_init_delete_all_keys.enabled" false) ;;
         if delete_all then
           log INFO "Metadata key does not exist, calling deleteAllKeys" ;;
           ask DeleteAllKeys (fun _ => tt)
         else
           log INFO ("Metadata key does not exist but "
                       +++ "ro.crypto.metadata_init_delete_all_keys.enabled is false")
       else ret tt) ;;
      let temp := metadata_key_dir +++ "/tmp" in
      ask (RetrieveOrGenerateKey dir temp gen)
          (fun t => retrieveOrGenerateKey env t dir temp gen key).

(** The blocks of [fscrypt_mount_metadata_encrypted], in the order of the
    source: the fstab to use, the options of the entry, the keys and
    devices, formatting or encryption in place, and the mount. *)
Definition fscrypt_mount_metadata_encrypted_fstab (env : Env) (fstab_path : string)
  (fstab_default : Fstab) : Run (bool * Fstab) :=
  if negb (fstab_path =? "")%string then
    ask (Printf ("Using additional fstab for decryption " +++ fstab_path +++ " " +++ LF))
        (fun _ => tt) ;;
    read <- ask (ReadFstabFile fstab_path)
                (fun t => ReadFstabFromFile env t fstab_path fstab_default) ;;
    let '(opened, fstab_default) := read in
    if negb opened then
      plog ERROR ("Failed to open " +++ fstab_path +++ " Fstab ") ;;
      ret (false, fstab_default)
    else ret (true, fstab_default)
  else
    match fstab_default with
    | [] =>
        read <- ask ReadFstab (fun t => ReadDefaultFstab env t fstab_default) ;;
        let '(opened, fstab_default) := read in
        if negb opened then
          plog ERROR "Failed to open default fstab" ;;
          ret (false, fstab_default)
        else ret (true, fstab_default)
    | _ :: _ => ret (true, fstab_default)
    end.

(** [None] where the source returns [false]. *)
Definition fscrypt_mount_metadata_encrypted_options (env : Env) (data_rec : FstabEntry)
  : Run (option CryptoOptions) :=
  let parsed := ParseOptions env (encryption_options data_rec) in
  (if negb (fst parsed) then
     log ERROR ("Unable to parse encryption options for " +++ DATA_MNT_POINT env +++ ": "
                  +++ encryption_options data_rec)
   else ret tt) ;;
  let options_format_version := to_uint32 (snd parsed) in
  let options := CryptoOptions_default env in
  if options_format_version =? 1 then
    if negb (metadata_encryption_options data_rec =? "")%string then
      log ERROR "metadata_encryption options cannot be set in legacy mode" ;;
      ret None
    else
      let options := set_cipher options legacy_aes_256_xts in
      let options :=
        {| cipher := cipher options;
           use_legacy_options_format := true;
           set_dun := set_dun options;
           use_hw_wrapped_key := use_hw_wrapped_key options |} in
      wrapped <- ask WrappedKeySupported (is_metadata_wrapped_key_supported env) ;;
      let options := if wrapped then set_use_hw_wrapped_key options true else options in
      dun <- ask (Property "ro.crypto.set_dun")
                 (fun t => GetBoolProperty env t "ro.crypto.set_dun" false) ;;
      let options :=
        {| cipher := cipher options;
           use_legacy_options_format := use_legacy_options_format options;
           set_dun := dun;
           use_hw_wrapped_key := use_hw_wrapped_key options |} in
      if negb (set_dun options) && checkpoint_blk data_rec then
        log ERROR "Block checkpoints and metadata encryption require ro.crypto.set_dun option" ;;
        ret None
      else ret (Some options)
  else if options_format_version =? 2 then
    parsed <- parse_options env (metadata_encryption_options data_rec) options ;;
    let '(ok, options) := parsed in
    if negb ok then ret None else ret (Some options)
  else
    log ERROR ("Unknown options_format_version: " +++ fmt_int options_format_version) ;;
    ret None.

(** [None] where the source returns [false]; else the two device paths
    and [nr_sec]. *)
Definition fscrypt_mount_metadata_encrypted_devices (env : Env)
  (blk_device zoned_device : string) (needs_encrypt : bool) (data_rec : FstabEntry)
  (options : CryptoOptions) : Run (option (string * string * Z)) :=
  let default_metadata_key_dir :=
    if negb (zoned_device =? "")%string
    then metadata_key_dir data_rec +++ "/default"
    else metadata_key_dir data_rec in
  let gen := if needs_encrypt then makeGen options else neverGen env in
  read <- read_key env default_metadata_key_dir gen true [] ;;
  let '(ok, key) := read in
  if negb ok then
    log ERROR "read_key failed in mountFstab" ;;
    ret None
  else
    made <- create_crypto_blk_dev env kDmNameUserdata blk_device key options EmptyString
              (uninit_nr_sec env) ;;
    let '(ok, crypto_blkdev, nr_sec) := made in
    if negb ok then
      log ERROR "create_crypto_blk_dev failed in mountFstab" ;;
      ret None
    else if negb (zoned_device =? "")%string then
      (* create dm-default-key for zoned device *)
      let zoned_metadata_key_dir := metadata_key_dir data_rec +++ "/zoned" in
      read <- read_key env zoned_metadata_key_dir gen false key ;;
      let '(ok, key) := read in
      if negb ok then
        log ERROR ("read_key failed with zoned device: " +++ zoned_device) ;;
        ret None
      else
        made <- create_crypto_blk_dev env kDmNameUserdataZoned zoned_device key options
                  EmptyString nr_sec ;;
        let '(ok, crypto_zoned_blkdev, nr_sec) := made in
        if negb ok then
          log ERROR ("fscrypt_mount_metadata_encrypted: failed with zoned device: "
                       +++ zoned_device) ;;
          ret None
        else ret (Some (crypto_blkdev, crypto_zoned_blkdev, nr_sec))
    else ret (Some (crypto_blkdev, EmptyString, nr_sec)).

(** [false] where the source returns [false]. *)
Definition fscrypt_mount_metadata_encrypted_encrypt (env : Env)
  (blk_device mount_point : string) (needs_encrypt should_format : bool)
  (fs_type zoned_device crypto_blkdev crypto_zoned_blkdev : string) (nr_sec : Z)
  : Run bool :=
  if needs_encrypt then
    if should_format then
      if (fs_type =? "ext4")%string || (fs_type =? "f2fs")%string then
        error <- (if (fs_type =? "ext4")%string
                  then ask (FormatExt4 crypto_blkdev 0 mount_point)
                           (fun t => ext4_Format env t crypto_blkdev 0 mount_point)
                  else ask (FormatF2fs crypto_blkdev crypto_zoned_blkdev)
                           (fun t => f2fs_Format env t crypto_blkdev crypto_zoned_blkdev)) ;;
        if negb (error =? 0) then
          log ERROR ("Format of " +++ crypto_blkdev +++ " for " +++ mount_point
                       +++ " failed (err=" +++ fmt_int error +++ ").") ;;
          ret false
        else
          log INFO ("Format of " +++ crypto_blkdev +++ " for " +++ mount_point
                      +++ " succeeded.") ;;
          ret true
      else
        log ERROR ("Unknown filesystem type: " +++ fs_type) ;;
        ret false
    else
      if negb (zoned_device =? "")%string then
        log ERROR "encrypt_inplace cannot support zoned device; should format it." ;;
        ret false
      else
        encrypted <- ask (EncryptInplace crypto_blkdev blk_device nr_sec)
                         (fun t => encrypt_inplace env t crypto_blkdev blk_device nr_sec) ;;
        if negb encrypted then
          log ERROR "encrypt_inplace failed in mountFstab" ;;
          ret false
        else ret true
  else ret true.

Definition fscrypt_mount_metadata_encrypted_mount (env : Env) (fstab_default : Fstab)
  (mount_point crypto_blkdev : string) (needs_encrypt : bool) : Run (bool * Fstab) :=
  log INFO ("Mounting metadata-encrypted filesystem:" +++ mount_point) ;;
  mounted <- mount_via_fs_mgr env fstab_default mount_point crypto_blkdev needs_encrypt ;;
  let fstab_default := snd mounted in
  ask (SetProp "ro.crypto.fs_crypto_blkdev" crypto_blkdev)
      (fun t => SetProperty env t "ro.crypto.fs_crypto_blkdev" crypto_blkdev) ;;
  (* Record that there's at least one fstab entry with metadata encryption *)
  recorded <- ask (SetProp "ro.crypto.metadata.enabled" "true")
                  (fun t => SetProperty env t "ro.crypto.metadata.enabled" "true") ;;
  (if negb recorded then log WARNING "failed to set ro.crypto.metadata.enabled"
   else ret tt) ;;
  ret (true, fstab_default).

Definition fscrypt_mount_metadata_encrypted (env : Env) (blk_device mount_point : string)
  (needs_encrypt should_format : bool) (fs_type zoned_device fstab_path : string)
  (fstab_default : Fstab) : Run (bool * Fstab) :=
  log INFO ("fscrypt_mount_metadata_encrypted: " +++ mount_point
              +++ " encrypt: " +++ fmt_bool needs_encrypt
              +++ " format: " +++ fmt_bool should_format +++ " with " +++ fs_type
              +++ " block device: " +++ blk_device
              +++ " and zoned device: " +++ zoned_device) ;;
  encrypted_state <- ask (Property "ro.crypto.state")
                         (fun t => GetProperty env t "ro.crypto.state" "") ;;
  if negb (encrypted_state =? "")%string && negb (encrypted_state =? "encrypted")%string
  then
    log INFO ("fscrypt_mount_metadata_encrypted got unexpected starting state: "
                +++ encrypted_state) ;;
    ret (false, fstab_default)
  else
    read <- fscrypt_mount_metadata_encrypted_fstab env fstab_path fstab_default ;;
    let '(opened, fstab_default) := read in
    if negb opened then ret (false, fstab_default)
    else
      match GetEntryForMountPoint fstab_default mount_point with
      | None =>
          log ERROR ("Failed to get data_rec for " +++ mount_point) ;;
          ret (false, fstab_default)
      | Some data_rec =>
          chosen <- fscrypt_mount_metadata_encrypted_options env data_rec ;;
          match chosen with
          | None => ret (false, fstab_default)
          | Some options =>
              devices <- fscrypt_mount_metadata_encrypted_devices env blk_device
                           zoned_device needs_encrypt data_rec options ;;
              match devices with
              | None => ret (false, fstab_default)
              | Some (crypto_blkdev, crypto_zoned_blkdev, nr_sec) =>
                  encrypted <- fscrypt_mount_metadata_encrypted_encrypt env blk_device
                                 mount_point needs_encrypt should_format fs_type
                                 zoned_device crypto_blkdev crypto_zoned_blkdev nr_sec ;;
                  if negb encrypted then ret (false, fstab_default)
                  else
                    fscrypt_mount_metadata_encrypted_mount env fstab_default mount_point
                      crypto_blkdev needs_encrypt
              end
          end
      end.

(** ** A test bench *)

(** The [/data] entry of the bench: the metadata encryption options are
    [value], the key directory is [host_key_dir]. *)
Definition bench_data_rec (value host_key_dir : string) : FstabEntry :=
  {| mount_point := "/data";
     metadata_key_dir := host_key_dir;
     encryption_options := "aes-256-xts:aes-256-cts:v2";
     metadata_encryption_options := value;
     checkpoint_blk := false |}.

(** An environment in which every call succeeds but the mount: the block
    device has [measured] sectors, the device [userdata] is in [state], a
    string property has the value [value], a boolean one its default, and
    the host keeps its metadata key in [host_key_dir]. *)
Definition bench_env (measured : Z) (state : DmDeviceState) (value host_key_dir : string)
  : Env :=
  {| aes_256_xts :=
       {| get_config_name := Some "aes-256-xts"%string;
          get_kernel_name := Some "aes-xts-plain64"%string;
          get_keysize := 64 |};
     adiantum :=
       {| get_config_name := Some "adiantum"%string;
          get_kernel_name := Some "xchacha12,aes-adiantum-plain64"%string;
          get_keysize := 32 |};
     invalid_crypto_type :=
       {| get_config_name := None; get_kernel_name := None; get_keysize := 0 |};
     GetProperty :=
       fun _ key default =>
         if (key =? "ro.crypto.volume.metadata.encryption")%string then value
         else default;
     GetBoolProperty := fun _ _ default => default;
     SetProperty := fun _ _ _ => true;
     GetBlockDev512Sectors := fun _ _ _ => (OK, measured);
     StrToHex := fun key => Some (string_of_list_byte key);
     pathExists := fun _ _ => true;
     DeleteDirContentsAndDir := fun _ _ => OK;
     MkdirsSync := fun _ _ _ => true;
     exportWrappedStorageKey := fun _ key => Some key;
     destroyKey := fun _ _ => true;
     retrieveOrGenerateKey := fun _ _ _ _ _ => (true, [x0a; x0b]);
     neverGen := {| keysize := 0; allow_gen := false; gen_use_hw_wrapped_key := false |};
     is_metadata_wrapped_key_supported := fun _ => false;
     dm_GetState := fun _ _ => state;
     dm_LoadTableAndActivate := fun _ _ _ => true;
     dm_WaitForDevice := fun _ _ _ _ => (true, "/dev/block/dm-5"%string);
     dm_CreateDevice := fun _ _ _ _ _ => (true, "/dev/block/dm-5"%string);
     dm_CreatePlaceholderDevice := fun _ _ => true;
     ReadDefaultFstab := fun _ _ => (true, [bench_data_rec value host_key_dir]);
     ReadFstabFromFile := fun _ _ _ => (true, [bench_data_rec value host_key_dir]);
     (* the mount fails *)
     fs_mgr_do_mount := fun _ fstab _ _ _ _ => (-1, fstab);
     GetDsuMetadataKeyDir := fun dsu_slot => ("/metadata/gsi/dsu/" +++ dsu_slot)%string;
     ParseOptions := fun _ => (true, 2);
     ext4_Format := fun _ _ _ _ => OK;
     f2fs_Format := fun _ _ _ => OK;
     encrypt_inplace := fun _ _ _ _ => true;
     cp_needsCheckpoint := fun _ => false;
     setexeccon := fun _ _ => 0;
     sFsckContext := Some "u:r:fsck:s0"%string;
     DATA_MNT_POINT := "/data";
     uninit_nr_sec := 12345 |}.

Definition bench_options (env : Env) : CryptoOptions :=
  set_cipher (CryptoOptions_default env) (aes_256_xts env).

(** ** Notions used in the statements *)

(** Whether a character of [delimiters] occurs in [s]. *)
Definition has_delimiter (delimiters s : string) : bool :=
  existsb (is_delimiter delimiters) (list_ascii_of_string s).

(** The tables handed to the device mapper in [calls], each with the
    name of its device. *)
Definition submitted_tables (calls : trace) : list (string * DmTable) :=
  flat_map (fun c =>
              match c with
              | LoadTable name table => [(name, table)]
              | CreateDevice name table _ => [(name, table)]
              | _ => []
              end) calls.

(** The calls of [mount_via_fs_mgr]. *)
Definition mount_attempted (c : call) : bool :=
  match c with
  | SetExecCon _ | NeedsCheckpoint | DoMount _ _ _ _ => true
  | _ => false
  end.

(** [hoare P Q m]: every call that [m] adds to the trace satisfies [P],
    and a result of [m] satisfies [Q]. *)
Definition hoare {A} (P : call -> Prop) (Q : A -> Prop) (m : Run A) : Prop :=
  forall t,
    exists calls,
      snd (m t) = t ++ calls /\ Forall P calls /\ (forall a, fst (m t) = Ret a -> Q a).

Definition emits {A} (P : call -> Prop) (m : Run A) : Prop :=
  hoare P (fun _ => True) m.

(** Once the mount was attempted, the run reports success. *)
Definition reports_mount (m : Run (bool * Fstab)) : Prop :=
  forall t,
    exists calls,
      snd (m t) = t ++ calls
      /\ (existsb mount_attempted calls = true ->
          exists fstab, fst (m t) = Ret (true, fstab)).

(** The table of a default-key device as this code builds it: one
    target from sector 0, a whole number of 4096-byte sectors long, either
    in the legacy format with the legacy cipher or in the current format
    with the DUN flag set. *)
Definition well_formed_table (table : DmTable) : Prop :=
  exists target,
    table = [target]
    /\ dm_start target = 0
    /\ dm_start_sector target = 0
    /\ dm_length target mod 8 = 0
    /\ ((dm_use_legacy_options_format target = true
         /\ dm_cipher target = "AES-256-XTS"%string)
        \/ (dm_use_legacy_options_format target = false
            /\ dm_set_dun target = true)).

Definition submits_well_formed_tables (c : call) : Prop :=
  match c with
  | LoadTable name table => name = kDmNameUserdata /\ well_formed_table table
  | CreateDevice name table _ =>
      (name = kDmNameUserdata \/ name = kDmNameUserdataZoned) /\ well_formed_table table
  | _ => True
  end.

(** The options that [fscrypt_mount_metadata_encrypted] settles on. *)
Definition mount_options_ok (options : CryptoOptions) : Prop :=
  (use_legacy_options_format options = true
   /\ get_kernel_name (cipher options) = Some "AES-256-XTS"%string)
  \/ (use_legacy_options_format options = false /\ set_dun options = true).

(** What a run that was not asked to encrypt may call: nothing that
    formats or encrypts, no key retrieval that may generate a key. *)
Definition leaves_data_alone (env : Env) (c : call) : Prop :=
  match c with
  | FormatExt4 _ _ _ | FormatF2fs _ _ | EncryptInplace _ _ _ => False
  | RetrieveOrGenerateKey _ _ gen => gen = neverGen env
  | DoMount _ _ _ needs_encrypt => needs_encrypt = false
  | _ => True
  end.

(** The calls that delete something. *)
Definition destructive (c : call) : bool :=
  match c with
  | DestroyKey _ | DeleteDir _ => true
  | _ => false
  end.


End MetadataCrypt.

(** ** Runs compared across two file systems *)

(** The history without the text that was printed: the calls made. *)
Definition is_printf (e : event) : bool :=
  match e with
  | EvPrintf _ => true
  | _ => false
  end.

Definition calls_made (h : history) : history :=
  filter (fun e => negb (is_printf e)) h.

(** Two runs that give the same outcome and make the same calls, from
    histories that hold the same calls; they may print different text. *)
Definition same_calls {A} (m m' : M A) : Prop :=
  forall h h',
    calls_made h = calls_made h' ->
    fst (m h) = fst (m' h') /\ calls_made (snd (m h)) = calls_made (snd (m' h')).

(** The services answer by the calls made so far: they do not see what
    the program prints. *)
Definition services_ignore_printf (w : World) : Prop :=
  forall h h',
    calls_made h = calls_made h' ->
    weaver_ok (weaver w) h = weaver_ok (weaver w) h'
    /\ weaver_GetKeySize (weaver w) h = weaver_GetKeySize (weaver w) h'
    /\ (forall slot key,
           weaver_WeaverVerify (weaver w) h slot key
           = weaver_WeaverVerify (weaver w) h' slot key)
    /\ (forall verify, aidl_gk_device w = Some verify ->
        forall uid c handle password,
          verify h uid c handle password = verify h' uid c handle password)
    /\ (forall verify, gk_device w = Some verify ->
        forall uid c handle password,
          verify h uid c handle password = verify h' uid c handle password)
    /\ authorization_service w h = authorization_service w h'
    /\ keystore_service w h = keystore_service w h'
    /\ (forall alias, ks_getKeyEntry w h alias = ks_getKeyEntry w h' alias)
    /\ (forall key params,
           ks_createOperation w h key params = ks_createOperation w h' key params)
    /\ (forall input, ks_finish w h input = ks_finish w h' input)
    /\ (forall uid secret,
           fscrypt_unlock_ce_storage w h uid secret
           = fscrypt_unlock_ce_storage w h' uid secret)
    /\ (forall volume uid flags,
           fscrypt_prepare_user_storage w h volume uid flags
           = fscrypt_prepare_user_storage w h' volume uid flags).

(** The resolution of a blob name as a rule: the file of the name
    [<handle><suffix>] if it exists, else the first of [0<handle><suffix>]
    and [00<handle><suffix>] that can be read. *)
Definition resolved (f : string -> file_state) (p hs sfx : string) : file_state :=
  match f (p +++ hs +++ sfx) with
  | Absent =>
      match f (p +++ "0" +++ hs +++ sfx) with
      | Readable data => Readable data
      | _ =>
          match f (p +++ "00" +++ hs +++ sfx) with
          | Readable data => Readable data
          | _ => Absent
          end
      end
  | present => present
  end.

(** The file system [f] with the [.pwd], [.spblob] and [.secdis] blobs of
    the handle stored under their plain names. *)
Definition unpadded (f : string -> file_state) (p hs : string) (path : string)
  : file_state :=
  if (path =? p +++ hs +++ ".pwd")%string then resolved f p hs ".pwd"
  else if (path =? p +++ hs +++ ".spblob")%string then resolved f p hs ".spblob"
  else if (path =? p +++ hs +++ ".secdis")%string then resolved f p hs ".secdis"
  else f path.

(** * Properties *)

(** ** Runs that do not consult the history *)

Lemma framed_ret {A} (a : A) : framed (ret a).
Proof. intro h. unfold ret. simpl. now rewrite app_nil_r. Qed.

Lemma framed_lift {A} (o : outcome A) : framed (lift o).
Proof. intro h. unfold lift. simpl. now rewrite app_nil_r. Qed.

Lemma framed_undef {A} : framed (@undef A).
Proof. intro h. unfold undef. simpl. now rewrite app_nil_r. Qed.

Lemma framed_emit e : framed (emit e).
Proof. intro h. reflexivity. Qed.

Lemma framed_printf msg : framed (printf msg).
Proof. apply framed_emit. Qed.

Lemma framed_bind {A B} (m : M A) (k : A -> M B) :
  framed m -> (forall a, framed (k a)) -> framed (bind m k).
Proof.
  intros Hm Hk h. unfold bind.
  rewrite (Hm h). destruct (m []) as [[a|] e0]; simpl.
  - rewrite (Hk a (h ++ e0)), (Hk a e0). simpl. now rewrite app_assoc.
  - reflexivity.
Qed.

Create HintDb framed_db.
#[local] Hint Resolve framed_ret framed_lift framed_undef framed_emit
  framed_printf : framed_db.

Ltac framed_step :=
  match goal with
  | |- framed (bind _ _) => apply framed_bind; [ | intro ]
  | |- framed (match ?x with _ => _ end) => destruct x
  | |- framed (if ?b then _ else _) => destruct b
  | |- framed _ => solve [ auto with framed_db ]
  end.

Lemma framed_read_first w paths : framed (read_first w paths).
Proof.
  induction paths as [|p rest IH]; simpl.
  - apply framed_ret.
  - destruct (ReadFileToString w p); repeat framed_step.
Qed.
#[local] Hint Resolve framed_read_first : framed_db.

Lemma framed_Get_Spblob_Data w p hs sfx tag :
  framed (Get_Spblob_Data w p hs sfx tag).
Proof. unfold Get_Spblob_Data. repeat framed_step. Qed.
#[local] Hint Resolve framed_Get_Spblob_Data : framed_db.

Lemma framed_Get_Weaver_Data w p hs : framed (Get_Weaver_Data w p hs).
Proof. unfold Get_Weaver_Data. repeat framed_step. Qed.

Lemma framed_Is_Weaver w p hs : framed (Is_Weaver w p hs).
Proof. unfold Is_Weaver. repeat framed_step. Qed.

Lemma framed_Get_Password_Data w p hs : framed (Get_Password_Data w p hs).
Proof. unfold Get_Password_Data. repeat framed_step. Qed.

(** ** The [.weaver] parser *)

(** For a [.weaver] file of eight bytes or more, the version is byte 0 and
    the slot is the host-endian [int] made of bytes 4 to 7. *)
Lemma Get_Weaver_Data_reads_offset_4 w p hs v b1 b2 b3 b4 b5 b6 b7 rest h :
  fs w (p +++ hs +++ ".weaver")
    = Readable (v :: b1 :: b2 :: b3 :: b4 :: b5 :: b6 :: b7 :: rest) ->
  fst (Get_Weaver_Data w p hs h)
    = Ret (Some {| version := v;
                   slot := decode_int (host_endian w) [b4; b5; b6; b7] |}).
Proof.
  intro Hfs. unfold Get_Weaver_Data, ReadFileToString, bind, printf, emit.
  rewrite Hfs. reflexivity.
Qed.

(** A five-byte file, as the format describes it, is too short for the
    load: bytes 6 and 7 lie past the terminating NUL. *)
Example Get_Weaver_Data_five_bytes :
  fst (Get_Weaver_Data
         (Bench.world [(Bench.dir +++ "abc.weaver",
                        Readable [x01; x07; x00; x00; x00])] None 64)
         Bench.dir "abc" [])
  = Undef.
Proof. reflexivity. Qed.

(** C1 (code defect): the claim puts the slot in the four bytes after the
    version byte, file offsets 1..4.  On the file
    [01 07 00 00 00 09 00 00] of a little-endian host those bytes spell
    slot 7; [Get_Weaver_Data] returns version 1 and slot 2304, the [int]
    at offsets 4..7. *)
Theorem C1_Get_Weaver_Data_slot_read_at_offset_4 :
  let w := Bench.world [(Bench.dir +++ "abc.weaver", Readable Bench.weaver_bytes)]
             None 64 in
  fst (Get_Weaver_Data w Bench.dir "abc" [])
    = Ret (Some {| version := x01; slot := 2304 |})
  /\ decode_int (host_endian w) (firstn 4 (skipn 1 Bench.weaver_bytes)) = 7
  /\ decode_int (host_endian w) (firstn 4 (skipn 4 Bench.weaver_bytes)) = 2304.
Proof. repeat split; reflexivity. Qed.

(** ** Blob resolution *)

(** The three readers go through [Get_Spblob_Data] with their suffix. *)
Lemma readers_use_Get_Spblob_Data w p hs user_id app :
  Get_Secdis w p hs = Get_Spblob_Data w p hs ".secdis" "secdis"
  /\ (exists k, Get_Password_Data w p hs
                = bind (Get_Spblob_Data w p hs ".pwd" "password") k)
  /\ (exists k, unwrapSyntheticPasswordBlob w p hs user_id app
                = bind (printf ("Attempting to unwrap synthetic password blob" +++ LF))
                    (fun _ => bind (emit EvStartThreadPool)
                      (fun _ => bind (Get_Spblob_Data w p hs ".spblob" "spblob") k))).
Proof.
  split; [reflexivity|]. split.
  - unfold Get_Password_Data. eexists. reflexivity.
  - unfold unwrapSyntheticPasswordBlob. eexists. reflexivity.
Qed.

(** ** Stepping through a run *)

Lemma bind_ret {A B} (a : A) (k : A -> M B) h : bind (ret a) k h = k a h.
Proof. reflexivity. Qed.

Lemma bind_emit {B} e (k : unit -> M B) h : bind (emit e) k h = k tt (h ++ [e]).
Proof. reflexivity. Qed.

Lemma bind_printf {B} msg (k : unit -> M B) h :
  bind (printf msg) k h = k tt (h ++ [EvPrintf msg]).
Proof. reflexivity. Qed.

Lemma bind_ask {A B} e (oracle : history -> A) (k : A -> M B) h :
  bind (ask e oracle) k h = k (oracle h) (h ++ [e]).
Proof. reflexivity. Qed.

Lemma bind_peek {A B} (oracle : history -> A) (k : A -> M B) h :
  bind (peek oracle) k h = k (oracle h) h.
Proof. reflexivity. Qed.

Lemma bind_lift_Ret {A B} (a : A) (k : A -> M B) h : bind (lift (Ret a)) k h = k a h.
Proof. reflexivity. Qed.

Lemma bind_assoc {A B C} (m : M A) (k : A -> M B) (k' : B -> M C) h :
  bind (bind m k) k' h = bind m (fun a => bind (k a) k') h.
Proof. unfold bind. destruct (m h) as [[a|] h']; reflexivity. Qed.

Lemma bind_framed {A B} (m : M A) (k : A -> M B) h :
  framed m ->
  bind m k h = match fst (m []) with
               | Ret a => k a (h ++ snd (m []))
               | Undef => (Undef, h ++ snd (m []))
               end.
Proof.
  intro Hm. unfold bind. rewrite (Hm h). destruct (fst (m [])); reflexivity.
Qed.

Lemma bind_Free_Return {B} retval (k : bool -> M B) h :
  bind (Free_Return retval) k h = k retval (h ++ [EvPrintf ("Free_Return" +++ LF)]).
Proof. reflexivity. Qed.

Ltac run_step :=
  first [ rewrite bind_printf | rewrite bind_emit | rewrite bind_ask
        | rewrite bind_peek | rewrite bind_ret | rewrite bind_lift_Ret
        | rewrite bind_Free_Return ];
  cbv beta iota.

Ltac run_with H := rewrite H; cbv beta iota delta [negb].

(** Membership in a history written with [::] and [++]. *)
Ltac in_history :=
  repeat first [ progress cbn [In] | rewrite in_app_iff ]; intuition auto.

Ltac in_history_in H :=
  repeat first [ progress cbn [In] in H | rewrite in_app_iff in H ].

(** ** What a run may add to the history *)

Section Emits.

Variable P : event -> Prop.

Lemma emits_ret {A} (a : A) : emits P (ret a).
Proof. intro h. exists []. split; [ now rewrite app_nil_r | constructor ]. Qed.

Lemma emits_lift {A} (o : outcome A) : emits P (lift o).
Proof. intro h. exists []. split; [ now rewrite app_nil_r | constructor ]. Qed.

Lemma emits_undef {A} : emits P (@undef A).
Proof. intro h. exists []. split; [ now rewrite app_nil_r | constructor ]. Qed.

Lemma emits_peek {A} (oracle : history -> A) : emits P (peek oracle).
Proof. intro h. exists []. split; [ now rewrite app_nil_r | constructor ]. Qed.

Lemma emits_emit e : P e -> emits P (emit e).
Proof. intros He h. exists [e]. split; [ reflexivity | now repeat constructor ]. Qed.

Lemma emits_ask {A} e (oracle : history -> A) : P e -> emits P (ask e oracle).
Proof. intros He h. exists [e]. split; [ reflexivity | now repeat constructor ]. Qed.

Lemma emits_bind {A B} (m : M A) (k : A -> M B) :
  emits P m -> (forall a, emits P (k a)) -> emits P (bind m k).
Proof.
  intros Hm Hk h. unfold bind.
  destruct (Hm h) as (e1 & E1 & F1).
  destruct (m h) as [[a|] h1]; simpl in E1; subst h1.
  - destruct (Hk a (h ++ e1)) as (e2 & E2 & F2).
    exists (e1 ++ e2). split.
    + now rewrite E2, app_assoc.
    + now apply Forall_app.
  - exists e1. now split.
Qed.

Hypothesis P_printf : forall msg, P (EvPrintf msg).

Lemma emits_printf msg : emits P (printf msg).
Proof. apply emits_emit, P_printf. Qed.

Ltac emits_step :=
  match goal with
  | |- emits _ (bind _ _) => apply emits_bind; [ | intro ]
  | |- emits _ (match ?x with _ => _ end) => destruct x
  | |- emits _ (if ?b then _ else _) => destruct b
  | |- emits _ (let _ := _ in _) => cbv zeta
  | |- emits _ (ret _) => apply emits_ret
  | |- emits _ (lift _) => apply emits_lift
  | |- emits _ undef => apply emits_undef
  | |- emits _ (peek _) => apply emits_peek
  | |- emits _ (printf _) => apply emits_printf
  | |- emits _ (emit _) => apply emits_emit; solve [ auto ]
  | |- emits _ (ask _ _) => apply emits_ask; solve [ auto ]
  | |- emits _ _ => solve [ auto ]
  end.

Lemma emits_read_first w paths : emits P (read_first w paths).
Proof.
  induction paths as [|p rest IH]; simpl; repeat emits_step.
Qed.

Lemma emits_Get_Spblob_Data w p hs sfx tag : emits P (Get_Spblob_Data w p hs sfx tag).
Proof.
  pose proof emits_read_first. unfold Get_Spblob_Data. repeat emits_step.
Qed.

Lemma emits_Get_Password_Data w p hs : emits P (Get_Password_Data w p hs).
Proof.
  pose proof emits_Get_Spblob_Data. unfold Get_Password_Data. repeat emits_step.
Qed.

Lemma emits_Get_Password_Token w pwd pw tok : emits P (Get_Password_Token w pwd pw tok).
Proof. unfold Get_Password_Token. repeat emits_step. Qed.

Lemma emits_Get_Weaver_Data w p hs : emits P (Get_Weaver_Data w p hs).
Proof. unfold Get_Weaver_Data. repeat emits_step. Qed.

Lemma emits_Is_Weaver w p hs : emits P (Is_Weaver w p hs).
Proof. unfold Is_Weaver. repeat emits_step. Qed.

Lemma emits_Free_Return b : emits P (Free_Return b).
Proof. unfold Free_Return. repeat emits_step. Qed.

Section Before_unwrap.

Hypothesis P_copy : forall src dst, P (EvCopySqliteDb src dst).

Lemma emits_password_token w p hs pw :
  emits P (Decrypt_User_Synth_Pass_password_token w p hs pw).
Proof.
  pose proof emits_Get_Password_Data. pose proof emits_Get_Password_Token.
  pose proof emits_Free_Return.
  unfold Decrypt_User_Synth_Pass_password_token, copySqliteDb.
  repeat emits_step.
Qed.

Hypothesis P_gatekeeper : forall a u c hd pw, P (EvGatekeeperVerify a u c hd pw).
Hypothesis P_auth : forall t, P (EvAddAuthToken t).

Lemma emits_add_auth_token w gk : emits P (add_auth_token w gk).
Proof. unfold add_auth_token. repeat emits_step. Qed.

Lemma emits_gatekeeper w uid pwd tok :
  emits P (Decrypt_User_Synth_Pass_gatekeeper w uid pwd tok).
Proof.
  pose proof emits_add_auth_token. pose proof emits_Free_Return.
  unfold Decrypt_User_Synth_Pass_gatekeeper. repeat emits_step.
Qed.

Lemma emits_secdis w uid p hs pw pwd tok :
  emits P (Decrypt_User_Synth_Pass_secdis w uid p hs pw pwd tok).
Proof.
  pose proof emits_gatekeeper. pose proof emits_Free_Return.
  pose proof emits_Get_Spblob_Data.
  unfold Decrypt_User_Synth_Pass_secdis, Get_Secdis. repeat emits_step.
Qed.

Hypothesis P_weaver_connect : P EvWeaverConnect.
Hypothesis P_weaver_size : P EvWeaverGetKeySize.
Hypothesis P_weaver_verify : forall s k, P (EvWeaverVerify s k).

Lemma emits_weaver w p hs tok :
  emits P (Decrypt_User_Synth_Pass_weaver w p hs tok).
Proof.
  pose proof emits_Get_Weaver_Data. pose proof emits_Free_Return.
  unfold Decrypt_User_Synth_Pass_weaver. repeat emits_step.
Qed.

Lemma emits_application_id w uid p hs pw :
  emits P (Decrypt_User_Synth_Pass_application_id w uid p hs pw).
Proof.
  pose proof emits_password_token. pose proof emits_Is_Weaver.
  pose proof emits_weaver. pose proof emits_secdis.
  unfold Decrypt_User_Synth_Pass_application_id. repeat emits_step.
Qed.

End Before_unwrap.

End Emits.

(** ** The default password token *)

(** With the credential ["!"] the first 16 bytes of the token are the
    text [default-password]; the other 16 are what the array held before. *)
Lemma default_password_token w p hs h :
  fst (Decrypt_User_Synth_Pass_password_token w p hs "!" h)
  = Ret (Some (pwd_init,
               list_byte_of_string "default-password"
                 ++ skipn 16 (uninit_password_token w))).
Proof. reflexivity. Qed.

(** C5 (code defect): the claim wants the default token to be
    [default-password] followed by 16 NUL bytes.  The code copies the 16
    bytes of the text into an array it never cleared: where that array
    held [0xff] bytes, the token ends in 16 bytes [0xff]. *)
Theorem C5_default_token_keeps_old_bytes :
  let w := Bench.world [] None 64 in
  exists token,
    fst (Decrypt_User_Synth_Pass_password_token w Bench.dir "abc" "!" [])
      = Ret (Some (pwd_init, token))
    /\ token = list_byte_of_string "default-password" ++ repeat xff 16
    /\ List.length token = 32%nat
    /\ token <> padded_default_password.
Proof.
  eexists. split; [ reflexivity | ]. repeat split; discriminate.
Qed.

(** ** The weaver key size *)

(** C8, counterexample.  The stub weaver reports a key size of 32; the
    weaver key has 64 bytes; verify is called all the same. *)
Lemma C8_counterexample :
  let w := Bench.world
             [ (Bench.dir +++ "abc.weaver", Readable Bench.weaver_bytes);
               (Bench.dir +++ "abc.spblob", Readable (Bench.spblob_bytes x02)) ]
             None 32 in
  let weaver_key :=
    Bench.toy_hash "weaver-key"
      (list_byte_of_string "default-password" ++ repeat xff 16) in
  (forall h, weaver_GetKeySize (weaver w) h = Some 32)
  /\ List.length weaver_key = 64%nat
  /\ find is_weaver_verify (snd (Decrypt_User_Synth_Pass w 0 "!" []))
     = Some (EvWeaverVerify 2304 weaver_key).
Proof. repeat split. Qed.

(** C8, amended.  On the weaver path the code asks the weaver service for
    its key size and gives up when that query fails; it does not compare
    the size with the length of the weaver key.  Whenever the query
    succeeds, with whatever size, verify is called with the slot of the
    [.weaver] file and the weaver key. *)
Theorem C8_verify_called_whatever_key_size w p hs tok h wd weaver_key size :
  fst (Get_Weaver_Data w p hs []) = Ret (Some wd) ->
  PersonalizedHashBinary w PERSONALISATION_WEAVER_KEY
    (firstn PASSWORD_TOKEN_SIZE tok) = Some weaver_key ->
  (forall h', weaver_ok (weaver w) h' = true) ->
  (forall h', weaver_GetKeySize (weaver w) h' = size) ->
  exists r evs,
    Decrypt_User_Synth_Pass_weaver w p hs tok h = (r, h ++ evs)
    /\ match size with
       | Some _ => In (EvWeaverVerify (to_uint32 (slot wd)) weaver_key) evs
       | None => r = Ret None /\ forall s k, ~ In (EvWeaverVerify s k) evs
       end.
Proof.
  intros Hwd Hkey Hok Hsize.
  assert (Hq : Forall (fun e => is_weaver_verify e = false)
                 (snd (Get_Weaver_Data w p hs []))).
  { destruct (emits_Get_Weaver_Data (fun e => is_weaver_verify e = false)
                (fun _ => eq_refl) w p hs []) as (evs & E & F).
    now rewrite E. }
  destruct (Decrypt_User_Synth_Pass_weaver w p hs tok h) as [r hf] eqn:E.
  revert E. unfold Decrypt_User_Synth_Pass_weaver.
  run_step. rewrite (bind_framed _ _ _ (framed_Get_Weaver_Data w p hs)), Hwd.
  cbv beta iota. run_with Hkey. run_step. run_with Hok.
  run_step. run_with Hsize.
  destruct size as [n|].
  - run_step. run_step.
    destruct (weaver_WeaverVerify (weaver w) _ (to_uint32 (slot wd)) weaver_key)
      as [payload|].
    + destruct (PersonalizedHashBinary w PERSONALISATION_WEAVER_PASSWORD payload);
        unfold ret, undef; repeat rewrite <- app_assoc;
        intros [= <- <-]; do 2 eexists; (split; [ reflexivity | ]);
        in_history.
    + run_step. run_step. unfold ret. repeat rewrite <- app_assoc.
      intros [= <- <-]. do 2 eexists. split; [ reflexivity | ].
      in_history.
  - run_step. run_step. unfold ret. repeat rewrite <- app_assoc.
    intros [= <- <-]. do 2 eexists. split; [ reflexivity | ].
    split; [ reflexivity | ].
    intros s k Hin. in_history_in Hin.
    rewrite Forall_forall in Hq.
    repeat match goal with
           | H : _ \/ _ |- _ => destruct H
           | H : False |- _ => destruct H
           | H : _ = EvWeaverVerify _ _ |- _ => discriminate H
           | H : In _ (snd _) |- _ => apply Hq in H; discriminate H
           end.
Qed.

(** The amended C8 at work: key size 32 reported, verify called. *)
Lemma C8_verify_called_witness :
  let w := Bench.world [(Bench.dir +++ "abc.weaver", Readable Bench.weaver_bytes)]
             None 32 in
  let tok := repeat x11 32 in
  exists r evs,
    Decrypt_User_Synth_Pass_weaver w Bench.dir "abc" tok [] = (r, [] ++ evs)
    /\ In (EvWeaverVerify 2304 (Bench.toy_hash "weaver-key" tok)) evs.
Proof.
  exact (C8_verify_called_whatever_key_size
           (Bench.world [(Bench.dir +++ "abc.weaver", Readable Bench.weaver_bytes)]
              None 32)
           Bench.dir "abc" (repeat x11 32) []
           {| version := x01; slot := 2304 |}
           (Bench.toy_hash "weaver-key" (repeat x11 32)) (Some 32)
           eq_refl eq_refl (fun _ => eq_refl) (fun _ => eq_refl)).
Defined.

(** ** Rejected spblobs *)

Lemma bind_unfold {A B} (m : M A) (k : A -> M B) h :
  bind m k h = match m h with
               | (Ret a, h') => k a h'
               | (Undef, h') => (Undef, h')
               end.
Proof. reflexivity. Qed.

Lemma emits_run {A} (P : event -> Prop) (m : M A) h r h' :
  emits P m -> m h = (r, h') -> exists evs, h' = h ++ evs /\ Forall P evs.
Proof.
  intros Hm E. destruct (Hm h) as (evs & E' & F).
  rewrite E in E'. simpl in E'. now exists evs.
Qed.

Lemma application_id_before_unwrap w uid p hs pw :
  emits before_unwrap (Decrypt_User_Synth_Pass_application_id w uid p hs pw).
Proof.
  apply emits_application_id; intros; split; reflexivity.
Qed.

Lemma Get_Spblob_Data_local w p hs sfx tag :
  Forall (fun e => is_local_event e = true) (snd (Get_Spblob_Data w p hs sfx tag [])).
Proof.
  destruct (emits_Get_Spblob_Data (fun e => is_local_event e = true)
              (fun _ => eq_refl) w p hs sfx tag []) as (evs & E & F).
  now rewrite E.
Qed.

(** A blob with a version other than 2 and 3, or a type other than 0,
    makes [unwrapSyntheticPasswordBlob] return the empty string without
    a call to a service. *)
Lemma unwrap_rejects_blob w p hs uid app data h :
  fst (Get_Spblob_Data w p hs ".spblob" "spblob" []) = Ret (Some data) ->
  (spblob_version data <> 2 /\ spblob_version data <> 3) \/ spblob_type data <> 0 ->
  exists evs,
    unwrapSyntheticPasswordBlob w p hs uid app h = (Ret EmptyString, h ++ evs)
    /\ Forall (fun e => is_local_event e = true) evs.
Proof.
  intros Hdata Hbad.
  pose proof (Get_Spblob_Data_local w p hs ".spblob" "spblob") as Hloc.
  unfold unwrapSyntheticPasswordBlob.
  run_step. run_step.
  rewrite (bind_framed _ _ _ (framed_Get_Spblob_Data w p hs ".spblob" "spblob")), Hdata.
  cbv beta iota zeta.
  unfold spblob_version, spblob_type in Hbad.
  unfold SYNTHETIC_PASSWORD_VERSION_V1, SYNTHETIC_PASSWORD_VERSION_V2,
    SYNTHETIC_PASSWORD_VERSION_V3, SYNTHETIC_PASSWORD_PASSWORD_BASED.
  assert (Hfin : forall evs' : list event,
             Forall (fun e => is_local_event e = true) evs' ->
             Forall (fun e => is_local_event e = true)
               ([EvPrintf ("Attempting to unwrap synthetic password blob" +++ LF)]
                  ++ [EvStartThreadPool]
                  ++ snd (Get_Spblob_Data w p hs ".spblob" "spblob" []) ++ evs')).
  { intros evs' F.
    apply Forall_app; split; [ now repeat constructor | ].
    apply Forall_app; split; [ now repeat constructor | ].
    apply Forall_app; split; assumption. }
  assert (Hend : forall evs' : list event,
             Forall (fun e => is_local_event e = true) evs' ->
             exists evs,
               (@Ret string EmptyString,
                 ((h ++ [EvPrintf ("Attempting to unwrap synthetic password blob" +++ LF)])
                    ++ [EvStartThreadPool])
                   ++ snd (Get_Spblob_Data w p hs ".spblob" "spblob" []) ++ evs')
               = (Ret EmptyString, h ++ evs)
               /\ Forall (fun e => is_local_event e = true) evs).
  { intros evs' F. eexists. split; [ | exact (Hfin evs' F) ].
    now repeat rewrite <- app_assoc. }
  assert (Hb0 : load_u8 (c_buffer data) 0 = Ret (nth 0 (c_buffer data) x00))
    by (destruct data; reflexivity).
  rewrite Hb0. run_step.
  set (v := Z_of_byte (nth 0 (c_buffer data) x00)) in *.
  destruct (negb (v =? 2) && negb (v =? 1) && negb (v =? 3)) eqn:Ev.
  - (* an unsupported version *)
    run_step. unfold ret. rewrite <- app_assoc.
    apply Hend. now repeat constructor.
  - assert (Hne : data <> []).
    { intros ->. subst v. discriminate Ev. }
    assert (Hb1 : load_u8 (c_buffer data) 1 = Ret (nth 1 (c_buffer data) x00)).
    { destruct data as [|b0 [|b1 tl]]; [ congruence | reflexivity | reflexivity ]. }
    rewrite Hb1. run_step.
    set (t := Z_of_byte (nth 1 (c_buffer data) x00)) in *.
    destruct (negb (t =? 0)) eqn:Et.
    + (* not password based *)
      run_step. unfold ret. rewrite <- app_assoc.
      apply Hend. now repeat constructor.
    + assert (E23 : (v =? 2) || (v =? 3) = false).
      { apply negb_false_iff, Z.eqb_eq in Et.
        destruct Hbad as [[H2 H3]|H0]; [ | contradiction ].
        apply Z.eqb_neq in H2, H3. now rewrite H2, H3. }
      rewrite E23. unfold ret.
      destruct (Hend [] (Forall_nil _)) as (evs & E & F).
      rewrite app_nil_r in E. now exists evs.
Qed.

Lemma local_is_before_unwrap evs :
  Forall (fun e => is_local_event e = true) evs -> Forall before_unwrap evs.
Proof.
  apply Forall_impl. intros [] E; try discriminate E; split; reflexivity.
Qed.

(** C3: a spblob whose version byte is neither 2 nor 3 (version 1
    included), or whose type byte is not 0, makes the unlock fail; the
    spblob is the one [Get_Spblob_Data] resolves for the user's handle.
    [unwrapSyntheticPasswordBlob] returns the empty string, its error
    value, having called no service; [Decrypt_User_Synth_Pass] returns
    [false] with no keystore call and no call to unlock CE storage, unless
    the run ended earlier, undefined, while the application id was being
    built. *)
Theorem C3_bad_version_or_type_fails w user_id Password data h :
  fst (Get_Spblob_Data w (spblob_path_of user_id) (getHandle w user_id)
         ".spblob" "spblob" []) = Ret (Some data) ->
  (spblob_version data <> 2 /\ spblob_version data <> 3) \/ spblob_type data <> 0 ->
  (forall application_id h1, exists evs,
      unwrapSyntheticPasswordBlob w (spblob_path_of user_id) (getHandle w user_id)
        user_id application_id h1 = (Ret EmptyString, h1 ++ evs)
      /\ Forall (fun e => is_local_event e = true) evs)
  /\ (exists r evs,
        Decrypt_User_Synth_Pass w user_id Password h = (r, h ++ evs)
        /\ Forall before_unwrap evs
        /\ (r = Ret false
            \/ (r = Undef
                /\ fst (Decrypt_User_Synth_Pass_application_id w user_id
                          (spblob_path_of user_id) (getHandle w user_id) Password
                          (h ++ [EvPrintf ("Attempting to decrypt user's synthetic password"
                                             +++ LF)]))
                   = Undef))).
Proof.
  intros Hdata Hbad. split.
  - intros app h1. now apply unwrap_rejects_blob with (data := data).
  - destruct (Decrypt_User_Synth_Pass w user_id Password h) as [r hf] eqn:E.
    revert E. unfold Decrypt_User_Synth_Pass. run_step. cbv zeta.
    rewrite bind_unfold.
    destruct (Decrypt_User_Synth_Pass_application_id w user_id
                (spblob_path_of user_id) (getHandle w user_id) Password _)
      as [r1 h1] eqn:E1.
    apply (emits_run before_unwrap) in E1; [ | apply application_id_before_unwrap ].
    destruct E1 as (evs1 & -> & F1).
    assert (F0 : Forall before_unwrap
                   [EvPrintf ("Attempting to decrypt user's synthetic password" +++ LF)])
      by (repeat constructor).
    destruct r1 as [[application_id|]|].
    + destruct (unwrap_rejects_blob w (spblob_path_of user_id) (getHandle w user_id)
                  user_id application_id data
                  ((h ++ [EvPrintf ("Attempting to decrypt user's synthetic password" +++ LF)])
                     ++ evs1) Hdata Hbad) as (evs2 & E2 & F2).
      rewrite bind_unfold, E2. cbn [String.length Nat.eqb].
      run_step. unfold Free_Return. run_step. unfold ret.
      intros [= <- <-]. repeat rewrite <- app_assoc.
      do 2 eexists. split; [ reflexivity | ]. split; [ | now left ].
      repeat (apply Forall_app; split); auto using local_is_before_unwrap;
        repeat constructor.
    + unfold ret. intros [= <- <-]. repeat rewrite <- app_assoc.
      do 2 eexists. split; [ reflexivity | ]. split; [ | now left ].
      apply Forall_app; split; assumption.
    + intros [= <- <-]. repeat rewrite <- app_assoc.
      do 2 eexists. split; [ reflexivity | ]. split.
      * apply Forall_app; split; assumption.
      * right. split; reflexivity.
Qed.

(** C3 at work: a spblob that starts with byte [0x05], default credential,
    secdis path. *)
Lemma C3_bad_version_witness :
  let w := Bench.world
             [ (Bench.dir +++ "abc.secdis", Readable [x05]);
               (Bench.dir +++ "abc.spblob", Readable (Bench.spblob_bytes x05)) ]
             None 64 in
  exists r evs,
    Decrypt_User_Synth_Pass w 0 "!" [] = (r, [] ++ evs)
    /\ Forall before_unwrap evs
    /\ (r = Ret false
        \/ (r = Undef
            /\ fst (Decrypt_User_Synth_Pass_application_id w 0
                      (spblob_path_of 0) (getHandle w 0) "!"
                      ([] ++ [EvPrintf ("Attempting to decrypt user's synthetic password"
                                          +++ LF)]))
               = Undef)).
Proof.
  refine (proj2 (C3_bad_version_or_type_fails
                   (Bench.world
                      [ (Bench.dir +++ "abc.secdis", Readable [x05]);
                        (Bench.dir +++ "abc.spblob", Readable (Bench.spblob_bytes x05)) ]
                      None 64)
                   0 "!" (Bench.spblob_bytes x05) [] eq_refl _)).
  left. split; discriminate.
Defined.

(** ** The FBE secret *)

Lemma filter_none {A} (f : A -> bool) l :
  Forall (fun x => f x = false) l -> filter f l = [].
Proof.
  induction 1 as [|x l Hx _ IH]; [ reflexivity | ]. cbn. now rewrite Hx.
Qed.

Lemma local_is_no_unlock evs :
  Forall (fun e => is_local_event e = true) evs ->
  Forall (fun e => is_unlock_ce e = false) evs.
Proof. apply Forall_impl. intros [] E; try discriminate E; reflexivity. Qed.

Lemma before_unwrap_is_no_unlock evs :
  Forall before_unwrap evs -> Forall (fun e => is_unlock_ce e = false) evs.
Proof.
  apply Forall_impl. intros [] [_ E]; try discriminate E; reflexivity.
Qed.

(** The plaintext the code keeps: what [EVP_DecryptUpdate] wrote, less
    its last 16 bytes. *)
Lemma firstn_drop_tag (sp tag : bytes) :
  List.length tag = 16%nat ->
  firstn (List.length (sp ++ tag) - 16) (sp ++ tag) = sp.
Proof.
  intro Ht. rewrite length_app, Ht, Nat.add_sub.
  rewrite firstn_app, Nat.sub_diag, firstn_all. cbn. apply app_nil_r.
Qed.

Section Unwrap_succeeds.

Variables (w : World) (p hs : string) (user_id : Z).
Variables (application_id data env pa sp tag : bytes) (key : string).

Hypothesis blob_found :
  fst (Get_Spblob_Data w p hs ".spblob" "spblob" []) = Ret (Some data).
Hypothesis blob_version : spblob_version data = 2 \/ spblob_version data = 3.
Hypothesis blob_type : spblob_type data = 0.
Hypothesis blob_size : (14 <= List.length data)%nat.
Hypothesis keystore_up : forall h, keystore_service w h = true.
Hypothesis key_found :
  forall h, ks_getKeyEntry w h (getAlias w (getHandle w user_id)) = inr key.
Hypothesis operation_begun :
  forall h params, ks_createOperation w h key params = true.
Hypothesis outer_decrypted :
  forall h, ks_finish w h (skipn 14 data) = Some (Some env).
Hypothesis envelope_size : (12 <= List.length env)%nat.
Hypothesis personalized :
  PersonalizedHashBinary w PERSONALISATION_APPLICATION_ID application_id = Some pa.
Hypothesis inner_decrypted :
  EVP_DecryptUpdate w (firstn 32 pa) (firstn 12 env) (skipn 12 env) = sp ++ tag.
Hypothesis tag_size : List.length tag = 16%nat.

(** The secret [unwrapSyntheticPasswordBlob] returns on the good path;
    no call to unlock CE storage is made by the unwrap itself. *)
Lemma unwrap_returns_secret h :
  exists evs,
    unwrapSyntheticPasswordBlob w p hs user_id application_id h
    = (Ret (if spblob_version data =? 3
            then PersonalizedHashSP800 w PERSONALIZATION_FBE_KEY
                   PERSONALISATION_CONTEXT sp
            else PersonalizedHash w PERSONALIZATION_FBE_KEY sp),
       h ++ evs)
    /\ Forall (fun e => is_unlock_ce e = false) evs.
Proof.
  pose proof (local_is_no_unlock _ (Get_Spblob_Data_local w p hs ".spblob" "spblob"))
    as Hloc.
  unfold unwrapSyntheticPasswordBlob.
  run_step. run_step.
  rewrite (bind_framed _ _ _ (framed_Get_Spblob_Data w p hs ".spblob" "spblob")),
    blob_found.
  cbv beta iota zeta.
  assert (Hb0 : load_u8 (c_buffer data) 0 = Ret (nth 0 (c_buffer data) x00))
    by (destruct data; reflexivity).
  assert (Hb1 : load_u8 (c_buffer data) 1 = Ret (nth 1 (c_buffer data) x00)).
  { destruct data as [|b0 [|b1 tl]]; [ cbn in blob_size; lia | reflexivity | reflexivity ]. }
  rewrite Hb0. run_step. rewrite Hb1.
  fold (spblob_version data).
  assert (Hv : negb (spblob_version data =? SYNTHETIC_PASSWORD_VERSION_V2)
               && negb (spblob_version data =? SYNTHETIC_PASSWORD_VERSION_V1)
               && negb (spblob_version data =? SYNTHETIC_PASSWORD_VERSION_V3) = false)
    by (destruct blob_version as [-> | ->]; reflexivity).
  assert (Hv23 : (spblob_version data =? SYNTHETIC_PASSWORD_VERSION_V2)
                 || (spblob_version data =? SYNTHETIC_PASSWORD_VERSION_V3) = true)
    by (destruct blob_version as [-> | ->]; reflexivity).
  rewrite Hv. run_step. fold (spblob_type data). rewrite blob_type.
  change (negb (0 =? SYNTHETIC_PASSWORD_PASSWORD_BASED)) with false. cbv iota.
  rewrite Hv23. run_step.
  assert (Hsz : (List.length data <? 14)%nat = false) by (apply Nat.ltb_ge; exact blob_size).
  rewrite Hsz. run_step. run_with keystore_up.
  run_step. run_with key_found. run_step. run_with operation_begun.
  run_step. run_with outer_decrypted. run_with personalized.
  assert (Hen : (List.length env <? 12)%nat = false)
    by (apply Nat.ltb_ge; exact envelope_size).
  rewrite Hen, inner_decrypted.
  assert (Hout : (List.length (sp ++ tag) <? 16)%nat = false).
  { apply Nat.ltb_ge. rewrite length_app, tag_size. lia. }
  rewrite Hout, (firstn_drop_tag sp tag tag_size).
  unfold SYNTHETIC_PASSWORD_VERSION_V3.
  destruct (spblob_version data =? 3); unfold ret; repeat rewrite <- app_assoc;
    (eexists; split; [ reflexivity | ]);
    repeat (apply Forall_app; split); auto; repeat constructor.
Qed.

End Unwrap_succeeds.

Lemma length_zero_empty (s : string) : (String.length s =? 0)%nat = true <-> s = EmptyString.
Proof. destruct s; cbn; split; intro H; congruence. Qed.

(** What [Decrypt_CE_storage] adds: one call to unlock CE storage, with
    the secret it was given. *)
Lemma Decrypt_CE_storage_unlock_call w user_id secret h :
  exists r evs,
    Decrypt_CE_storage w user_id secret h = (Ret r, h ++ evs)
    /\ filter is_unlock_ce evs = [EvFscryptUnlockCeStorage user_id secret].
Proof.
  unfold Decrypt_CE_storage. run_step. cbv zeta. run_step.
  destruct (fscrypt_unlock_ce_storage w _ user_id secret); cbv beta iota delta [negb].
  - run_step. run_step.
    destruct (fscrypt_prepare_user_storage w _ "" user_id STORAGE_FLAG_CE);
      cbv beta iota delta [negb]; run_step; unfold ret; repeat rewrite <- app_assoc;
      do 2 eexists; split; reflexivity.
  - run_step. unfold ret. repeat rewrite <- app_assoc.
    do 2 eexists; split; reflexivity.
Qed.

(** C6: when the inner decrypt yields the synthetic password [sp] (the
    bytes [EVP_DecryptUpdate] wrote, less the last 16), the secret is
    [PersonalizedHash("fbe-key", sp)], the hex form of the personalized
    hash, for a version 2 spblob and
    [PersonalizedHashSP800("fbe-key", "fbe-key-context", sp)] for a version
    3 spblob; that secret, when it is not empty, is what the one call to
    [fscrypt_unlock_ce_storage] of the run receives. *)
Theorem C6_fbe_secret_by_version
  w user_id Password h h1 application_id data env pa sp tag key :
  Decrypt_User_Synth_Pass_application_id w user_id (spblob_path_of user_id)
    (getHandle w user_id) Password
    (h ++ [EvPrintf ("Attempting to decrypt user's synthetic password" +++ LF)])
  = (Ret (Some application_id), h1) ->
  fst (Get_Spblob_Data w (spblob_path_of user_id) (getHandle w user_id)
         ".spblob" "spblob" []) = Ret (Some data) ->
  spblob_version data = 2 \/ spblob_version data = 3 ->
  spblob_type data = 0 ->
  (14 <= List.length data)%nat ->
  (forall h', keystore_service w h' = true) ->
  (forall h', ks_getKeyEntry w h' (getAlias w (getHandle w user_id)) = inr key) ->
  (forall h' params, ks_createOperation w h' key params = true) ->
  (forall h', ks_finish w h' (skipn 14 data) = Some (Some env)) ->
  (12 <= List.length env)%nat ->
  PersonalizedHashBinary w PERSONALISATION_APPLICATION_ID application_id = Some pa ->
  EVP_DecryptUpdate w (firstn 32 pa) (firstn 12 env) (skipn 12 env) = sp ++ tag ->
  List.length tag = 16%nat ->
  exists secret,
    (spblob_version data = 2 -> secret = PersonalizedHash w "fbe-key" sp)
    /\ (spblob_version data = 3 ->
        secret = PersonalizedHashSP800 w "fbe-key" "fbe-key-context" sp)
    /\ exists r evs,
         Decrypt_User_Synth_Pass w user_id Password h = (Ret r, h ++ evs)
         /\ (secret <> EmptyString ->
             filter is_unlock_ce evs = [EvFscryptUnlockCeStorage user_id secret])
         /\ (secret = EmptyString -> r = false /\ filter is_unlock_ce evs = []).
Proof.
  intros Happ Hblob Hv Ht Hsz Hks Hkey Hop Hfin Henv Hpa Hdec Htag.
  exists (if spblob_version data =? 3
          then PersonalizedHashSP800 w PERSONALIZATION_FBE_KEY PERSONALISATION_CONTEXT sp
          else PersonalizedHash w PERSONALIZATION_FBE_KEY sp).
  split; [ | split ].
  3: {
    destruct (Decrypt_User_Synth_Pass w user_id Password h) as [r hf] eqn:E.
    revert E. unfold Decrypt_User_Synth_Pass. run_step. cbv zeta.
    rewrite bind_unfold, Happ.
    pose proof Happ as Hh1.
    apply (emits_run before_unwrap) in Hh1; [ | apply application_id_before_unwrap ].
    destruct Hh1 as (evs0 & -> & F0). apply before_unwrap_is_no_unlock in F0.
    destruct (unwrap_returns_secret w (spblob_path_of user_id) (getHandle w user_id)
                user_id application_id data env pa sp tag key
                Hblob Hv Ht Hsz Hks Hkey Hop Hfin Henv Hpa Hdec Htag
                ((h ++ [EvPrintf ("Attempting to decrypt user's synthetic password" +++ LF)])
                   ++ evs0)) as (evs1 & E1 & F1).
    rewrite bind_unfold, E1.
    match goal with
    | |- context [ (String.length ?s =? 0)%nat ] => set (secret := s) in *
    end.
    destruct (String.length secret =? 0)%nat eqn:El.
    - apply length_zero_empty in El.
      run_step. unfold Free_Return. run_step. unfold ret.
      intros [= <- <-]. repeat rewrite <- app_assoc.
      do 2 eexists. split; [ reflexivity | ]. split; [ congruence | ].
      intros _. split; [ reflexivity | ].
      repeat rewrite filter_app. rewrite (filter_none _ _ F0), (filter_none _ _ F1).
      reflexivity.
    - assert (Hne : secret <> EmptyString).
      { intro Hs. apply length_zero_empty in Hs. congruence. }
      rewrite bind_unfold.
      destruct (Decrypt_CE_storage_unlock_call w user_id secret
                  (((h ++ [EvPrintf ("Attempting to decrypt user's synthetic password"
                                       +++ LF)]) ++ evs0) ++ evs1))
        as (r2 & evs2 & E2 & F2).
      rewrite E2.
      assert (Hall : filter is_unlock_ce
                       ([EvPrintf ("Attempting to decrypt user's synthetic password" +++ LF)]
                          ++ evs0 ++ evs1 ++ evs2 ++ [EvPrintf ("Free_Return" +++ LF)])
                     = [EvFscryptUnlockCeStorage user_id secret]).
      { repeat rewrite filter_app.
        rewrite (filter_none _ _ F0), (filter_none _ _ F1), F2. reflexivity. }
      destruct r2; cbv beta iota delta [negb]; unfold Free_Return; run_step; unfold ret;
        intros [= <- <-]; repeat rewrite <- app_assoc;
        do 2 eexists; (split; [ reflexivity | ]); (split; [ intros _; exact Hall | ]);
        intro Hs; contradiction. }
  - intro H2. rewrite H2. reflexivity.
  - intro H3. rewrite H3. reflexivity.
Qed.

(** C6 at work: default credential, secdis path, a version 2 spblob that
    wraps the text [secret]. *)
Lemma C6_fbe_secret_witness :
  let w := Bench.world
             [ (Bench.dir +++ "abc.secdis", Readable [x05]);
               (Bench.dir +++ "abc.spblob", Readable (Bench.spblob_bytes x02)) ]
             None 64 in
  let sp := list_byte_of_string "secret" in
  exists secret,
    (spblob_version (Bench.spblob_bytes x02) = 2 ->
     secret = PersonalizedHash w "fbe-key" sp)
    /\ (spblob_version (Bench.spblob_bytes x02) = 3 ->
        secret = PersonalizedHashSP800 w "fbe-key" "fbe-key-context" sp)
    /\ exists r evs,
         Decrypt_User_Synth_Pass w 0 "!" [] = (Ret r, [] ++ evs)
         /\ (secret <> EmptyString ->
             filter is_unlock_ce evs = [EvFscryptUnlockCeStorage 0 secret])
         /\ (secret = EmptyString -> r = false /\ filter is_unlock_ce evs = []).
Proof.
  intros w sp.
  eapply (C6_fbe_secret_by_version w 0 "!" [] _ _ (Bench.spblob_bytes x02)
            (skipn 14 (Bench.spblob_bytes x02)) _ sp (repeat x03 16)
            "synthetic_password_abc").
  - vm_compute. reflexivity.
  - reflexivity.
  - left. reflexivity.
  - reflexivity.
  - vm_compute. lia.
  - intro. reflexivity.
  - intro. reflexivity.
  - intros. reflexivity.
  - intro. reflexivity.
  - vm_compute. lia.
  - reflexivity.
  - reflexivity.
  - reflexivity.
Defined.

(** ** The inner tag *)

(** C2.  In the bench no tag ever verifies, and the unlock of a
    well-formed version 2 spblob succeeds all the same: the unwrap returns
    a secret and CE storage is unlocked with it.  The run is the one of a
    blob whose tag verifies: the verdict of [EVP_DecryptFinal_ex] is never
    read. *)
Theorem C2_unauthenticated_spblob_unlocks :
  let w := Bench.world
             [ (Bench.dir +++ "abc.secdis", Readable [x05]);
               (Bench.dir +++ "abc.spblob", Readable (Bench.spblob_bytes x02)) ]
             None 64 in
  let run := Decrypt_User_Synth_Pass w 0 "!" [] in
  (forall key iv input tag, EVP_DecryptFinal_ex w key iv input tag = false)
  /\ fst run = Ret true
  /\ filter is_unlock_ce (snd run) = [EvFscryptUnlockCeStorage 0 "fbe-key:secret"]
  /\ (forall verdict,
         Decrypt_User_Synth_Pass (with_EVP_DecryptFinal_ex w verdict) 0 "!" [] = run).
Proof.
  cbv zeta.
  split; [ reflexivity | ].
  split; [ vm_compute; reflexivity | ].
  split; [ vm_compute; reflexivity | ].
  intro verdict. reflexivity.
Qed.

(** ** A wrong credential on the secdis path *)

(** Over AIDL a negative status ends the unlock in the gatekeeper step. *)
Lemma gatekeeper_aidl_error_stops w user_id pwd password_token verify gk_pwd_token h :
  aidl_gk_device w = Some verify ->
  0 < handle_len pwd ->
  PersonalizedHashBinary w PERSONALIZATION_USER_GK_AUTH
    (firstn PASSWORD_TOKEN_SIZE password_token) = Some gk_pwd_token ->
  (forall h' uid c hd pw, aidl_statusCode (verify h' uid c hd pw) < STATUS_OK) ->
  exists evs,
    Decrypt_User_Synth_Pass_gatekeeper w user_id pwd password_token h
    = (Ret None, h ++ evs)
    /\ Forall before_unwrap evs.
Proof.
  intros Hdev Hlen Htok Hneg.
  unfold Decrypt_User_Synth_Pass_gatekeeper. rewrite Hdev.
  assert (Hl : (handle_len pwd <=? 0) = false) by (apply Z.leb_gt; exact Hlen).
  rewrite Hl, Htok. cbv zeta. run_step.
  match goal with
  | |- context [ aidl_statusCode ?r >=? STATUS_OK ] =>
      assert (Hs : (aidl_statusCode r >=? STATUS_OK) = false)
        by (rewrite Z.geb_leb; apply Z.leb_gt; apply Hneg);
      rewrite Hs; destruct (aidl_statusCode r =? ERROR_RETRY_TIMEOUT)
  end;
    run_step; run_step; unfold ret; repeat rewrite <- app_assoc;
    (eexists; split; [ reflexivity | ]); repeat constructor.
Qed.

(** C4 (code defect): with the HIDL gatekeeper the answer "incorrect" does
    not end the unlock.  The callback only records the error; the run
    goes on to [unwrapSyntheticPasswordBlob], which begins a keystore
    operation, and with the stub keystore the unlock even succeeds. *)
Theorem C4_hidl_incorrect_reaches_keystore :
  let w := Bench.world pin_user_files (Some gatekeeper_incorrect) 64 in
  let run := Decrypt_User_Synth_Pass w 0 "1234" [] in
  fst (Is_Weaver w (spblob_path_of 0) (getHandle w 0) []) = Ret false
  /\ existsb (printed ("GateKeeper response error" +++ LF)) (snd run) = true
  /\ List.length (filter is_create_operation (snd run)) = 1%nat
  /\ fst run = Ret true.
Proof. repeat split; vm_compute; reflexivity. Qed.

(** ** Weaver path or secdis path *)

Lemma last_char_append a b c : last_char b = Some c -> last_char (a +++ b) = Some c.
Proof.
  intro Hb. induction a as [|x a IH]; [ exact Hb | ].
  cbn [String.append]. cbn [last_char].
  destruct (a +++ b); [ discriminate IH | exact IH ].
Qed.

Lemma not_secdis_path path c :
  last_char path = Some c -> c <> "s"%char -> ~ is_secdis_path path.
Proof.
  intros Hl Hc [stem ->].
  rewrite (last_char_append stem ".secdis" "s"%char eq_refl) in Hl. congruence.
Qed.

Ltac not_secdis c :=
  apply (not_secdis_path _ c);
  [ repeat (apply last_char_append); reflexivity | discriminate ].

Lemma bind_cong {A B} (m1 m2 : M A) (k1 k2 : A -> M B) h :
  m1 h = m2 h ->
  (forall a h', m2 h = (Ret a, h') -> k1 a h' = k2 a h') ->
  bind m1 k1 h = bind m2 k2 h.
Proof.
  intros Hm Hk. unfold bind. rewrite Hm.
  destruct (m2 h) as [[a|] h'] eqn:E; [ now apply Hk | reflexivity ].
Qed.

Lemma Is_Weaver_run w p hs h :
  Is_Weaver w p hs h
  = (Ret (stat_ok w (p +++ hs +++ ".weaver")), h ++ [EvPrintf ("Is_Weaver" +++ LF)]).
Proof.
  unfold Is_Weaver. run_step. cbv zeta.
  destruct (stat_ok w (p +++ hs +++ ".weaver")); reflexivity.
Qed.

Section Secdis_contents.

Variables (w : World) (f : string -> file_state).
Hypothesis f_same : same_but_secdis f (fs w).

Lemma Get_Spblob_Data_same p hs sfx tag c :
  last_char sfx = Some c -> c <> "s"%char ->
  Get_Spblob_Data (with_fs w f) p hs sfx tag = Get_Spblob_Data w p hs sfx tag.
Proof.
  intros Hl Hc.
  assert (H0 : f (p +++ hs +++ sfx) = fs w (p +++ hs +++ sfx)).
  { apply f_same, (not_secdis_path _ c); [ | exact Hc ].
    now repeat apply last_char_append. }
  assert (H1 : f (p +++ "0" +++ hs +++ sfx) = fs w (p +++ "0" +++ hs +++ sfx)).
  { apply f_same, (not_secdis_path _ c); [ | exact Hc ].
    now repeat apply last_char_append. }
  assert (H2 : f (p +++ "00" +++ hs +++ sfx) = fs w (p +++ "00" +++ hs +++ sfx)).
  { apply f_same, (not_secdis_path _ c); [ | exact Hc ].
    now repeat apply last_char_append. }
  unfold Get_Spblob_Data, pathExists, read_first, ReadFileToString.
  cbn [fs with_fs]. rewrite H0, H1, H2. reflexivity.
Qed.

Lemma Get_Password_Data_same p hs :
  Get_Password_Data (with_fs w f) p hs = Get_Password_Data w p hs.
Proof.
  unfold Get_Password_Data.
  rewrite (Get_Spblob_Data_same p hs ".pwd" "password" "d"%char eq_refl)
    by discriminate.
  reflexivity.
Qed.

Lemma password_token_same p hs pw :
  Decrypt_User_Synth_Pass_password_token (with_fs w f) p hs pw
  = Decrypt_User_Synth_Pass_password_token w p hs pw.
Proof.
  unfold Decrypt_User_Synth_Pass_password_token.
  rewrite Get_Password_Data_same. reflexivity.
Qed.

Lemma weaver_file_same p hs :
  f (p +++ hs +++ ".weaver") = fs w (p +++ hs +++ ".weaver").
Proof. apply f_same. not_secdis "r"%char. Qed.

Lemma Is_Weaver_same p hs : Is_Weaver (with_fs w f) p hs = Is_Weaver w p hs.
Proof.
  unfold Is_Weaver, stat_ok. cbn [fs with_fs]. now rewrite weaver_file_same.
Qed.

Lemma weaver_branch_same p hs tok :
  Decrypt_User_Synth_Pass_weaver (with_fs w f) p hs tok
  = Decrypt_User_Synth_Pass_weaver w p hs tok.
Proof.
  unfold Decrypt_User_Synth_Pass_weaver, Get_Weaver_Data, ReadFileToString.
  cbn [fs with_fs]. rewrite weaver_file_same. reflexivity.
Qed.

Lemma unwrap_same p hs uid app :
  unwrapSyntheticPasswordBlob (with_fs w f) p hs uid app
  = unwrapSyntheticPasswordBlob w p hs uid app.
Proof.
  unfold unwrapSyntheticPasswordBlob.
  rewrite (Get_Spblob_Data_same p hs ".spblob" "spblob" "b"%char eq_refl)
    by discriminate.
  reflexivity.
Qed.

(** With a [.weaver] file the unlock does not look at secdis blobs. *)
Lemma unlock_same_for_any_secdis user_id Password h :
  stat_ok w (spblob_path_of user_id +++ getHandle w user_id +++ ".weaver") = true ->
  Decrypt_User_Synth_Pass (with_fs w f) user_id Password h
  = Decrypt_User_Synth_Pass w user_id Password h.
Proof.
  intro Hweaver. unfold Decrypt_User_Synth_Pass.
  apply bind_cong; [ reflexivity | intros _ h1 _ ]. cbv zeta.
  apply bind_cong.
  - unfold Decrypt_User_Synth_Pass_application_id.
    apply bind_cong; [ now rewrite password_token_same | ].
    intros [[pwd tok]|] h2 _; [ | reflexivity ].
    apply bind_cong; [ now rewrite Is_Weaver_same | ].
    intros use_weaver h3 Hrun. rewrite Is_Weaver_run in Hrun.
    change (getHandle (with_fs w f) user_id) with (getHandle w user_id) in *.
    rewrite Hweaver in Hrun. injection Hrun as <- _.
    now rewrite weaver_branch_same.
  - intros [app|] h2 _; [ | reflexivity ].
    apply bind_cong; [ now rewrite unwrap_same | ].
    intros secret h3 _. reflexivity.
Qed.

End Secdis_contents.

Lemma emits_bind_run {A B} (P : event -> Prop) (m : M A) (k : A -> M B) :
  emits P m ->
  (forall a h h', m h = (Ret a, h') -> emits P (k a)) ->
  emits P (bind m k).
Proof.
  intros Hm Hk h. unfold bind.
  destruct (Hm h) as (e1 & E1 & F1).
  destruct (m h) as [[a|] h1] eqn:E; simpl in E1; subst h1.
  - destruct (Hk a h _ E (h ++ e1)) as (e2 & E2 & F2).
    exists (e1 ++ e2). split; [ now rewrite E2, app_assoc | now apply Forall_app ].
  - exists e1. now split.
Qed.

Section Without_weaver.

Let quiet (e : event) : Prop := is_weaver_event e = false.

Ltac quiet_step :=
  match goal with
  | |- emits _ (bind _ _) => apply emits_bind; [ | intro ]
  | |- emits _ (match ?x with _ => _ end) => destruct x
  | |- emits _ (if ?b then _ else _) => destruct b
  | |- emits _ (ret _) => apply emits_ret
  | |- emits _ (lift _) => apply emits_lift
  | |- emits _ undef => apply emits_undef
  | |- emits _ (peek _) => apply emits_peek
  | |- emits _ (printf _) => apply emits_emit; reflexivity
  | |- emits _ (emit _) => apply emits_emit; reflexivity
  | |- emits _ (ask _ _) => apply emits_ask; reflexivity
  | |- emits _ (Free_Return _) => apply emits_Free_Return; intro; reflexivity
  | |- emits _ (Get_Spblob_Data _ _ _ _ _) =>
      apply emits_Get_Spblob_Data; intro; reflexivity
  end.

Lemma unwrap_without_weaver w p hs uid app :
  emits quiet (unwrapSyntheticPasswordBlob w p hs uid app).
Proof. unfold unwrapSyntheticPasswordBlob. cbv zeta. repeat quiet_step. Qed.

Lemma Decrypt_CE_storage_without_weaver w uid secret :
  emits quiet (Decrypt_CE_storage w uid secret).
Proof. unfold Decrypt_CE_storage. cbv zeta. repeat quiet_step. Qed.

Variables (w : World) (user_id : Z) (Password : string).
Hypothesis no_weaver_file :
  stat_ok w (spblob_path_of user_id +++ getHandle w user_id +++ ".weaver") = false.

Lemma application_id_without_weaver :
  emits quiet (Decrypt_User_Synth_Pass_application_id w user_id
                 (spblob_path_of user_id) (getHandle w user_id) Password).
Proof.
  unfold Decrypt_User_Synth_Pass_application_id.
  apply emits_bind;
    [ apply emits_password_token; intros; reflexivity | intros [[pwd tok]|] ];
    [ | apply emits_ret ].
  apply emits_bind_run; [ apply emits_Is_Weaver; intro; reflexivity | ].
  intros use_weaver h h' Hrun. rewrite Is_Weaver_run, no_weaver_file in Hrun.
  injection Hrun as <- _.
  apply emits_secdis; intros; reflexivity.
Qed.

Lemma unlock_without_weaver : emits quiet (Decrypt_User_Synth_Pass w user_id Password).
Proof.
  unfold Decrypt_User_Synth_Pass. cbv zeta.
  apply emits_bind; [ apply emits_emit; reflexivity | intros _ ].
  apply emits_bind; [ apply application_id_without_weaver | intros [app|] ];
    [ | apply emits_ret ].
  apply emits_bind; [ apply unwrap_without_weaver | intro secret ].
  destruct (String.length secret =? 0)%nat; repeat quiet_step.
  apply Decrypt_CE_storage_without_weaver.
Qed.

(** Without a [.weaver] file the unlock is the same with any weaver
    service. *)
Lemma unlock_same_for_any_weaver wv h :
  Decrypt_User_Synth_Pass (with_weaver w wv) user_id Password h
  = Decrypt_User_Synth_Pass w user_id Password h.
Proof.
  unfold Decrypt_User_Synth_Pass.
  apply bind_cong; [ reflexivity | intros _ h1 _ ]. cbv zeta.
  apply bind_cong.
  - unfold Decrypt_User_Synth_Pass_application_id.
    apply bind_cong; [ reflexivity | ].
    intros [[pwd tok]|] h2 _; [ | reflexivity ].
    apply bind_cong; [ reflexivity | ].
    intros use_weaver h3 Hrun. rewrite Is_Weaver_run in Hrun.
    change (getHandle (with_weaver w wv) user_id) with (getHandle w user_id) in *.
    rewrite no_weaver_file in Hrun. injection Hrun as <- _.
    reflexivity.
  - intros [app|] h2 _; reflexivity.
Qed.

End Without_weaver.

(** C9: with a [.weaver] file for the handle, the unlock gives the same
    result after the same calls whatever the secdis blobs hold or whether
    they exist; without one, it gives the same result after the same calls
    whatever the weaver service would answer, and no call to the weaver
    service is made. *)
Theorem C9_path_decided_by_weaver_file w user_id Password h :
  let weaver_file := spblob_path_of user_id +++ getHandle w user_id +++ ".weaver" in
  (stat_ok w weaver_file = true ->
   forall f, same_but_secdis f (fs w) ->
     Decrypt_User_Synth_Pass (with_fs w f) user_id Password h
     = Decrypt_User_Synth_Pass w user_id Password h)
  /\ (stat_ok w weaver_file = false ->
      (forall wv,
         Decrypt_User_Synth_Pass (with_weaver w wv) user_id Password h
         = Decrypt_User_Synth_Pass w user_id Password h)
      /\ exists evs,
           snd (Decrypt_User_Synth_Pass w user_id Password h) = h ++ evs
           /\ Forall (fun e => is_weaver_event e = false) evs).
Proof.
  intro weaver_file. split.
  - intros Hweaver f Hf. now apply unlock_same_for_any_secdis.
  - intro Hnone. split.
    + intro wv. now apply unlock_same_for_any_weaver.
    + exact (unlock_without_weaver w user_id Password Hnone h).
Qed.

(** C9 at work: a weaver user whose file system gains a secdis blob, and
    a secdis user whose weaver service changes. *)
Lemma C9_path_witness :
  let weaver_user :=
    Bench.world [ (Bench.dir +++ "abc.weaver", Readable Bench.weaver_bytes);
                  (Bench.dir +++ "abc.spblob", Readable (Bench.spblob_bytes x02)) ]
      None 64 in
  let secdis_user :=
    Bench.world [ (Bench.dir +++ "abc.secdis", Readable [x05]);
                  (Bench.dir +++ "abc.spblob", Readable (Bench.spblob_bytes x02)) ]
      None 64 in
  let with_secdis :=
    Bench.fs_of [ (Bench.dir +++ "abc.secdis", Readable [x05]);
                  (Bench.dir +++ "abc.weaver", Readable Bench.weaver_bytes);
                  (Bench.dir +++ "abc.spblob", Readable (Bench.spblob_bytes x02)) ] in
  Decrypt_User_Synth_Pass (with_fs weaver_user with_secdis) 0 "!" []
  = Decrypt_User_Synth_Pass weaver_user 0 "!" []
  /\ forall wv,
       Decrypt_User_Synth_Pass (with_weaver secdis_user wv) 0 "!" []
       = Decrypt_User_Synth_Pass secdis_user 0 "!" [].
Proof.
  intros weaver_user secdis_user with_secdis. split.
  - apply (proj1 (C9_path_decided_by_weaver_file weaver_user 0 "!" []));
      [ reflexivity | ].
    intros path Hn. unfold with_secdis, weaver_user, Bench.fs_of.
    cbn [fs Bench.world find fst snd].
    destruct (String.eqb (Bench.dir +++ "abc.secdis") path) eqn:E; [ | reflexivity ].
    apply String.eqb_eq in E. exfalso. apply Hn.
    exists (Bench.dir +++ "abc")%string. now rewrite <- E.
  - apply (proj2 (C9_path_decided_by_weaver_file secdis_user 0 "!" [])).
    reflexivity.
Defined.

(** ** The dispatcher *)

(** C10, counterexample.  [/data/system_de/0/spblob] exists, the
    credential is not the default one, but nothing tells the password type
    of user 10: [Decrypt_User] returns [false] and
    [Decrypt_User_Synth_Pass] is never entered. *)
Lemma C10_counterexample :
  let w := Bench.world [ ("/data/system_de/0/spblob"%string, Unreadable 4096);
                         (Bench.dir, Unreadable 4096) ] None 64 in
  let run := Decrypt_User w 10 "1234" [] in
  stat_ok w "/data/system_de/0/spblob" = true
  /\ run = (Ret false,
            [ EvPrintf ("Attempting to decrypt user" +++ LF);
              EvPrintf ("Unable to locate gatekeeper password file "
                          +++ "'/data/system/users/10/gatekeeper.pattern.key'" +++ LF);
              EvPrintf ("Unknown password type" +++ LF) ])
  /\ existsb (printed ("Attempting to decrypt user's synthetic password" +++ LF))
       (snd run) = false.
Proof. repeat split. Qed.

(** C10, amended.  [Decrypt_User] returns [false] at once for a user id
    above 9999.  Otherwise, for a credential other than the default one,
    it first asks [Get_Password_Type]: on the answer 0 it returns [false]
    and selects neither method; on any other answer it selects the
    synthetic-password method when [/data/system_de/0/spblob] exists and
    the legacy gatekeeper key-file flow when it does not, whatever the
    target user and whether or not that user has a spblob directory. *)
Theorem C10_Decrypt_User_dispatch w user_id Password h :
  let h0 := h ++ [EvPrintf ("Attempting to decrypt user" +++ LF)] in
  (9999 < user_id ->
   Decrypt_User w user_id Password h
   = (Ret false, h0 ++ [EvPrintf ("user_id is too big" +++ LF)]))
  /\ (user_id <= 9999 -> Password <> "!"%string ->
      forall ty filename h1,
        Get_Password_Type w user_id "" h0 = (Ret (ty, filename), h1) ->
        (ty = 0 ->
         Decrypt_User w user_id Password h
         = (Ret false, h1 ++ [EvPrintf ("Unknown password type" +++ LF)]))
        /\ (ty <> 0 -> stat_ok w "/data/system_de/0/spblob" = true ->
            Decrypt_User w user_id Password h
            = Decrypt_User_Synth_Pass w user_id Password
                (h1 ++ [EvPrintf ("Using synthetic password method" +++ LF)]))
        /\ (ty <> 0 -> stat_ok w "/data/system_de/0/spblob" = false ->
            Decrypt_User w user_id Password h
            = Decrypt_User_legacy w user_id Password filename h1)).
Proof.
  intro h0. subst h0. split.
  - intro Hbig. unfold Decrypt_User. run_step.
    assert (E : (user_id >? 9999) = true) by (rewrite Z.gtb_ltb; now apply Z.ltb_lt).
    rewrite E. run_step. reflexivity.
  - intros Hsmall Hpw ty filename h1 Htype.
    assert (E : (user_id >? 9999) = false) by (rewrite Z.gtb_ltb; now apply Z.ltb_ge).
    assert (Ed : String.eqb Password "!" = false) by (now apply String.eqb_neq).
    unfold Decrypt_User. run_step. rewrite E. cbv zeta.
    rewrite bind_unfold, Htype, Ed. cbn [negb andb].
    repeat split.
    + intros ->. cbn [Z.eqb andb]. run_step. reflexivity.
    + intros Hty Hdir. apply Z.eqb_neq in Hty. rewrite Hty, Hdir. cbn [andb].
      run_step. reflexivity.
    + intros Hty Hdir. apply Z.eqb_neq in Hty. rewrite Hty, Hdir. reflexivity.
Qed.

(** C10 at work: user 10000 is turned away; user 0 with a PIN goes to
    the synthetic-password method when [/data/system_de/0/spblob] is
    there. *)
Lemma C10_dispatch_witness :
  let w := Bench.world pin_user_files (Some gatekeeper_incorrect) 64 in
  Decrypt_User w 10000 "1234" []
  = (Ret false, ([] ++ [EvPrintf ("Attempting to decrypt user" +++ LF)])
                  ++ [EvPrintf ("user_id is too big" +++ LF)])
  /\ Decrypt_User w 0 "1234" []
     = Decrypt_User_Synth_Pass w 0 "1234"
         ([ EvPrintf ("Attempting to decrypt user" +++ LF);
            EvPrintf ("Handle is 'abc'" +++ LF);
            EvPrintf ("password type: PIN" +++ LF) ]
            ++ [EvPrintf ("Using synthetic password method" +++ LF)]).
Proof.
  intro w. split.
  - apply (proj1 (C10_Decrypt_User_dispatch w 10000 "1234" [])). reflexivity.
  - refine (proj1 (proj2 (proj2 (C10_Decrypt_User_dispatch w 0 "1234" [])
                            _ _ 3 EmptyString _ _)) _ _).
    + discriminate.
    + discriminate.
    + reflexivity.
    + discriminate.
    + reflexivity.
Defined.

(** ** Blobs under zero-padded names *)

Lemma calls_made_app h1 h2 : calls_made (h1 ++ h2) = calls_made h1 ++ calls_made h2.
Proof. apply filter_app. Qed.

Section Same_calls.

Lemma same_calls_ret {A} (a : A) : same_calls (ret a) (ret a).
Proof. intros h h' E. now split. Qed.

Lemma same_calls_undef {A} : same_calls (@undef A) undef.
Proof. intros h h' E. now split. Qed.

Lemma same_calls_lift {A} (o : outcome A) : same_calls (lift o) (lift o).
Proof. intros h h' E. now split. Qed.

Lemma same_calls_emit e : same_calls (emit e) (emit e).
Proof.
  intros h h' E. split; [ reflexivity | ].
  cbn [emit snd]. now rewrite !calls_made_app, E.
Qed.

Lemma same_calls_printf msg : same_calls (printf msg) (printf msg).
Proof. apply same_calls_emit. Qed.

Lemma same_calls_ask {A} e (oracle oracle' : history -> A) :
  (forall h h', calls_made h = calls_made h' -> oracle h = oracle' h') ->
  same_calls (ask e oracle) (ask e oracle').
Proof.
  intros Ho h h' E. cbn [ask fst snd]. split; [ now rewrite (Ho h h' E) | ].
  now rewrite !calls_made_app, E.
Qed.

Lemma same_calls_peek {A} (oracle oracle' : history -> A) :
  (forall h h', calls_made h = calls_made h' -> oracle h = oracle' h') ->
  same_calls (peek oracle) (peek oracle').
Proof.
  intros Ho h h' E. cbn [peek fst snd]. split; [ now rewrite (Ho h h' E) | exact E ].
Qed.

Lemma same_calls_bind {A B} (m m' : M A) (k k' : A -> M B) :
  same_calls m m' ->
  (forall a, same_calls (k a) (k' a)) ->
  same_calls (bind m k) (bind m' k').
Proof.
  intros Hm Hk h h' E. unfold bind.
  destruct (Hm h h' E) as [Ef Es].
  destruct (m h) as [[a|] h1], (m' h') as [[a'|] h1']; cbn [fst snd] in Ef, Es;
    try discriminate Ef.
  - injection Ef as <-. now apply Hk.
  - now split.
Qed.

End Same_calls.

(** *** Names of blobs *)

Lemma append_cancel p a b : p +++ a = p +++ b -> a = b.
Proof.
  induction p as [|c p IH]; cbn [String.append]; [ auto | ].
  intros [= E]. auto.
Qed.

Lemma length_append a b :
  String.length (a +++ b) = (String.length a + String.length b)%nat.
Proof. induction a as [|c a IH]; cbn; [ reflexivity | now rewrite IH ]. Qed.

Lemma padded_is_not_plain p pad hs sfx :
  (0 < String.length pad)%nat ->
  p +++ pad +++ hs +++ sfx <> p +++ hs +++ sfx.
Proof.
  intros Hpad E. apply append_cancel in E.
  apply (f_equal String.length) in E. rewrite !length_append in E. lia.
Qed.

Lemma other_last_char a b c c' :
  last_char a = Some c -> last_char b = Some c' -> c <> c' -> a <> b.
Proof. intros Ha Hb Hc E. subst b. congruence. Qed.

(** Proves that two blob names differ: by their last character, or
    because one is the other with a padded handle. *)
Ltac other_name :=
  first
    [ apply padded_is_not_plain; cbn; lia
    | apply not_eq_sym; apply padded_is_not_plain; cbn; lia
    | eapply other_last_char;
      [ repeat apply last_char_append; reflexivity
      | repeat apply last_char_append; reflexivity
      | discriminate ] ].

Section Unpadded.

Variables (f : string -> file_state) (p hs : string).

Lemma unpadded_pwd : unpadded f p hs (p +++ hs +++ ".pwd") = resolved f p hs ".pwd".
Proof. unfold unpadded. now rewrite String.eqb_refl. Qed.

Lemma unpadded_spblob :
  unpadded f p hs (p +++ hs +++ ".spblob") = resolved f p hs ".spblob".
Proof.
  unfold unpadded. rewrite String.eqb_refl.
  replace (p +++ hs +++ ".spblob" =? p +++ hs +++ ".pwd")%string with false; [ reflexivity | ].
  symmetry. apply String.eqb_neq. other_name.
Qed.

Lemma unpadded_secdis :
  unpadded f p hs (p +++ hs +++ ".secdis") = resolved f p hs ".secdis".
Proof.
  unfold unpadded. rewrite String.eqb_refl.
  replace (p +++ hs +++ ".secdis" =? p +++ hs +++ ".pwd")%string with false;
    [ | symmetry; apply String.eqb_neq; other_name ].
  replace (p +++ hs +++ ".secdis" =? p +++ hs +++ ".spblob")%string with false;
    [ reflexivity | symmetry; apply String.eqb_neq; other_name ].
Qed.

Lemma unpadded_other path :
  path <> p +++ hs +++ ".pwd" ->
  path <> p +++ hs +++ ".spblob" ->
  path <> p +++ hs +++ ".secdis" ->
  unpadded f p hs path = f path.
Proof.
  intros H1 H2 H3. unfold unpadded.
  apply String.eqb_neq in H1, H2, H3. now rewrite H1, H2, H3.
Qed.

Lemma unpadded_weaver : unpadded f p hs (p +++ hs +++ ".weaver") = f (p +++ hs +++ ".weaver").
Proof. apply unpadded_other; other_name. Qed.

Lemma unpadded_padded pad sfx :
  (0 < String.length pad)%nat ->
  sfx = ".pwd"%string \/ sfx = ".spblob"%string \/ sfx = ".secdis"%string ->
  unpadded f p hs (p +++ pad +++ hs +++ sfx) = f (p +++ pad +++ hs +++ sfx).
Proof.
  intros Hpad [-> | [-> | ->]]; apply unpadded_other;
    first [ now apply padded_is_not_plain
          | eapply other_last_char;
            [ repeat apply last_char_append; reflexivity
            | repeat apply last_char_append; reflexivity
            | discriminate ] ].
Qed.

End Unpadded.

(** *** The read of a blob *)

Section Transparent.

Variable w : World.
Variables p hs : string.

Let w' := with_fs w (unpadded (fs w) p hs).

(** What [Get_Spblob_Data] finds, and that it only prints. *)
Lemma Get_Spblob_Data_finds sfx tag h :
  fst (Get_Spblob_Data w p hs sfx tag h)
  = Ret (match resolved (fs w) p hs sfx with
         | Readable data => Some data
         | _ => None
         end)
  /\ calls_made (snd (Get_Spblob_Data w p hs sfx tag h)) = calls_made h.
Proof.
  unfold Get_Spblob_Data, resolved, pathExists, read_first, ReadFileToString.
  destruct (fs w (p +++ hs +++ sfx));
    [ | split; [ reflexivity | cbn; now rewrite calls_made_app, app_nil_r ]
      | now split ].
  destruct (fs w (p +++ "0" +++ hs +++ sfx));
    [ | | split; [ reflexivity | cbn; now rewrite calls_made_app, app_nil_r ] ];
    (destruct (fs w (p +++ "00" +++ hs +++ sfx));
     (split; [ reflexivity | cbn; now rewrite !calls_made_app, !app_nil_r ])).
Qed.

Lemma resolved_unpadded sfx :
  sfx = ".pwd"%string \/ sfx = ".spblob"%string \/ sfx = ".secdis"%string ->
  resolved (unpadded (fs w) p hs) p hs sfx = resolved (fs w) p hs sfx.
Proof.
  intro Hsfx.
  assert (Hplain : unpadded (fs w) p hs (p +++ hs +++ sfx) = resolved (fs w) p hs sfx).
  { destruct Hsfx as [-> | [-> | ->]];
      [ apply unpadded_pwd | apply unpadded_spblob | apply unpadded_secdis ]. }
  unfold resolved at 1. rewrite Hplain.
  rewrite (unpadded_padded (fs w) p hs "0" sfx), (unpadded_padded (fs w) p hs "00" sfx)
    by (auto; cbn; lia).
  unfold resolved.
  destruct (fs w (p +++ hs +++ sfx)); try reflexivity.
  destruct (fs w (p +++ "0" +++ hs +++ sfx)); try reflexivity;
    destruct (fs w (p +++ "00" +++ hs +++ sfx)); reflexivity.
Qed.

End Transparent.

Lemma Get_Spblob_Data_same_calls w p hs sfx tag :
  sfx = ".pwd"%string \/ sfx = ".spblob"%string \/ sfx = ".secdis"%string ->
  same_calls (Get_Spblob_Data w p hs sfx tag)
    (Get_Spblob_Data (with_fs w (unpadded (fs w) p hs)) p hs sfx tag).
Proof.
  intros Hsfx h h' E.
  destruct (Get_Spblob_Data_finds w p hs sfx tag h) as [-> ->].
  destruct (Get_Spblob_Data_finds (with_fs w (unpadded (fs w) p hs)) p hs sfx tag h')
    as [-> ->].
  cbn [fs with_fs]. rewrite (resolved_unpadded w p hs sfx Hsfx). now split.
Qed.

(** *** The unlock *)

(** Walks two runs of the same code, in two worlds with the same
    services, call by call. *)
Ltac same_calls_go deaf :=
  repeat first
    [ apply same_calls_ret
    | apply same_calls_undef
    | apply same_calls_lift
    | apply same_calls_printf
    | apply same_calls_emit
    | apply Get_Spblob_Data_same_calls; auto
    | apply same_calls_peek; [ intros ? ? E; now apply (deaf _ _ E) ]
    | apply same_calls_ask; [ intros ? ? E; now apply (deaf _ _ E) ]
    | apply same_calls_bind; [ | intro ]
    | progress cbv beta zeta
    | match goal with
      | |- same_calls (if ?b then _ else _) (if ?b then _ else _) => destruct b
      | |- same_calls (match ?x with _ => _ end) (match ?x with _ => _ end) =>
          destruct x eqn:?
      end ].

Section Transparent_unlock.

Variables (w : World) (p hs : string).
Hypothesis deaf : services_ignore_printf w.

Let w' := with_fs w (unpadded (fs w) p hs).

Lemma Get_Password_Data_same_calls :
  same_calls (Get_Password_Data w p hs) (Get_Password_Data w' p hs).
Proof.
  unfold Get_Password_Data, w'. cbn [with_fs host_endian].
  same_calls_go deaf.
Qed.

Lemma password_token_same_calls Password :
  same_calls (Decrypt_User_Synth_Pass_password_token w p hs Password)
    (Decrypt_User_Synth_Pass_password_token w' p hs Password).
Proof.
  unfold Decrypt_User_Synth_Pass_password_token.
  change (uninit_password_token w') with (uninit_password_token w).
  destruct (negb (Password =? "!")%string).
  - apply same_calls_bind; [ apply Get_Password_Data_same_calls | ].
    intros [pwd|]; unfold Free_Return, Get_Password_Token;
      change (crypto_scrypt w') with (crypto_scrypt w);
      same_calls_go deaf.
  - unfold copySqliteDb. same_calls_go deaf.
Qed.

Lemma Is_Weaver_same_calls : same_calls (Is_Weaver w p hs) (Is_Weaver w' p hs).
Proof.
  unfold Is_Weaver, stat_ok, w'. cbn [fs with_fs]. rewrite unpadded_weaver.
  same_calls_go deaf.
Qed.

Lemma weaver_same_calls password_token :
  same_calls (Decrypt_User_Synth_Pass_weaver w p hs password_token)
    (Decrypt_User_Synth_Pass_weaver w' p hs password_token).
Proof.
  unfold Decrypt_User_Synth_Pass_weaver, Get_Weaver_Data, ReadFileToString, Free_Return, w'.
  cbn [fs with_fs host_endian PersonalizedHashBinary weaver]. rewrite unpadded_weaver.
  same_calls_go deaf.
Qed.

Lemma add_auth_token_same_calls gkResponse :
  same_calls (add_auth_token w gkResponse) (add_auth_token w' gkResponse).
Proof.
  unfold add_auth_token, w'. cbn [with_fs host_endian authorization_service].
  same_calls_go deaf.
Qed.

Lemma gatekeeper_same_calls user_id pwd password_token :
  same_calls (Decrypt_User_Synth_Pass_gatekeeper w user_id pwd password_token)
    (Decrypt_User_Synth_Pass_gatekeeper w' user_id pwd password_token).
Proof.
  unfold Decrypt_User_Synth_Pass_gatekeeper, Free_Return.
  change (aidl_gk_device w') with (aidl_gk_device w).
  change (gk_device w') with (gk_device w).
  change (PersonalizedHashBinary w') with (PersonalizedHashBinary w).
  destruct (aidl_gk_device w) as [aidl_verify|] eqn:Ea;
    [ | destruct (gk_device w) as [hidl_verify|] eqn:Eg ].
  - same_calls_go deaf; apply add_auth_token_same_calls.
  - same_calls_go deaf; apply add_auth_token_same_calls.
  - same_calls_go deaf.
Qed.

Lemma secdis_same_calls user_id Password pwd password_token :
  same_calls (Decrypt_User_Synth_Pass_secdis w user_id p hs Password pwd password_token)
    (Decrypt_User_Synth_Pass_secdis w' user_id p hs Password pwd password_token).
Proof.
  unfold Decrypt_User_Synth_Pass_secdis, Get_Secdis, Free_Return.
  change (PersonalizedHashBinary w') with (PersonalizedHashBinary w).
  same_calls_go deaf; apply gatekeeper_same_calls.
Qed.

Lemma application_id_same_calls user_id Password :
  same_calls (Decrypt_User_Synth_Pass_application_id w user_id p hs Password)
    (Decrypt_User_Synth_Pass_application_id w' user_id p hs Password).
Proof.
  unfold Decrypt_User_Synth_Pass_application_id.
  apply same_calls_bind; [ apply password_token_same_calls | ].
  intros [[pwd password_token]|]; [ | apply same_calls_ret ].
  apply same_calls_bind; [ apply Is_Weaver_same_calls | ].
  intros [|]; [ apply weaver_same_calls | apply secdis_same_calls ].
Qed.

Lemma unwrap_same_calls user_id application_id :
  same_calls (unwrapSyntheticPasswordBlob w p hs user_id application_id)
    (unwrapSyntheticPasswordBlob w' p hs user_id application_id).
Proof.
  unfold unwrapSyntheticPasswordBlob, w'.
  cbn [with_fs getHandle getAlias keystore_service ks_getKeyEntry ks_createOperation
         ks_finish PersonalizedHashBinary PersonalizedHash PersonalizedHashSP800
         EVP_DecryptUpdate EVP_DecryptFinal_ex].
  same_calls_go deaf.
Qed.

Lemma Decrypt_CE_storage_same_calls user_id secret :
  same_calls (Decrypt_CE_storage w user_id secret) (Decrypt_CE_storage w' user_id secret).
Proof.
  unfold Decrypt_CE_storage, w'.
  cbn [with_fs fscrypt_unlock_ce_storage fscrypt_prepare_user_storage].
  same_calls_go deaf.
Qed.

End Transparent_unlock.

Lemma unlock_same_calls w user_id Password :
  services_ignore_printf w ->
  same_calls (Decrypt_User_Synth_Pass w user_id Password)
    (Decrypt_User_Synth_Pass
       (with_fs w (unpadded (fs w) (spblob_path_of user_id) (getHandle w user_id)))
       user_id Password).
Proof.
  intro deaf. unfold Decrypt_User_Synth_Pass, Free_Return. cbv zeta.
  change (getHandle (with_fs w _) user_id) with (getHandle w user_id).
  apply same_calls_bind; [ apply same_calls_printf | intros _ ].
  apply same_calls_bind; [ now apply application_id_same_calls | ].
  intros [application_id|]; [ | apply same_calls_ret ].
  apply same_calls_bind; [ now apply unwrap_same_calls | ].
  intro secret. destruct (_ =? _)%nat; [ same_calls_go deaf | ].
  apply same_calls_bind; [ now apply Decrypt_CE_storage_same_calls | ].
  intro decrypted. same_calls_go deaf.
Qed.

(** The bench services answer the same whatever was printed. *)
Lemma bench_services_ignore_printf files key_size :
  services_ignore_printf (Bench.world files None key_size).
Proof.
  intros h h' _. cbn.
  repeat split; try reflexivity; intros; discriminate.
Qed.

(** C7, counterexample.  With [abc.pwd] present but unreadable and
    [0abc.pwd] readable, the read of [.pwd] fails: the first readable
    candidate does not win. *)
Lemma C7_counterexample :
  let w := Bench.world
             [ (Bench.dir +++ "abc.pwd", Unreadable 0);
               (Bench.dir +++ "0abc.pwd", Readable [x01]) ]
             None 64 in
  fs w (Bench.dir +++ "abc" +++ ".pwd") = Unreadable 0
  /\ fs w (Bench.dir +++ "0" +++ "abc" +++ ".pwd") = Readable [x01]
  /\ fst (Get_Spblob_Data w Bench.dir "abc" ".pwd" "password" []) = Ret None.
Proof. repeat split; reflexivity. Qed.

(** C7, amended.  [.pwd], [.spblob] and [.secdis] are read through
    [Get_Spblob_Data], which finds what [resolved] says: the file under
    [<handle><suffix>] decides alone when it exists, and when it does not,
    [0<handle><suffix>] and then [00<handle><suffix>] are tried, the first
    readable one winning.  The unlock then proceeds as if each of the
    three had been stored under [<handle><suffix>]: with services that do
    not see what is printed, [Decrypt_User_Synth_Pass] gives the same
    result after the same calls as in the world where the resolved files
    sit under the plain names. *)
Theorem C7_padded_blobs_are_found_and_unlock_proceeds w user_id Password h :
  services_ignore_printf w ->
  let p := spblob_path_of user_id in
  let hs := getHandle w user_id in
  (forall sfx tag h0,
      fst (Get_Spblob_Data w p hs sfx tag h0)
      = Ret (match resolved (fs w) p hs sfx with
             | Readable data => Some data
             | _ => None
             end))
  /\ (let w' := with_fs w (unpadded (fs w) p hs) in
      let run := Decrypt_User_Synth_Pass w user_id Password h in
      let run' := Decrypt_User_Synth_Pass w' user_id Password h in
      fs w' (p +++ hs +++ ".pwd") = resolved (fs w) p hs ".pwd"
      /\ fs w' (p +++ hs +++ ".spblob") = resolved (fs w) p hs ".spblob"
      /\ fs w' (p +++ hs +++ ".secdis") = resolved (fs w) p hs ".secdis"
      /\ fst run = fst run'
      /\ calls_made (snd run) = calls_made (snd run')).
Proof.
  intros deaf p hs. split.
  - intros sfx tag h0. apply Get_Spblob_Data_finds.
  - cbv zeta. cbn [with_fs fs].
    split; [ apply unpadded_pwd | ].
    split; [ apply unpadded_spblob | ].
    split; [ apply unpadded_secdis | ].
    now apply unlock_same_calls.
Qed.

(** C7, witness: the spblob only under [00abc.spblob] and the secdis only
    under [0abc.secdis]; the default credential unlocks. *)
Lemma C7_padded_blobs_are_found_and_unlock_proceeds_witness :
  let w := Bench.world
             [ (Bench.dir +++ "00abc.spblob", Readable (Bench.spblob_bytes x02));
               (Bench.dir +++ "0abc.secdis", Readable [x05]) ]
             None 64 in
  let w' := with_fs w (unpadded (fs w) (spblob_path_of 0) "abc") in
  services_ignore_printf w
  /\ fst (Decrypt_User_Synth_Pass w 0 "!" []) = Ret true
  /\ filter is_unlock_ce (snd (Decrypt_User_Synth_Pass w 0 "!" []))
     = [EvFscryptUnlockCeStorage 0 "fbe-key:secret"]
  /\ fs w' (Bench.dir +++ "abc.spblob") = Readable (Bench.spblob_bytes x02)
  /\ fst (Decrypt_User_Synth_Pass w 0 "!" [])
     = fst (Decrypt_User_Synth_Pass w' 0 "!" [])
  /\ calls_made (snd (Decrypt_User_Synth_Pass w 0 "!" []))
     = calls_made (snd (Decrypt_User_Synth_Pass w' 0 "!" [])).
Proof.
  cbv zeta.
  split; [ apply bench_services_ignore_printf | ].
  split; [ vm_compute; reflexivity | ].
  split; [ vm_compute; reflexivity | ].
  split; [ vm_compute; reflexivity | ].
  exact (proj2 (proj2 (proj2 (proj2
    (C7_padded_blobs_are_found_and_unlock_proceeds
       (Bench.world
             [ (Bench.dir +++ "00abc.spblob", Readable (Bench.spblob_bytes x02));
               (Bench.dir +++ "0abc.secdis", Readable [x05]) ]
             None 64) 0 "!" []
       (bench_services_ignore_printf _ 64)))))).
Defined.

(** * Further properties of the code *)

(** ** Bytes and 32-bit integers *)

Lemma Z_of_byte_range b : 0 <= Z_of_byte b < 256.
Proof. unfold Z_of_byte. pose proof (Byte.to_N_bounded b) as H. lia. Qed.

Lemma byte_of_Z_of_byte b : byte_of_Z (Z_of_byte b) = b.
Proof.
  unfold byte_of_Z. rewrite Z.mod_small by apply Z_of_byte_range.
  unfold Z_of_byte. rewrite N2Z.id, Byte.of_to_N. reflexivity.
Qed.

Lemma Z_of_byte_of_Z z : Z_of_byte (byte_of_Z z) = z mod 256.
Proof.
  unfold byte_of_Z, Z_of_byte.
  assert (Hr : 0 <= z mod 256 < 256) by (apply Z.mod_pos_bound; lia).
  destruct (Byte.of_N (Z.to_N (z mod 256))) as [b|] eqn:E.
  - apply Byte.to_of_N in E. rewrite E, Z2N.id; lia.
  - apply Byte.of_N_None_iff in E. lia.
Qed.

Lemma lor_shiftl_8 a b : 0 <= a < 256 -> Z.lor a (Z.shiftl b 8) = a + 256 * b.
Proof.
  intro Ha. rewrite Z.shiftl_mul_pow2 by lia.
  rewrite <- Z.lxor_lor, <- Z.add_nocarry_lxor; try lia.
  all: apply Z.bits_inj'; intros n Hn; rewrite Z.land_spec, Z.bits_0;
    destruct (Z.ltb_spec n 8).
  all: try (rewrite Z.mul_pow2_bits_low by lia; apply andb_false_r).
  all: assert (Z.testbit a n = false) as ->
      by (destruct (Z.eq_dec a 0) as [->|];
          [ apply Z.bits_0
          | apply Z.bits_above_log2; [ lia | ];
            apply Z.log2_lt_pow2; [ lia | ];
            apply Z.lt_le_trans with (2 ^ 8); [ lia | ];
            apply Z.pow_le_mono_r; lia ]);
    reflexivity.
Qed.

Lemma le_combine_cons b tl : le_combine (b :: tl) = Z_of_byte b + 256 * le_combine tl.
Proof. cbn [le_combine]. apply lor_shiftl_8, Z_of_byte_range. Qed.

Lemma le_combine_range bs : 0 <= le_combine bs < 2 ^ (8 * Z.of_nat (List.length bs)).
Proof.
  induction bs as [|b tl IH]; [ cbn; lia | ].
  rewrite le_combine_cons. pose proof (Z_of_byte_range b).
  replace (8 * Z.of_nat (List.length (b :: tl))) with (8 + 8 * Z.of_nat (List.length tl))
    by (cbn [List.length]; lia).
  rewrite Z.pow_add_r by lia. change (2 ^ 8) with 256. nia.
Qed.

Lemma le_split_le_combine bs : le_split (List.length bs) (le_combine bs) = bs.
Proof.
  induction bs as [|b tl IH]; [ reflexivity | ].
  rewrite le_combine_cons. cbn [List.length le_split]. f_equal.
  - rewrite <- (byte_of_Z_of_byte b) at 2. unfold byte_of_Z.
    replace ((Z_of_byte b + 256 * le_combine tl) mod 256) with (Z_of_byte b mod 256);
      [ reflexivity | ].
    replace (256 * le_combine tl) with (le_combine tl * 256) by lia.
    now rewrite Z.mod_add by lia.
  - rewrite Z.shiftr_div_pow2 by lia. change (2 ^ 8) with 256.
    replace ((Z_of_byte b + 256 * le_combine tl) / 256) with (le_combine tl); [ exact IH | ].
    pose proof (Z_of_byte_range b).
    replace (256 * le_combine tl) with (le_combine tl * 256) by lia.
    rewrite Z.div_add by lia.
    rewrite (Z.div_small (Z_of_byte b)) by lia. lia.
Qed.

Lemma le_combine_le_split n z :
  le_combine (le_split n z) = z mod 2 ^ (8 * Z.of_nat n).
Proof.
  revert z. induction n as [|n IH]; intro z.
  - cbn. now rewrite Z.mod_1_r.
  - cbn [le_split]. rewrite le_combine_cons, IH, Z_of_byte_of_Z.
    rewrite Z.shiftr_div_pow2 by lia. change (2 ^ 8) with 256.
    replace (8 * Z.of_nat (S n)) with (8 + 8 * Z.of_nat n) by lia.
    rewrite Z.pow_add_r by lia. change (2 ^ 8) with 256.
    rewrite Z.rem_mul_r by lia. reflexivity.
Qed.

Lemma length_le_split n z : List.length (le_split n z) = n.
Proof. revert z. induction n; intro z; cbn; [ reflexivity | now rewrite IHn ]. Qed.

Lemma to_int32_to_uint32 x : - 2 ^ 31 <= x < 2 ^ 31 -> to_int32 (to_uint32 x) = x.
Proof.
  intro Hx. unfold to_int32, to_uint32.
  rewrite Zplus_mod_idemp_l. rewrite Z.mod_small; lia.
Qed.

Lemma to_uint32_to_int32 v : 0 <= v < 2 ^ 32 -> to_uint32 (to_int32 v) = v.
Proof.
  intro Hv. unfold to_int32, to_uint32.
  rewrite <- Zminus_mod_idemp_l, Z.mod_mod by lia.
  rewrite Zminus_mod_idemp_l. replace (v + 2 ^ 31 - 2 ^ 31) with v by lia.
  apply Z.mod_small. lia.
Qed.

(** On a little-endian host the load followed by [endianswap] reads a
    big-endian integer. *)
Lemma endianswap_decode_be32 x :
  - 2 ^ 31 <= x < 2 ^ 31 -> endianswap (decode_int LittleEndian (be32 x)) = x.
Proof.
  intro Hx. unfold endianswap, decode_int, be32.
  set (bs := rev (le_split 4 (to_uint32 x))).
  assert (Hlen : List.length bs = 4%nat)
    by (unfold bs; now rewrite length_rev, length_le_split).
  pose proof (le_combine_range bs) as Hr. rewrite Hlen in Hr.
  change (2 ^ (8 * Z.of_nat 4)) with (2 ^ 32) in Hr.
  rewrite to_uint32_to_int32 by exact Hr.
  rewrite <- Hlen at 1. rewrite le_split_le_combine.
  unfold bs. rewrite rev_involutive, le_combine_le_split.
  change (2 ^ (8 * Z.of_nat 4)) with (2 ^ 32).
  fold (to_uint32 (to_uint32 x)). unfold to_uint32 at 1. unfold to_uint32.
  rewrite Z.mod_mod by lia. fold (to_uint32 x). now apply to_int32_to_uint32.
Qed.

(** ** Loads from a buffer *)

Lemma load_bytes_at pre a post :
  load_bytes (pre ++ a ++ post) (List.length pre) (List.length a) = Ret a.
Proof.
  unfold load_bytes.
  assert (E : (List.length pre + List.length a <=? List.length (pre ++ a ++ post))%nat
              = true).
  { apply Nat.leb_le. rewrite !length_app. lia. }
  rewrite E, skipn_app, skipn_all, Nat.sub_diag. cbn [skipn List.app].
  rewrite firstn_app, Nat.sub_diag, firstn_all. cbn [firstn]. now rewrite app_nil_r.
Qed.

Lemma load_bytes_past buf off n :
  (List.length buf < off + n)%nat -> load_bytes buf off n = Undef.
Proof.
  intro H. unfold load_bytes.
  assert (E : (off + n <=? List.length buf)%nat = false) by (apply Nat.leb_gt; exact H).
  now rewrite E.
Qed.

Lemma load_int_at e pre a post :
  List.length a = 4%nat ->
  load_int e (pre ++ a ++ post) (List.length pre) = Ret (decode_int e a).
Proof.
  intro Ha. unfold load_int. rewrite <- Ha, load_bytes_at. reflexivity.
Qed.

Lemma length_be32 x : List.length (be32 x) = 4%nat.
Proof. reflexivity. Qed.

(** ** The hardware auth token *)

Lemma to_int64_range z : - 2 ^ 63 <= to_int64 z < 2 ^ 63.
Proof. unfold to_int64. pose proof (Z.mod_pos_bound (z + 2 ^ 63) (2 ^ 64)). lia. Qed.

Lemma to_int32_range z : - 2 ^ 31 <= to_int32 z < 2 ^ 31.
Proof. unfold to_int32. pose proof (Z.mod_pos_bound (z + 2 ^ 31) (2 ^ 32)). lia. Qed.

(** The numbers of the token handed to the authorization service are
    within their signed types. *)
Lemma read_hw_auth_token_signed e payload token :
  read_hw_auth_token e payload = Ret token ->
  - 2 ^ 63 <= timestamp_milliSeconds token < 2 ^ 63
  /\ - 2 ^ 63 <= challenge token < 2 ^ 63
  /\ - 2 ^ 63 <= userId token < 2 ^ 63
  /\ - 2 ^ 63 <= authenticatorId token < 2 ^ 63
  /\ - 2 ^ 31 <= authenticatorType token < 2 ^ 31.
Proof.
  unfold read_hw_auth_token. destruct (_ <? _)%nat; [ discriminate | ].
  intros [= <-]. cbn [timestamp_milliSeconds challenge userId authenticatorId
                        authenticatorType].
  repeat split; try apply to_int64_range; apply to_int32_range.
Qed.

(** A packed token of bytes [0xff] arrives with every number at -1. *)
Lemma read_hw_auth_token_top_bit e :
  read_hw_auth_token e (repeat xff 69)
  = Ret {| timestamp_milliSeconds := -1;
           challenge := -1;
           userId := -1;
           authenticatorId := -1;
           authenticatorType := -1;
           mac := repeat xff 32 |}.
Proof. destruct e; vm_compute; reflexivity. Qed.

(** ** The [.pwd] parser *)

Section Pwd_parse.

Variables (w : World) (p hs : string).
Variables (ty : Z) (n r pp : byte).
Hypothesis little_endian : host_endian w = LittleEndian.
Hypothesis ty_range : - 2 ^ 31 <= ty < 2 ^ 31.

(** The run of [Get_Password_Data] once the seven header bytes and the
    salt length [sl] are loaded. *)
Lemma Get_Password_Data_after_header sl rest h :
  - 2 ^ 31 <= sl < 2 ^ 31 ->
  fst (Get_Spblob_Data w p hs ".pwd" "password" [])
  = Ret (Some (be32 ty ++ [n; r; pp] ++ be32 sl ++ rest)) ->
  Get_Password_Data w p hs h
  = (let buf := c_buffer (be32 ty ++ [n; r; pp] ++ be32 sl ++ rest) in
     let h1 := h ++ snd (Get_Spblob_Data w p hs ".pwd" "password" []) in
     if sl =? 0 then
       (Ret None, h1 ++ [EvPrintf ("Get_Password_Data salt_len is 0" +++ LF)])
     else if sl <? 0 then
       (Ret None, h1 ++ [EvPrintf ("Get_Password_Data malloc salt" +++ LF)])
     else
       bind (lift (load_bytes buf 11 (Z.to_nat sl)))
         (fun slt =>
            bind (lift (load_int LittleEndian buf (11 + Z.to_nat sl)))
              (fun hl0 =>
                 let hl := endianswap hl0 in
                 if hl =? 0 then
                   bind (printf ("Get_Password_Data handle_len is 0" +++ LF))
                     (fun _ => ret (Some {| password_type := ty; scryptN := n;
                                            scryptR := r; scryptP := pp;
                                            salt_len := sl; salt := Some slt;
                                            handle_len := hl;
                                            password_handle := None |}))
                 else if hl <? 0 then
                   bind (printf ("Get_Password_Data malloc password_handle" +++ LF))
                     (fun _ => ret None)
                 else
                   bind (lift (load_bytes buf (11 + Z.to_nat sl + 4) (Z.to_nat hl)))
                     (fun ph => ret (Some {| password_type := ty; scryptN := n;
                                             scryptR := r; scryptP := pp;
                                             salt_len := sl; salt := Some slt;
                                             handle_len := hl;
                                             password_handle := Some ph |}))))
         h1).
Proof.
  intros Hsl found. unfold Get_Password_Data.
  rewrite (bind_framed _ _ _ (framed_Get_Spblob_Data w p hs ".pwd" "password")), found.
  cbv beta iota zeta. rewrite little_endian.
  assert (L0 : load_int LittleEndian (c_buffer (be32 ty ++ [n; r; pp] ++ be32 sl ++ rest)) 0
               = Ret (decode_int LittleEndian (be32 ty))) by reflexivity.
  assert (L4 : load_u8 (c_buffer (be32 ty ++ [n; r; pp] ++ be32 sl ++ rest)) 4 = Ret n)
    by reflexivity.
  assert (L5 : load_u8 (c_buffer (be32 ty ++ [n; r; pp] ++ be32 sl ++ rest)) 5 = Ret r)
    by reflexivity.
  assert (L6 : load_u8 (c_buffer (be32 ty ++ [n; r; pp] ++ be32 sl ++ rest)) 6 = Ret pp)
    by reflexivity.
  assert (L7 : load_int LittleEndian (c_buffer (be32 ty ++ [n; r; pp] ++ be32 sl ++ rest)) 7
               = Ret (decode_int LittleEndian (be32 sl))) by reflexivity.
  rewrite L0. run_step. rewrite L4. run_step. rewrite L5. run_step.
  rewrite L6. run_step. rewrite L7. run_step.
  rewrite !endianswap_decode_be32 by assumption.
  destruct (sl =? 0); [ run_step; reflexivity | ].
  destruct (sl <? 0); [ run_step; reflexivity | ].
  reflexivity.
Qed.

Variables (slt : bytes) (hl : Z) (tail : bytes).
Hypothesis salt_size : (0 < List.length slt)%nat /\ Z.of_nat (List.length slt) < 2 ^ 31.
Hypothesis hl_range : - 2 ^ 31 <= hl < 2 ^ 31.
Hypothesis found :
  fst (Get_Spblob_Data w p hs ".pwd" "password" [])
  = Ret (Some (pwd_layout ty n r pp slt hl tail)).

Lemma pwd_layout_salt :
  load_bytes (c_buffer (pwd_layout ty n r pp slt hl tail)) 11 (List.length slt) = Ret slt.
Proof.
  replace (c_buffer (pwd_layout ty n r pp slt hl tail))
    with ((be32 ty ++ [n; r; pp] ++ be32 (Z.of_nat (List.length slt)))
            ++ slt ++ ((be32 hl ++ tail) ++ [x00]))
    by (unfold c_buffer, pwd_layout; now repeat rewrite <- app_assoc).
  change 11%nat
    with (List.length (be32 ty ++ [n; r; pp] ++ be32 (Z.of_nat (List.length slt)))).
  apply load_bytes_at.
Qed.

Lemma pwd_layout_handle_len :
  load_int LittleEndian (c_buffer (pwd_layout ty n r pp slt hl tail))
    (11 + List.length slt)
  = Ret (decode_int LittleEndian (be32 hl)).
Proof.
  replace (c_buffer (pwd_layout ty n r pp slt hl tail))
    with (((be32 ty ++ [n; r; pp] ++ be32 (Z.of_nat (List.length slt))) ++ slt)
            ++ be32 hl ++ (tail ++ [x00]))
    by (unfold c_buffer, pwd_layout; now repeat rewrite <- app_assoc).
  replace (11 + List.length slt)%nat
    with (List.length ((be32 ty ++ [n; r; pp] ++ be32 (Z.of_nat (List.length slt))) ++ slt))
    by (rewrite length_app; reflexivity).
  apply load_int_at. reflexivity.
Qed.

(** The run up to the handle length of a file laid out as [pwd_layout]. *)
Lemma Get_Password_Data_after_salt h :
  Get_Password_Data w p hs h
  = (let buf := c_buffer (pwd_layout ty n r pp slt hl tail) in
     let h1 := h ++ snd (Get_Spblob_Data w p hs ".pwd" "password" []) in
     let sl := Z.of_nat (List.length slt) in
     if hl =? 0 then
       (Ret (Some {| password_type := ty; scryptN := n; scryptR := r; scryptP := pp;
                     salt_len := sl; salt := Some slt; handle_len := hl;
                     password_handle := None |}),
        h1 ++ [EvPrintf ("Get_Password_Data handle_len is 0" +++ LF)])
     else if hl <? 0 then
       (Ret None, h1 ++ [EvPrintf ("Get_Password_Data malloc password_handle" +++ LF)])
     else
       match load_bytes buf (11 + List.length slt + 4) (Z.to_nat hl) with
       | Ret ph =>
           (Ret (Some {| password_type := ty; scryptN := n; scryptR := r; scryptP := pp;
                         salt_len := sl; salt := Some slt; handle_len := hl;
                         password_handle := Some ph |}), h1)
       | Undef => (Undef, h1)
       end).
Proof.
  assert (Hsl : - 2 ^ 31 <= Z.of_nat (List.length slt) < 2 ^ 31) by lia.
  rewrite (Get_Password_Data_after_header (Z.of_nat (List.length slt))
             (slt ++ be32 hl ++ tail) h Hsl found).
  cbv zeta.
  change (c_buffer (be32 ty ++ [n; r; pp] ++ be32 (Z.of_nat (List.length slt))
                      ++ slt ++ be32 hl ++ tail))
    with (c_buffer (pwd_layout ty n r pp slt hl tail)).
  assert (E0 : (Z.of_nat (List.length slt) =? 0) = false) by (apply Z.eqb_neq; lia).
  assert (E1 : (Z.of_nat (List.length slt) <? 0) = false) by (apply Z.ltb_ge; lia).
  rewrite E0, E1, !Nat2Z.id, pwd_layout_salt. run_step.
  rewrite pwd_layout_handle_len. run_step.
  rewrite endianswap_decode_be32 by assumption.
  destruct (hl =? 0); [ run_step; reflexivity | ].
  destruct (hl <? 0); [ run_step; reflexivity | ].
  rewrite bind_unfold. unfold lift, ret.
  destruct (load_bytes _ _ _); reflexivity.
Qed.

End Pwd_parse.

(** X1: on a little-endian host a well-formed [.pwd] file (big-endian
    type, three scrypt bytes, salt and handle, each after its big-endian
    length) is parsed back into exactly these fields; an empty handle is
    accepted and leaves the handle pointer null. *)
Theorem Get_Password_Data_reads_pwd_file w p hs ty n r pp slt handle h :
  host_endian w = LittleEndian ->
  fst (Get_Spblob_Data w p hs ".pwd" "password" [])
  = Ret (Some (pwd_file ty n r pp slt handle)) ->
  - 2 ^ 31 <= ty < 2 ^ 31 ->
  (0 < List.length slt)%nat /\ Z.of_nat (List.length slt) < 2 ^ 31 ->
  Z.of_nat (List.length handle) < 2 ^ 31 ->
  fst (Get_Password_Data w p hs h)
  = Ret (Some {| password_type := ty; scryptN := n; scryptR := r; scryptP := pp;
                 salt_len := Z.of_nat (List.length slt); salt := Some slt;
                 handle_len := Z.of_nat (List.length handle);
                 password_handle := match handle with
                                    | [] => None
                                    | _ => Some handle
                                    end |}).
Proof.
  intros Hle Hfound Hty Hsalt Hhandle.
  assert (Hhl : - 2 ^ 31 <= Z.of_nat (List.length handle) < 2 ^ 31) by lia.
  rewrite (Get_Password_Data_after_salt w p hs ty n r pp Hle Hty slt
             (Z.of_nat (List.length handle)) handle Hsalt Hhl Hfound h).
  cbv zeta.
  destruct (Z.of_nat (List.length handle) =? 0) eqn:E0.
  - apply Z.eqb_eq in E0.
    assert (handle = []) as -> by (apply length_zero_iff_nil; lia). reflexivity.
  - apply Z.eqb_neq in E0.
    assert (E1 : (Z.of_nat (List.length handle) <? 0) = false) by (apply Z.ltb_ge; lia).
    rewrite E1, Nat2Z.id.
    assert (L : load_bytes (c_buffer (pwd_layout ty n r pp slt
                                        (Z.of_nat (List.length handle)) handle))
                  (11 + List.length slt + 4) (List.length handle) = Ret handle).
    { replace (c_buffer (pwd_layout ty n r pp slt (Z.of_nat (List.length handle)) handle))
        with ((be32 ty ++ [n; r; pp] ++ be32 (Z.of_nat (List.length slt)) ++ slt
                 ++ be32 (Z.of_nat (List.length handle))) ++ handle ++ [x00])
        by (unfold c_buffer, pwd_layout; now repeat rewrite <- app_assoc).
      replace (11 + List.length slt + 4)%nat
        with (List.length (be32 ty ++ [n; r; pp] ++ be32 (Z.of_nat (List.length slt))
                             ++ slt ++ be32 (Z.of_nat (List.length handle))))
        by (rewrite !length_app; cbn [List.length]; rewrite !length_be32; lia).
      apply load_bytes_at. }
    rewrite L. destruct handle; [ contradiction | reflexivity ].
Qed.

(** X1 at work: the [.pwd] file of the bench user with a PIN. *)
Lemma Get_Password_Data_reads_pwd_file_witness :
  fst (Get_Password_Data (Bench.world pin_user_files None 64) Bench.dir "abc" [])
  = Ret (Some {| password_type := 3; scryptN := x01; scryptR := x01; scryptP := x01;
                 salt_len := 2; salt := Some [x09; x09];
                 handle_len := 1; password_handle := Some [x08] |}).
Proof.
  apply (Get_Password_Data_reads_pwd_file (Bench.world pin_user_files None 64)
           Bench.dir "abc" 3 x01 x01 x01 [x09; x09] [x08] []).
  - reflexivity.
  - reflexivity.
  - lia.
  - cbn. lia.
  - cbn. lia.
Defined.

(** X2: a [.pwd] file that declares a salt length of zero or less, or a
    negative handle length, makes [Get_Password_Data] return [false]; no
    field of such a file is used. *)
Theorem Get_Password_Data_rejects_bad_lengths w p hs ty n r pp h :
  host_endian w = LittleEndian ->
  - 2 ^ 31 <= ty < 2 ^ 31 ->
  (forall sl rest,
      - 2 ^ 31 <= sl <= 0 ->
      fst (Get_Spblob_Data w p hs ".pwd" "password" [])
      = Ret (Some (be32 ty ++ [n; r; pp] ++ be32 sl ++ rest)) ->
      fst (Get_Password_Data w p hs h) = Ret None)
  /\ (forall slt hl tail,
        (0 < List.length slt)%nat /\ Z.of_nat (List.length slt) < 2 ^ 31 ->
        - 2 ^ 31 <= hl < 0 ->
        fst (Get_Spblob_Data w p hs ".pwd" "password" [])
        = Ret (Some (pwd_layout ty n r pp slt hl tail)) ->
        fst (Get_Password_Data w p hs h) = Ret None).
Proof.
  intros Hle Hty. split.
  - intros sl rest Hsl Hfound.
    assert (Hr : - 2 ^ 31 <= sl < 2 ^ 31) by lia.
    rewrite (Get_Password_Data_after_header w p hs ty n r pp Hle Hty sl rest h Hr Hfound).
    cbv zeta. destruct (Z.eqb_spec sl 0); [ reflexivity | ].
    assert (E : (sl <? 0) = true) by (apply Z.ltb_lt; lia).
    now rewrite E.
  - intros slt hl tail Hsalt Hhl Hfound.
    assert (Hr : - 2 ^ 31 <= hl < 2 ^ 31) by lia.
    rewrite (Get_Password_Data_after_salt w p hs ty n r pp Hle Hty slt hl tail
               Hsalt Hr Hfound h).
    cbv zeta. destruct (Z.eqb_spec hl 0); [ lia | ].
    assert (E : (hl <? 0) = true) by (apply Z.ltb_lt; lia).
    now rewrite E.
Qed.

(** X2 at work: a salt length of 0, and a handle length of -1. *)
Lemma Get_Password_Data_rejects_bad_lengths_witness :
  fst (Get_Password_Data
         (Bench.world [(Bench.dir +++ "abc.pwd",
                        Readable (be32 3 ++ [x01; x01; x01] ++ be32 0 ++ [x07]))] None 64)
         Bench.dir "abc" []) = Ret None
  /\ fst (Get_Password_Data
            (Bench.world [(Bench.dir +++ "abc.pwd",
                           Readable (pwd_layout 3 x01 x01 x01 [x09] (-1) []))] None 64)
            Bench.dir "abc" []) = Ret None.
Proof.
  split.
  - apply (proj1 (Get_Password_Data_rejects_bad_lengths
                    (Bench.world [(Bench.dir +++ "abc.pwd",
                                   Readable (be32 3 ++ [x01; x01; x01] ++ be32 0 ++ [x07]))]
                       None 64)
                    Bench.dir "abc" 3 x01 x01 x01 [] eq_refl ltac:(lia)) 0 [x07]);
      [ lia | reflexivity ].
  - apply (proj2 (Get_Password_Data_rejects_bad_lengths
                    (Bench.world [(Bench.dir +++ "abc.pwd",
                                   Readable (pwd_layout 3 x01 x01 x01 [x09] (-1) []))]
                       None 64)
                    Bench.dir "abc" 3 x01 x01 x01 [] eq_refl ltac:(lia)) [x09] (-1) []);
      [ cbn; lia | lia | reflexivity ].
Defined.

(** X3: [Get_Password_Data] does not check lengths against the size of
    the file.  A file shorter than 10 bytes, a declared salt length, or a
    declared handle length, that reaches more than one byte past the end
    of the file (the one byte being the terminating NUL of the buffer) is
    read out of bounds instead of being rejected. *)
Theorem Get_Password_Data_reads_out_of_bounds w p hs h :
  (forall data,
      fst (Get_Spblob_Data w p hs ".pwd" "password" []) = Ret (Some data) ->
      (List.length data < 10)%nat ->
      fst (Get_Password_Data w p hs h) = Undef)
  /\ (host_endian w = LittleEndian ->
      forall ty n r pp,
        - 2 ^ 31 <= ty < 2 ^ 31 ->
        (forall sl rest,
            Z.of_nat (List.length rest) + 1 < sl < 2 ^ 31 ->
            fst (Get_Spblob_Data w p hs ".pwd" "password" [])
            = Ret (Some (be32 ty ++ [n; r; pp] ++ be32 sl ++ rest)) ->
            fst (Get_Password_Data w p hs h) = Undef)
        /\ (forall slt hl tail,
              (0 < List.length slt)%nat /\ Z.of_nat (List.length slt) < 2 ^ 31 ->
              Z.of_nat (List.length tail) + 1 < hl < 2 ^ 31 ->
              fst (Get_Spblob_Data w p hs ".pwd" "password" [])
              = Ret (Some (pwd_layout ty n r pp slt hl tail)) ->
              fst (Get_Password_Data w p hs h) = Undef)).
Proof.
  split.
  - intros data Hfound Hshort. unfold Get_Password_Data.
    rewrite (bind_framed _ _ _ (framed_Get_Spblob_Data w p hs ".pwd" "password")), Hfound.
    cbv beta iota zeta.
    do 10 (destruct data as [|? data]; [ reflexivity | ]).
    cbn [List.length] in Hshort. lia.
  - intros Hle ty n r pp Hty. split.
    + intros sl rest Hsl Hfound.
      assert (Hr : - 2 ^ 31 <= sl < 2 ^ 31) by lia.
      rewrite (Get_Password_Data_after_header w p hs ty n r pp Hle Hty sl rest h Hr Hfound).
      cbv zeta.
      assert (E0 : (sl =? 0) = false) by (apply Z.eqb_neq; lia).
      assert (E1 : (sl <? 0) = false) by (apply Z.ltb_ge; lia).
      rewrite E0, E1, bind_unfold, load_bytes_past; [ reflexivity | ].
      unfold c_buffer. rewrite !length_app. cbn [List.length]. rewrite !length_be32. lia.
    + intros slt hl tail Hsalt Hhl Hfound.
      assert (Hr : - 2 ^ 31 <= hl < 2 ^ 31) by lia.
      rewrite (Get_Password_Data_after_salt w p hs ty n r pp Hle Hty slt hl tail
                 Hsalt Hr Hfound h).
      cbv zeta.
      assert (E0 : (hl =? 0) = false) by (apply Z.eqb_neq; lia).
      assert (E1 : (hl <? 0) = false) by (apply Z.ltb_ge; lia).
      rewrite E0, E1, load_bytes_past; [ reflexivity | ].
      unfold c_buffer, pwd_layout. rewrite !length_app. cbn [List.length].
      rewrite !length_be32. lia.
Qed.

(** X3 at work: an empty file, and a salt length of 3 before one byte. *)
Lemma Get_Password_Data_reads_out_of_bounds_witness :
  fst (Get_Password_Data
         (Bench.world [(Bench.dir +++ "abc.pwd", Readable [])] None 64)
         Bench.dir "abc" []) = Undef
  /\ fst (Get_Password_Data
            (Bench.world [(Bench.dir +++ "abc.pwd",
                           Readable (be32 3 ++ [x01; x01; x01] ++ be32 3 ++ [x07]))] None 64)
            Bench.dir "abc" []) = Undef.
Proof.
  split.
  - apply (proj1 (Get_Password_Data_reads_out_of_bounds
                    (Bench.world [(Bench.dir +++ "abc.pwd", Readable [])] None 64)
                    Bench.dir "abc" []) []); [ reflexivity | cbn; lia ].
  - apply (proj1 (proj2 (Get_Password_Data_reads_out_of_bounds
                           (Bench.world [(Bench.dir +++ "abc.pwd",
                                          Readable (be32 3 ++ [x01; x01; x01]
                                                      ++ be32 3 ++ [x07]))] None 64)
                           Bench.dir "abc" []) eq_refl 3 x01 x01 x01 ltac:(lia)) 3 [x07]);
      [ cbn; lia | reflexivity ].
Defined.

(** ** The password type *)

Lemma to_int32_small z : 0 <= z < 2 ^ 31 -> to_int32 z = z.
Proof. intro H. unfold to_int32. rewrite Z.mod_small; lia. Qed.

(** A user id up to 9999 prints in at most four characters. *)
Lemma user_id_fits z :
  0 <= z <= 9999 -> (4 <? String.length (fmt_int (to_int32 z)))%nat = false.
Proof.
  intro Hz. rewrite to_int32_small by lia.
  assert (Hall : forallb (fun k => negb (4 <? String.length (fmt_int (Z.of_nat k)))%nat)
                   (seq 0 (Z.to_nat 10000)) = true) by (vm_compute; reflexivity).
  rewrite forallb_forall in Hall.
  specialize (Hall (Z.to_nat z)). rewrite Z2Nat.id in Hall by lia.
  apply negb_true_iff, Hall, in_seq. lia.
Qed.

(** X4: when the spblob directory of the user exists and the [.pwd] file
    parses, [Get_Password_Type] maps its password type: 2 and 4 to 1
    (password, or PIN before Android 11), 1 to 2 (pattern), 3 to 3 (PIN),
    anything else to 0 (try the default password); when the file does not
    parse it returns 0.  The caller's file name is left as it was. *)
Theorem Get_Password_Type_from_pwd w user_id filename h :
  stat_ok w (spblob_path_of user_id) = true ->
  (forall pwd,
      fst (Get_Password_Data w (spblob_path_of user_id) (getHandle w user_id) [])
      = Ret (Some pwd) ->
      fst (Get_Password_Type w user_id filename h)
      = Ret (twrp_password_type (password_type pwd), filename))
  /\ (fst (Get_Password_Data w (spblob_path_of user_id) (getHandle w user_id) [])
      = Ret None ->
      fst (Get_Password_Type w user_id filename h) = Ret (0, filename)).
Proof.
  intro Hdir. split.
  - intros pwd Hpwd. unfold Get_Password_Type. cbv zeta. rewrite Hdir. run_step.
    rewrite (bind_framed _ _ _ (framed_Get_Password_Data w _ _)), Hpwd.
    cbv beta iota. unfold twrp_password_type.
    destruct (password_type pwd =? 2); [ reflexivity | ].
    destruct (password_type pwd =? 4); [ reflexivity | ].
    destruct (password_type pwd =? 1); [ reflexivity | ].
    destruct (password_type pwd =? 3); reflexivity.
  - intro Hpwd. unfold Get_Password_Type. cbv zeta. rewrite Hdir. run_step.
    rewrite (bind_framed _ _ _ (framed_Get_Password_Data w _ _)), Hpwd.
    reflexivity.
Qed.

(** X4 at work: the bench user with a PIN. *)
Lemma Get_Password_Type_from_pwd_witness :
  fst (Get_Password_Type (Bench.world pin_user_files None 64) 0 "" []) = Ret (3, ""%string).
Proof.
  refine (proj1 (Get_Password_Type_from_pwd (Bench.world pin_user_files None 64) 0 "" []
                   eq_refl)
            {| password_type := 3; scryptN := x01; scryptR := x01; scryptP := x01;
               salt_len := 2; salt := Some [x09; x09];
               handle_len := 1; password_handle := Some [x08] |} _).
  reflexivity.
Defined.

(** X5: without a spblob directory, for a user id up to 9999,
    [Get_Password_Type] looks for the legacy key files in [/data/system/]
    (user 0) or [/data/system/users/<id>/]: [gatekeeper.password.key]
    wins when it exists and is not empty and gives 1, else
    [gatekeeper.pattern.key] under the same condition gives 2, else the
    result is 0 with an empty file name. *)
Theorem Get_Password_Type_legacy_files w user_id filename h :
  stat_ok w (spblob_path_of user_id) = false ->
  0 <= user_id <= 9999 ->
  let password_key := legacy_key_dir user_id +++ "gatekeeper.password.key" in
  let pattern_key := legacy_key_dir user_id +++ "gatekeeper.pattern.key" in
  fst (Get_Password_Type w user_id filename h)
  = Ret (if usable_key_file w password_key then (1, password_key)
         else if usable_key_file w pattern_key then (2, pattern_key)
         else (0, EmptyString)).
Proof.
  intros Hdir Hid password_key pattern_key.
  unfold Get_Password_Type. cbv zeta. rewrite Hdir.
  assert (Hpath : forall (k : string -> M (Z * string)) h',
             bind (if user_id =? 0
                   then ret "/data/system/"%string
                   else if (4 <? String.length (fmt_int (to_int32 user_id)))%nat
                        then undef
                        else ret ("/data/system/users/" +++ fmt_int (to_int32 user_id)
                                    +++ "/")%string) k h'
             = k (legacy_key_dir user_id) h').
  { intros k h'. unfold legacy_key_dir. rewrite user_id_fits by exact Hid.
    destruct (user_id =? 0); reflexivity. }
  rewrite Hpath. fold password_key. fold pattern_key.
  fold (usable_key_file w password_key). fold (usable_key_file w pattern_key).
  destruct (usable_key_file w password_key); [ reflexivity | ].
  destruct (usable_key_file w pattern_key); reflexivity.
Qed.

(** X5 at work: user 10 with both key files, the pattern file empty. *)
Lemma Get_Password_Type_legacy_files_witness :
  fst (Get_Password_Type
         (Bench.world
            [ ("/data/system/users/10/gatekeeper.password.key"%string, Readable [x01]);
              ("/data/system/users/10/gatekeeper.pattern.key"%string, Readable []) ]
            None 64) 10 "" [])
  = Ret (1, "/data/system/users/10/gatekeeper.password.key"%string).
Proof.
  apply (Get_Password_Type_legacy_files
           (Bench.world
              [ ("/data/system/users/10/gatekeeper.password.key"%string, Readable [x01]);
                ("/data/system/users/10/gatekeeper.pattern.key"%string, Readable []) ]
              None 64) 10 "" []).
  - reflexivity.
  - lia.
Defined.

(** ** Unlocking CE storage *)

(** X6: [Decrypt_CE_storage] calls [fscrypt_unlock_ce_storage] once with
    the secret it was given, calls [fscrypt_prepare_user_storage] (empty
    volume, CE flag) only after that call succeeded, and returns [true]
    exactly when both succeeded. *)
Theorem Decrypt_CE_storage_calls w user_id secret h :
  let h1 := h ++ [EvPrintf ("Attempting to unlock user storage" +++ LF)] in
  let unlocked := fscrypt_unlock_ce_storage w h1 user_id secret in
  let h2 := h1 ++ [EvFscryptUnlockCeStorage user_id secret]
               ++ [EvPrintf ("Attempting to prepare user storage" +++ LF)] in
  let prepared := fscrypt_prepare_user_storage w h2 "" user_id STORAGE_FLAG_CE in
  exists evs,
    Decrypt_CE_storage w user_id secret h = (Ret (unlocked && prepared), h ++ evs)
    /\ filter is_fscrypt_event evs
       = if unlocked
         then [ EvFscryptUnlockCeStorage user_id secret;
                EvFscryptPrepareUserStorage "" user_id STORAGE_FLAG_CE ]
         else [ EvFscryptUnlockCeStorage user_id secret ].
Proof.
  intros h1 unlocked h2 prepared. subst h1 unlocked h2 prepared.
  unfold Decrypt_CE_storage. run_step. cbv zeta. run_step.
  destruct (fscrypt_unlock_ce_storage w _ user_id secret); cbv beta iota delta [negb].
  - run_step. run_step. rewrite <- app_assoc.
    destruct (fscrypt_prepare_user_storage w _ "" user_id STORAGE_FLAG_CE);
      cbv beta iota delta [negb andb]; run_step; unfold ret; repeat rewrite <- app_assoc;
      eexists; split; reflexivity.
  - run_step. unfold ret. repeat rewrite <- app_assoc.
    eexists; split; reflexivity.
Qed.

(** ** The default credential in [Decrypt_User] *)

(** X7: with the default credential ["!"] and a user id up to 9999,
    [Decrypt_User] first tries [Decrypt_CE_storage] with the secret ["!"]
    itself, whatever [Get_Password_Type] answered; when that succeeds it
    returns [true] and [Decrypt_User_Synth_Pass] is not run; only when it
    fails does the synthetic-password unlock run. *)
Theorem Decrypt_User_default_credential w user_id h ty filename h1 :
  user_id <= 9999 ->
  Get_Password_Type w user_id "" (h ++ [EvPrintf ("Attempting to decrypt user" +++ LF)])
  = (Ret (ty, filename), h1) ->
  forall h2,
    (Decrypt_CE_storage w user_id "!" h1 = (Ret true, h2) ->
     Decrypt_User w user_id "!" h = (Ret true, h2))
    /\ (Decrypt_CE_storage w user_id "!" h1 = (Ret false, h2) ->
        Decrypt_User w user_id "!" h = Decrypt_User_Synth_Pass w user_id "!" h2).
Proof.
  intros Hid Htype h2.
  assert (E : (user_id >? 9999) = false) by (rewrite Z.gtb_ltb; now apply Z.ltb_ge).
  assert (Hrun : Decrypt_User w user_id "!" h
                 = bind (Decrypt_CE_storage w user_id "!")
                     (fun decrypted =>
                        if negb decrypted then Decrypt_User_Synth_Pass w user_id "!"
                        else ret true) h1).
  { unfold Decrypt_User. run_step. rewrite E. cbv zeta.
    rewrite bind_unfold, Htype. cbn [String.eqb Ascii.eqb Bool.eqb negb andb].
    rewrite andb_false_r. reflexivity. }
  rewrite Hrun, bind_unfold. split; intros ->; reflexivity.
Qed.

(** X7 at work: the stub fscrypt accepts ["!"]; the run ends there. *)
Lemma Decrypt_User_default_credential_witness :
  let w := Bench.world pin_user_files None 64 in
  Decrypt_User w 0 "!" []
  = (Ret true,
     [ EvPrintf ("Attempting to decrypt user" +++ LF);
       EvPrintf ("Handle is 'abc'" +++ LF);
       EvPrintf ("password type: PIN" +++ LF);
       EvPrintf ("Attempting to unlock user storage" +++ LF);
       EvFscryptUnlockCeStorage 0 "!";
       EvPrintf ("Attempting to prepare user storage" +++ LF);
       EvFscryptPrepareUserStorage "" 0 2;
       EvPrintf ("User 0 Decrypted Successfully!" +++ LF) ]).
Proof.
  intro w.
  refine (proj1 (Decrypt_User_default_credential w 0 [] 3 EmptyString
                   [ EvPrintf ("Attempting to decrypt user" +++ LF);
                     EvPrintf ("Handle is 'abc'" +++ LF);
                     EvPrintf ("password type: PIN" +++ LF) ] _ _ _) _).
  - lia.
  - vm_compute. reflexivity.
  - vm_compute. reflexivity.
Defined.

(** ** The order of the calls *)

Ltac emits_go :=
  repeat match goal with
         | |- emits _ (bind _ _) => apply emits_bind; [ | intro ]
         | |- emits _ (match ?x with _ => _ end) => destruct x
         | |- emits _ (if ?b then _ else _) => destruct b
         | |- emits _ (ret _) => apply emits_ret
         | |- emits _ (lift _) => apply emits_lift
         | |- emits _ undef => apply emits_undef
         | |- emits _ (peek _) => apply emits_peek
         | |- emits _ (printf _) => apply emits_emit; solve [ auto ]
         | |- emits _ (emit _) => apply emits_emit; solve [ auto ]
         | |- emits _ (ask _ _) => apply emits_ask; solve [ auto ]
         | |- emits _ (Free_Return _) => apply emits_Free_Return; solve [ auto ]
         | |- emits _ (Get_Spblob_Data _ _ _ _ _) =>
             apply emits_Get_Spblob_Data; solve [ auto ]
         end.

Section After_application_id.

Variable P : event -> Prop.
Hypothesis P_printf : forall msg, P (EvPrintf msg).
Hypothesis P_thread : P EvStartThreadPool.
Hypothesis P_get : forall alias, P (EvKeystoreGetKeyEntry alias).
Hypothesis P_create : forall key params, P (EvKeystoreCreateOperation key params).
Hypothesis P_finish : forall input, P (EvKeystoreFinish input).

Lemma emits_unwrap w p hs uid application_id :
  emits P (unwrapSyntheticPasswordBlob w p hs uid application_id).
Proof. unfold unwrapSyntheticPasswordBlob. cbv zeta. emits_go. Qed.

Hypothesis P_unlock : forall uid secret, P (EvFscryptUnlockCeStorage uid secret).
Hypothesis P_prepare : forall v uid flags, P (EvFscryptPrepareUserStorage v uid flags).

Lemma emits_Decrypt_CE_storage w uid secret : emits P (Decrypt_CE_storage w uid secret).
Proof. unfold Decrypt_CE_storage. cbv zeta. emits_go. Qed.

(** What follows the application id in [Decrypt_User_Synth_Pass]. *)
Lemma emits_unwrap_and_unlock w uid p hs application_id :
  emits P
    (bind (unwrapSyntheticPasswordBlob w p hs uid application_id)
       (fun secret =>
          if (String.length secret =? 0)%nat
          then bind (printf ("failed to unwrapSyntheticPasswordBlob" +++ LF))
                 (fun _ => Free_Return false)
          else bind (Decrypt_CE_storage w uid secret)
                 (fun decrypted =>
                    if negb decrypted then Free_Return false else Free_Return true))).
Proof.
  pose proof emits_unwrap. pose proof emits_Decrypt_CE_storage.
  apply emits_bind; [ auto | intro secret ].
  destruct (String.length secret =? 0)%nat; emits_go; auto.
Qed.

End After_application_id.

(** X8: in every run of [Decrypt_User_Synth_Pass] the calls that check
    the credential (weaver, gatekeeper, handing the auth token to the
    authorization service) all come before the first call to the keystore
    or to fscrypt: the auth token is added before the keystore operation
    begins, never after. *)
Theorem credential_checks_precede_keystore w user_id Password h :
  exists evs1 evs2,
    snd (Decrypt_User_Synth_Pass w user_id Password h) = h ++ evs1 ++ evs2
    /\ Forall before_unwrap evs1
    /\ Forall (fun e => is_credential_check e = false) evs2.
Proof.
  unfold Decrypt_User_Synth_Pass. run_step. cbv zeta. rewrite bind_unfold.
  destruct (Decrypt_User_Synth_Pass_application_id w user_id (spblob_path_of user_id)
              (getHandle w user_id) Password _) as [r1 h1] eqn:E1.
  apply (emits_run before_unwrap) in E1; [ | apply application_id_before_unwrap ].
  destruct E1 as (evs1 & -> & F1).
  assert (F0 : Forall before_unwrap
                 ([EvPrintf ("Attempting to decrypt user's synthetic password" +++ LF)]
                    ++ evs1)).
  { apply Forall_app. split; [ repeat constructor | exact F1 ]. }
  destruct r1 as [[application_id|]|].
  - destruct (emits_unwrap_and_unlock (fun e => is_credential_check e = false)
                ltac:(reflexivity) ltac:(reflexivity) ltac:(reflexivity)
                ltac:(reflexivity) ltac:(reflexivity) ltac:(reflexivity)
                ltac:(reflexivity)
                w user_id (spblob_path_of user_id) (getHandle w user_id) application_id
                ((h ++ [EvPrintf ("Attempting to decrypt user's synthetic password" +++ LF)])
                   ++ evs1)) as (evs2 & E2 & F2).
    rewrite E2. exists ([EvPrintf ("Attempting to decrypt user's synthetic password" +++ LF)] ++ evs1), evs2. repeat rewrite <- app_assoc.
    repeat split; assumption.
  - exists ([EvPrintf ("Attempting to decrypt user's synthetic password" +++ LF)] ++ evs1), []. cbn [snd ret]. repeat rewrite <- app_assoc.
    rewrite app_nil_r. repeat split; [ assumption | constructor ].
  - exists ([EvPrintf ("Attempting to decrypt user's synthetic password" +++ LF)] ++ evs1), []. cbn [snd]. repeat rewrite <- app_assoc.
    rewrite app_nil_r. repeat split; [ assumption | constructor ].
Qed.

(** X10: with the default credential ["!"] the unlock never calls the
    gatekeeper and never hands an auth token to the authorization service,
    on the weaver path and on the secdis path alike. *)
Theorem default_credential_skips_gatekeeper w user_id h :
  exists evs,
    snd (Decrypt_User_Synth_Pass w user_id "!" h) = h ++ evs
    /\ Forall (fun e => is_gatekeeper_or_auth e = false) evs.
Proof.
  revert h. change (emits (fun e => is_gatekeeper_or_auth e = false)
                      (Decrypt_User_Synth_Pass w user_id "!")).
  pose proof (emits_unwrap_and_unlock (fun e => is_gatekeeper_or_auth e = false)
                ltac:(reflexivity) ltac:(reflexivity) ltac:(reflexivity)
                ltac:(reflexivity) ltac:(reflexivity) ltac:(reflexivity)
                ltac:(reflexivity) w user_id) as Htail.
  pose proof (emits_weaver (fun e => is_gatekeeper_or_auth e = false)
                ltac:(reflexivity) ltac:(reflexivity) ltac:(reflexivity)
                ltac:(reflexivity) w) as Hweaver.
  pose proof (emits_Is_Weaver (fun e => is_gatekeeper_or_auth e = false)
                ltac:(reflexivity) w) as Hisweaver.
  unfold Decrypt_User_Synth_Pass. cbv zeta.
  apply emits_bind; [ apply emits_emit; reflexivity | intros _ ].
  apply emits_bind.
  - unfold Decrypt_User_Synth_Pass_application_id,
      Decrypt_User_Synth_Pass_password_token, Decrypt_User_Synth_Pass_secdis,
      Get_Secdis, copySqliteDb.
    cbn [String.eqb Ascii.eqb Bool.eqb negb]. cbv zeta.
    emits_go; auto.
  - intros [application_id|]; [ apply Htail | apply emits_ret ].
Qed.

(** X9: [Decrypt_User_Synth_Pass] returns [true] only when the unwrap
    gave a secret that is not empty, that secret went to the one call of
    [fscrypt_unlock_ce_storage] of the run, for the same user, and
    [fscrypt_prepare_user_storage] was called after it. *)
Theorem unlock_success_means_ce_unlocked w user_id Password h h' :
  Decrypt_User_Synth_Pass w user_id Password h = (Ret true, h') ->
  exists evs secret,
    h' = h ++ evs
    /\ secret <> EmptyString
    /\ filter is_fscrypt_event evs
       = [ EvFscryptUnlockCeStorage user_id secret;
           EvFscryptPrepareUserStorage "" user_id STORAGE_FLAG_CE ].
Proof.
  unfold Decrypt_User_Synth_Pass. run_step. cbv zeta. rewrite bind_unfold.
  destruct (Decrypt_User_Synth_Pass_application_id w user_id (spblob_path_of user_id)
              (getHandle w user_id) Password _) as [r1 h1] eqn:E1.
  apply (emits_run before_unwrap) in E1; [ | apply application_id_before_unwrap ].
  destruct E1 as (evs1 & -> & F1).
  assert (N1 : filter is_fscrypt_event evs1 = []).
  { apply filter_none. revert F1. apply Forall_impl. now intros e [_ He]. }
  destruct r1 as [[application_id|]|]; [ | discriminate | discriminate ].
  rewrite bind_unfold.
  destruct (unwrapSyntheticPasswordBlob w (spblob_path_of user_id) (getHandle w user_id)
              user_id application_id _) as [r2 h2] eqn:E2.
  apply (emits_run (fun e => is_fscrypt_event e = false)) in E2;
    [ | apply emits_unwrap; reflexivity ].
  destruct E2 as (evs2 & -> & F2). apply filter_none in F2.
  destruct r2 as [secret|]; [ | discriminate ].
  destruct (String.length secret =? 0)%nat eqn:El.
  - run_step. unfold Free_Return. run_step. discriminate.
  - assert (Hne : secret <> EmptyString).
    { intro Hs. apply length_zero_empty in Hs. congruence. }
    rewrite bind_unfold.
    destruct (Decrypt_CE_storage_calls w user_id secret
                (((h ++ [EvPrintf ("Attempting to decrypt user's synthetic password"
                                     +++ LF)]) ++ evs1) ++ evs2)) as (evs3 & E3 & F3).
    cbv zeta in E3, F3. rewrite E3.
    match type of E3 with
    | _ = (Ret (?u && ?q), _) => destruct u; [ destruct q | ]
    end; cbn [andb negb]; unfold Free_Return; run_step; unfold ret;
      try discriminate.
    intros [= <-]. repeat rewrite <- app_assoc.
    do 2 eexists. split; [ reflexivity | ]. split; [ exact Hne | ].
    repeat rewrite filter_app. rewrite N1, F2, F3. reflexivity.
Qed.

(** X9 at work: the weaver user of the bench. *)
Lemma unlock_success_means_ce_unlocked_witness :
  let w := Bench.world
             [ (Bench.dir +++ "abc.weaver", Readable Bench.weaver_bytes);
               (Bench.dir +++ "abc.spblob", Readable (Bench.spblob_bytes x02)) ]
             None 64 in
  exists evs secret,
    snd (Decrypt_User_Synth_Pass w 0 "!" []) = [] ++ evs
    /\ secret <> EmptyString
    /\ filter is_fscrypt_event evs
       = [ EvFscryptUnlockCeStorage 0 secret;
           EvFscryptPrepareUserStorage "" 0 STORAGE_FLAG_CE ].
Proof.
  intro w.
  apply (unlock_success_means_ce_unlocked w 0 "!" []
           (snd (Decrypt_User_Synth_Pass w 0 "!" []))).
  vm_compute. reflexivity.
Defined.

(** ** When the credential check fails *)

(** Without an application id the unlock returns [false] (or is cut
    short, undefined, while the id is built) and never reaches the
    keystore or fscrypt. *)
Lemma unlock_without_application_id w user_id Password h :
  (forall application_id,
      fst (Decrypt_User_Synth_Pass_application_id w user_id (spblob_path_of user_id)
             (getHandle w user_id) Password
             (h ++ [EvPrintf ("Attempting to decrypt user's synthetic password" +++ LF)]))
      <> Ret (Some application_id)) ->
  exists r evs,
    Decrypt_User_Synth_Pass w user_id Password h = (r, h ++ evs)
    /\ (r = Ret false \/ r = Undef)
    /\ Forall before_unwrap evs.
Proof.
  intro Hnone. unfold Decrypt_User_Synth_Pass. run_step. cbv zeta. rewrite bind_unfold.
  destruct (Decrypt_User_Synth_Pass_application_id w user_id (spblob_path_of user_id)
              (getHandle w user_id) Password _) as [r1 h1] eqn:E1.
  cbn [fst] in Hnone.
  apply (emits_run before_unwrap) in E1; [ | apply application_id_before_unwrap ].
  destruct E1 as (evs1 & -> & F1).
  assert (F0 : Forall before_unwrap
                 ([EvPrintf ("Attempting to decrypt user's synthetic password" +++ LF)]
                    ++ evs1)).
  { apply Forall_app. split; [ repeat constructor | exact F1 ]. }
  destruct r1 as [[application_id|]|].
  - now destruct (Hnone application_id).
  - unfold ret. rewrite <- app_assoc. do 2 eexists. repeat split; eauto.
  - rewrite <- app_assoc. do 2 eexists. repeat split; eauto.
Qed.

Lemma weaver_branch_refused w p hs tok h application_id :
  weaver_refuses (weaver w) ->
  fst (Decrypt_User_Synth_Pass_weaver w p hs tok h) <> Ret (Some application_id).
Proof.
  intro Hrefuse. unfold Decrypt_User_Synth_Pass_weaver. run_step.
  rewrite (bind_framed _ _ _ (framed_Get_Weaver_Data w p hs)).
  destruct (fst (Get_Weaver_Data w p hs [])) as [[wd|]|];
    [ | run_step; run_step; discriminate | discriminate ].
  destruct (PersonalizedHashBinary w PERSONALISATION_WEAVER_KEY _) as [weaver_key|];
    [ | run_step; run_step; discriminate ].
  run_step.
  destruct (weaver_ok (weaver w) _) eqn:Eok; cbv beta iota delta [negb];
    [ | run_step; run_step; discriminate ].
  run_step.
  destruct (weaver_GetKeySize (weaver w) _) as [size|] eqn:Esize;
    [ | run_step; run_step; discriminate ].
  run_step. run_step.
  destruct (weaver_WeaverVerify (weaver w) _ _ _) as [payload|] eqn:Everify;
    [ | run_step; run_step; discriminate ].
  destruct Hrefuse as [H|[H|H]]; congruence.
Qed.

(** X11: when [<handle>.weaver] exists and the weaver service cannot be
    reached, does not tell its key size, or refuses the key, the unlock
    does not succeed and neither the keystore nor fscrypt is called; the
    secdis path is not tried instead. *)
Theorem weaver_refusal_ends_unlock w user_id Password h :
  stat_ok w (spblob_path_of user_id +++ getHandle w user_id +++ ".weaver") = true ->
  weaver_refuses (weaver w) ->
  exists r evs,
    Decrypt_User_Synth_Pass w user_id Password h = (r, h ++ evs)
    /\ (r = Ret false \/ r = Undef)
    /\ Forall before_unwrap evs.
Proof.
  intros Hweaver Hrefuse. apply unlock_without_application_id.
  intros application_id. unfold Decrypt_User_Synth_Pass_application_id.
  rewrite bind_unfold.
  destruct (Decrypt_User_Synth_Pass_password_token w _ _ _ _) as [[[[pwd tok]|]|] h1];
    [ | discriminate | discriminate ].
  rewrite bind_unfold, Is_Weaver_run, Hweaver.
  now apply weaver_branch_refused.
Qed.

(** X11 at work: a weaver that refuses every key. *)
Lemma weaver_refusal_ends_unlock_witness :
  let w := with_weaver
             (Bench.world
                [ (Bench.dir +++ "abc.weaver", Readable Bench.weaver_bytes);
                  (Bench.dir +++ "abc.secdis", Readable [x05]);
                  (Bench.dir +++ "abc.spblob", Readable (Bench.spblob_bytes x02)) ]
                None 64)
             {| weaver_ok := fun _ => true;
                weaver_GetKeySize := fun _ => Some 64;
                weaver_WeaverVerify := fun _ _ _ => None |} in
  exists r evs,
    Decrypt_User_Synth_Pass w 0 "!" [] = (r, [] ++ evs)
    /\ (r = Ret false \/ r = Undef)
    /\ Forall before_unwrap evs.
Proof.
  intro w. apply (weaver_refusal_ends_unlock w 0 "!" []).
  - reflexivity.
  - right. right. intros. reflexivity.
Defined.

Lemma framed_Get_Password_Token w pwd pw tok : framed (Get_Password_Token w pwd pw tok).
Proof. unfold Get_Password_Token. repeat framed_step. Qed.

Lemma framed_password_token w p hs pw :
  framed (Decrypt_User_Synth_Pass_password_token w p hs pw).
Proof.
  pose proof framed_Get_Password_Data. pose proof framed_Get_Password_Token.
  unfold Decrypt_User_Synth_Pass_password_token, copySqliteDb, Free_Return.
  repeat framed_step.
Qed.

Section Gatekeeper_step.

Variables (w : World) (user_id : Z) (Password : string).
Variables (pwd : password_data_struct) (password_token secdis_data secdiscardable : bytes).

Let p := spblob_path_of user_id.
Let hs := getHandle w user_id.

Hypothesis not_default : String.eqb Password "!" = false.
Hypothesis token_derived :
  fst (Decrypt_User_Synth_Pass_password_token w p hs Password [])
  = Ret (Some (pwd, password_token)).
Hypothesis no_weaver_file : stat_ok w (p +++ hs +++ ".weaver") = false.
Hypothesis secdis_found :
  fst (Get_Spblob_Data w p hs ".secdis" "secdis" []) = Ret (Some secdis_data).
Hypothesis secdis_hashed :
  PersonalizedHashBinary w PERSONALISATION_SECDISCARDABLE secdis_data
  = Some secdiscardable.

(** The events up to the gatekeeper step. *)
Let lead : list event :=
  [EvPrintf ("Attempting to decrypt user's synthetic password" +++ LF)]
    ++ snd (Decrypt_User_Synth_Pass_password_token w p hs Password [])
    ++ [EvPrintf ("Is_Weaver" +++ LF)]
    ++ [EvPrintf ("using secdis to decrypt spblob" +++ LF)]
    ++ snd (Get_Spblob_Data w p hs ".secdis" "secdis" []).

Lemma lead_is_quiet :
  Forall (fun e => is_keystore_event e = false /\ is_fscrypt_event e = false
                   /\ is_credential_check e = false) lead.
Proof.
  unfold lead. repeat (apply Forall_app; split); try (repeat constructor).
  - destruct (emits_password_token
                (fun e => is_keystore_event e = false /\ is_fscrypt_event e = false
                          /\ is_credential_check e = false)
                ltac:(repeat split) ltac:(repeat split) w p hs Password [])
      as (evs & E & F).
    now rewrite E.
  - destruct (emits_Get_Spblob_Data
                (fun e => is_keystore_event e = false /\ is_fscrypt_event e = false
                          /\ is_credential_check e = false)
                ltac:(repeat split) w p hs ".secdis" "secdis" []) as (evs & E & F).
    now rewrite E.
Qed.

(** When the gatekeeper step ends the function, so does the unlock. *)
Lemma unlock_stops_in_gatekeeper_step h evs :
  Decrypt_User_Synth_Pass_gatekeeper w user_id pwd password_token (h ++ lead)
  = (Ret None, (h ++ lead) ++ evs) ->
  Decrypt_User_Synth_Pass w user_id Password h = (Ret false, h ++ lead ++ evs).
Proof.
  intro Hgk. unfold Decrypt_User_Synth_Pass. run_step. cbv zeta.
  fold p. fold hs.
  unfold Decrypt_User_Synth_Pass_application_id.
  rewrite bind_assoc, (bind_framed _ _ _ (framed_password_token w p hs Password)),
    token_derived.
  cbv beta iota. rewrite bind_assoc, bind_unfold, Is_Weaver_run, no_weaver_file.
  cbv beta iota. unfold Decrypt_User_Synth_Pass_secdis, Get_Secdis.
  rewrite bind_assoc. run_step.
  rewrite bind_assoc, (bind_framed _ _ _ (framed_Get_Spblob_Data w p hs _ _)), secdis_found.
  cbv beta iota. rewrite secdis_hashed. cbv zeta. rewrite not_default.
  cbv beta iota delta [negb].
  rewrite bind_assoc, bind_unfold.
  replace (((((h ++ [EvPrintf ("Attempting to decrypt user's synthetic password" +++ LF)])
                ++ snd (Decrypt_User_Synth_Pass_password_token w p hs Password []))
               ++ [EvPrintf ("Is_Weaver" +++ LF)])
              ++ [EvPrintf ("using secdis to decrypt spblob" +++ LF)])
             ++ snd (Get_Spblob_Data w p hs ".secdis" "secdis" []))
    with (h ++ lead) by (unfold lead; now repeat rewrite <- app_assoc).
  rewrite Hgk. cbv beta iota. rewrite app_assoc. reflexivity.
Qed.


(** X13: on the secdis path with a credential other than the default one,
    a [.pwd] file without a password handle (a handle length of 0, which
    the parser accepts) ends the unlock before the gatekeeper is asked:
    the result is [false] and no service that checks the credential, no
    keystore and no fscrypt call is made. *)
Theorem missing_handle_ends_unlock h :
  handle_len pwd <= 0 ->
  exists evs,
    Decrypt_User_Synth_Pass w user_id Password h = (Ret false, h ++ evs)
    /\ Forall before_unwrap evs
    /\ Forall (fun e => is_credential_check e = false) evs.
Proof.
  intro Hlen.
  assert (Hgk : exists msg,
             Decrypt_User_Synth_Pass_gatekeeper w user_id pwd password_token (h ++ lead)
             = (Ret None,
                h ++ lead ++ [ EvPrintf msg; EvPrintf ("Free_Return" +++ LF) ])).
  { unfold Decrypt_User_Synth_Pass_gatekeeper.
    assert (Hl : (handle_len pwd <=? 0) = true) by (apply Z.leb_le; exact Hlen).
    destruct (aidl_gk_device w), (gk_device w); rewrite ?Hl;
      run_step; run_step; unfold ret; repeat rewrite <- app_assoc;
      eexists; reflexivity. }
  destruct Hgk as (msg & Hgk). rewrite app_assoc in Hgk.
  pose proof lead_is_quiet as Hq.
  eexists. split; [ exact (unlock_stops_in_gatekeeper_step h _ Hgk) | ]. split.
  - apply Forall_app. split.
    + revert Hq. apply Forall_impl. intros e (H1 & H2 & _). now split.
    + repeat constructor.
  - apply Forall_app. split.
    + revert Hq. apply Forall_impl. now intros e (_ & _ & H3).
    + repeat constructor.
Qed.

End Gatekeeper_step.


(** X13 at work: the [.pwd] file of the user has a handle length of 0. *)
Lemma missing_handle_ends_unlock_witness :
  let w := Bench.world no_handle_files (Some gatekeeper_incorrect) 64 in
  exists evs,
    Decrypt_User_Synth_Pass w 0 "1234" [] = (Ret false, [] ++ evs)
    /\ Forall before_unwrap evs
    /\ Forall (fun e => is_credential_check e = false) evs.
Proof.
  intro w.
  apply (missing_handle_ends_unlock w 0 "1234"
           {| password_type := 3; scryptN := x01; scryptR := x01; scryptP := x01;
              salt_len := 2; salt := Some [x09; x09];
              handle_len := 0; password_handle := None |}
           (repeat x11 32) [x05]
           (Bench.toy_hash PERSONALISATION_SECDISCARDABLE [x05])
           eq_refl eq_refl eq_refl eq_refl eq_refl []).
  cbn. lia.
Defined.

(** ** The keystore calls of [unwrapSyntheticPasswordBlob] *)

Lemma Get_Spblob_Data_no_keystore_call w p hs :
  keystore_calls (snd (Get_Spblob_Data w p hs ".spblob" "spblob" [])) = [].
Proof.
  apply filter_none.
  generalize (Get_Spblob_Data_local w p hs ".spblob" "spblob").
  apply Forall_impl. intros [] E; try discriminate E; reflexivity.
Qed.

(** Ends a branch of the unwrap that returns the empty string or has no
    defined result. *)
Ltac no_secret :=
  first [ discriminate
        | unfold ret; intros [= <- <-] Hne; now destruct Hne
        | run_step; no_secret ].

(** X14.  Whenever [unwrapSyntheticPasswordBlob] returns a non-empty
    string, it has made exactly three keystore calls before, in this order:
    [getKeyEntry] for the alias of the user's handle, [createOperation] and
    [finish]. *)
Theorem unwrap_secret_comes_from_keystore w p hs user_id application_id h secret h' :
  unwrapSyntheticPasswordBlob w p hs user_id application_id h = (Ret secret, h') ->
  secret <> EmptyString ->
  exists evs key params input,
    h' = h ++ evs
    /\ keystore_calls evs
       = [ EvKeystoreGetKeyEntry (getAlias w (getHandle w user_id));
           EvKeystoreCreateOperation key params;
           EvKeystoreFinish input ].
Proof.
  pose proof (Get_Spblob_Data_no_keystore_call w p hs) as Hnk.
  unfold unwrapSyntheticPasswordBlob. run_step. run_step.
  rewrite (bind_framed _ _ _ (framed_Get_Spblob_Data w p hs ".spblob" "spblob")).
  destruct (fst (Get_Spblob_Data w p hs ".spblob" "spblob" [])) as [[data|]|];
    [ | no_secret | no_secret ].
  cbv beta iota zeta.
  rewrite bind_unfold. unfold lift at 1.
  destruct (load_u8 (c_buffer data) 0) as [b0|]; [ | no_secret ].
  destruct (negb _ && negb _ && negb _); [ no_secret | ].
  rewrite bind_unfold. unfold lift at 1.
  destruct (load_u8 (c_buffer data) 1) as [b1|]; [ | no_secret ].
  destruct (negb (Z_of_byte b1 =? _)); [ no_secret | ].
  destruct (_ || _); [ | no_secret ].
  run_step.
  destruct (List.length data <? 14)%nat; [ no_secret | ].
  run_step.
  destruct (keystore_service w _); cbv beta iota delta [negb]; [ | no_secret ].
  run_step.
  destruct (ks_getKeyEntry w _ _) as [err|key].
  { destruct (ks_error_code err =? KEY_NOT_FOUND); no_secret. }
  run_step.
  destruct (ks_createOperation w _ key _); cbv beta iota delta [negb]; [ | no_secret ].
  run_step.
  destruct (ks_finish w _ _) as [[env|]|]; [ | no_secret | no_secret ].
  destruct (PersonalizedHashBinary w _ _) as [pa|]; [ | no_secret ].
  destruct (List.length env <? 12)%nat; [ no_secret | ].
  destruct (List.length (EVP_DecryptUpdate w _ _ _) <? 16)%nat; [ no_secret | ].
  destruct (Z_of_byte b0 =? SYNTHETIC_PASSWORD_VERSION_V3);
    unfold ret; intros [= <- <-] _; repeat rewrite <- app_assoc;
    do 4 eexists; (split; [ reflexivity | ]);
    unfold keystore_calls in *; repeat rewrite filter_app; rewrite Hnk; reflexivity.
Qed.

Lemma unwrap_secret_comes_from_keystore_witness :
  let w := Bench.world
             [ (Bench.dir +++ "abc.spblob", Readable (Bench.spblob_bytes x02)) ]
             None 0 in
  exists evs key params input,
    snd (unwrapSyntheticPasswordBlob w Bench.dir "abc" 0 [x07] [])
    = [] ++ evs
    /\ keystore_calls evs
       = [ EvKeystoreGetKeyEntry (getAlias w (getHandle w 0));
           EvKeystoreCreateOperation key params;
           EvKeystoreFinish input ].
Proof.
  intro w.
  apply (unwrap_secret_comes_from_keystore w Bench.dir "abc" 0 [x07] []
           "fbe-key:secret"%string).
  - vm_compute. reflexivity.
  - discriminate.
Defined.

(** Ends a branch that stops before the named keystore call. *)
Ltac stops_here Hnk :=
  first [ intros [= <- <-]; repeat rewrite <- app_assoc;
          eexists; split; [ reflexivity | ];
          split; [ auto | ];
          unfold keystore_calls in *; cbn [filter is_keystore_event List.app];
          repeat rewrite filter_app; rewrite ?Hnk;
          cbn [filter is_keystore_event List.app];
          first [ left; reflexivity
                | right; reflexivity
                | right; left; reflexivity
                | right; right; do 2 eexists; reflexivity ]
        | run_step; stops_here Hnk ].

(** X15.  When the keystore answers [getKeyEntry] with an error, the
    unwrap yields no secret (the empty string, or no defined result when it
    stopped earlier on a malformed blob) and calls neither
    [createOperation] nor [finish]. *)
Theorem key_entry_error_stops_unwrap w p hs user_id application_id h
  (refused : forall h' alias, exists error, ks_getKeyEntry w h' alias = inl error) :
  exists evs,
    unwrapSyntheticPasswordBlob w p hs user_id application_id h
    = (fst (unwrapSyntheticPasswordBlob w p hs user_id application_id h), h ++ evs)
    /\ (fst (unwrapSyntheticPasswordBlob w p hs user_id application_id h)
        = Ret EmptyString
        \/ fst (unwrapSyntheticPasswordBlob w p hs user_id application_id h) = Undef)
    /\ (keystore_calls evs = []
        \/ keystore_calls evs
           = [EvKeystoreGetKeyEntry (getAlias w (getHandle w user_id))]).
Proof.
  pose proof (Get_Spblob_Data_no_keystore_call w p hs) as Hnk.
  destruct (unwrapSyntheticPasswordBlob w p hs user_id application_id h)
    as [r h'] eqn:E.
  cbn [fst]. revert E.
  unfold unwrapSyntheticPasswordBlob. run_step. run_step.
  rewrite (bind_framed _ _ _ (framed_Get_Spblob_Data w p hs ".spblob" "spblob")).
  destruct (fst (Get_Spblob_Data w p hs ".spblob" "spblob" [])) as [[data|]|];
    [ | stops_here Hnk | stops_here Hnk ].
  cbv beta iota zeta.
  rewrite bind_unfold. unfold lift at 1.
  destruct (load_u8 (c_buffer data) 0) as [b0|]; [ | stops_here Hnk ].
  destruct (negb _ && negb _ && negb _); [ stops_here Hnk | ].
  rewrite bind_unfold. unfold lift at 1.
  destruct (load_u8 (c_buffer data) 1) as [b1|]; [ | stops_here Hnk ].
  destruct (negb (Z_of_byte b1 =? _)); [ stops_here Hnk | ].
  destruct (_ || _); [ | stops_here Hnk ].
  run_step.
  destruct (List.length data <? 14)%nat; [ stops_here Hnk | ].
  run_step.
  destruct (keystore_service w _); cbv beta iota delta [negb]; [ | stops_here Hnk ].
  run_step.
  match goal with
  | |- context [ks_getKeyEntry w ?hk ?a] =>
      destruct (refused hk a) as [err ->]
  end.
  destruct (ks_error_code err =? KEY_NOT_FOUND); stops_here Hnk.
Qed.

Lemma key_entry_error_stops_unwrap_witness :
  let w := with_keystore
             (Bench.world
                [ (Bench.dir +++ "abc.spblob", Readable (Bench.spblob_bytes x02)) ]
                None 0)
             (fun _ _ => inl {| ks_error_code := 7; ks_description := "" |})
             (fun _ _ _ => true) in
  exists evs,
    unwrapSyntheticPasswordBlob w Bench.dir "abc" 0 [x07] []
    = (fst (unwrapSyntheticPasswordBlob w Bench.dir "abc" 0 [x07] []), [] ++ evs)
    /\ (fst (unwrapSyntheticPasswordBlob w Bench.dir "abc" 0 [x07] [])
        = Ret EmptyString
        \/ fst (unwrapSyntheticPasswordBlob w Bench.dir "abc" 0 [x07] []) = Undef)
    /\ (keystore_calls evs = []
        \/ keystore_calls evs
           = [EvKeystoreGetKeyEntry (getAlias w (getHandle w 0))]).
Proof.
  intro w.
  apply (key_entry_error_stops_unwrap w Bench.dir "abc" 0 [x07] []).
  intros h' alias. eexists. reflexivity.
Defined.

(** X16.  When the keystore refuses [createOperation], the unwrap yields
    no secret and never calls [finish]. *)
Theorem create_operation_failure_stops_unwrap w p hs user_id application_id h
  (refused : forall h' key params, ks_createOperation w h' key params = false) :
  exists evs,
    unwrapSyntheticPasswordBlob w p hs user_id application_id h
    = (fst (unwrapSyntheticPasswordBlob w p hs user_id application_id h), h ++ evs)
    /\ (fst (unwrapSyntheticPasswordBlob w p hs user_id application_id h)
        = Ret EmptyString
        \/ fst (unwrapSyntheticPasswordBlob w p hs user_id application_id h) = Undef)
    /\ (keystore_calls evs = []
        \/ keystore_calls evs
           = [EvKeystoreGetKeyEntry (getAlias w (getHandle w user_id))]
        \/ exists key params,
             keystore_calls evs
             = [ EvKeystoreGetKeyEntry (getAlias w (getHandle w user_id));
                 EvKeystoreCreateOperation key params ]).
Proof.
  pose proof (Get_Spblob_Data_no_keystore_call w p hs) as Hnk.
  destruct (unwrapSyntheticPasswordBlob w p hs user_id application_id h)
    as [r h'] eqn:E.
  cbn [fst]. revert E.
  unfold unwrapSyntheticPasswordBlob. run_step. run_step.
  rewrite (bind_framed _ _ _ (framed_Get_Spblob_Data w p hs ".spblob" "spblob")).
  destruct (fst (Get_Spblob_Data w p hs ".spblob" "spblob" [])) as [[data|]|];
    [ | stops_here Hnk | stops_here Hnk ].
  cbv beta iota zeta.
  rewrite bind_unfold. unfold lift at 1.
  destruct (load_u8 (c_buffer data) 0) as [b0|]; [ | stops_here Hnk ].
  destruct (negb _ && negb _ && negb _); [ stops_here Hnk | ].
  rewrite bind_unfold. unfold lift at 1.
  destruct (load_u8 (c_buffer data) 1) as [b1|]; [ | stops_here Hnk ].
  destruct (negb (Z_of_byte b1 =? _)); [ stops_here Hnk | ].
  destruct (_ || _); [ | stops_here Hnk ].
  run_step.
  destruct (List.length data <? 14)%nat; [ stops_here Hnk | ].
  run_step.
  destruct (keystore_service w _); cbv beta iota delta [negb]; [ | stops_here Hnk ].
  run_step.
  destruct (ks_getKeyEntry w _ _) as [err|key].
  { destruct (ks_error_code err =? KEY_NOT_FOUND); stops_here Hnk. }
  run_step. run_with refused.
  stops_here Hnk.
Qed.

Lemma create_operation_failure_stops_unwrap_witness :
  let w := with_keystore
             (Bench.world
                [ (Bench.dir +++ "abc.spblob", Readable (Bench.spblob_bytes x02)) ]
                None 0)
             (fun _ alias => inr alias)
             (fun _ _ _ => false) in
  exists evs,
    unwrapSyntheticPasswordBlob w Bench.dir "abc" 0 [x07] []
    = (fst (unwrapSyntheticPasswordBlob w Bench.dir "abc" 0 [x07] []), [] ++ evs)
    /\ (fst (unwrapSyntheticPasswordBlob w Bench.dir "abc" 0 [x07] [])
        = Ret EmptyString
        \/ fst (unwrapSyntheticPasswordBlob w Bench.dir "abc" 0 [x07] []) = Undef)
    /\ (keystore_calls evs = []
        \/ keystore_calls evs
           = [EvKeystoreGetKeyEntry (getAlias w (getHandle w 0))]
        \/ exists key params,
             keystore_calls evs
             = [ EvKeystoreGetKeyEntry (getAlias w (getHandle w 0));
                 EvKeystoreCreateOperation key params ]).
Proof.
  intro w.
  apply (create_operation_failure_stops_unwrap w Bench.dir "abc" 0 [x07] []).
  reflexivity.
Defined.

(** ** Waiting for the keystore service *)

Module KeystoreBinderFacts.
Import KeystoreBinder.

Section Service_manager.

Variable IBinder : Type.
Variable getService : trace -> string -> option IBinder.


Lemma seconds_slept_app calls1 calls2 :
  seconds_slept (calls1 ++ calls2) = seconds_slept calls1 + seconds_slept calls2.
Proof.
  induction calls1 as [|[] calls1 IH]; cbn [seconds_slept List.app]; lia.
Qed.


Lemma getKeystoreBinderRetry_loop_timed ready binder t0 :
  (forall t name,
      getService t name
      = if ready <=? seconds_slept t - seconds_slept t0 then Some binder else None) ->
  forall retry_count t t2 r,
    let elapsed := seconds_slept t - seconds_slept t0 in
    getKeystoreBinderRetry_loop IBinder getService retry_count
      (if ready <=? elapsed then Some binder else None) t = (r, t2) ->
    r = (if ready <=? elapsed + Z.of_nat retry_count then Some binder else None)
    /\ seconds_slept t2 - seconds_slept t0
       = Z.max elapsed (Z.min ready (elapsed + Z.of_nat retry_count)).
Proof.
  intros Hsvc. induction retry_count as [|n IH]; intros t t2 r elapsed.
  - cbn [getKeystoreBinderRetry_loop].
    replace (elapsed + Z.of_nat 0) with elapsed by lia.
    destruct (Z.leb_spec ready elapsed); intros [= <- <-];
      (split; [ reflexivity | fold elapsed; lia ]).
  - destruct (Z.leb_spec ready elapsed) as [Hle|Hgt].
    + cbn [getKeystoreBinderRetry_loop]. intros [= <- <-]. fold elapsed.
      destruct (Z.leb_spec ready (elapsed + Z.of_nat (S n)));
        (split; [ reflexivity || lia | lia ]).
    + cbn [getKeystoreBinderRetry_loop getKeystoreBinder].
      set (wait := [ Printf ("Waiting for keystore service... "
                               +++ fmt_int (Z.of_nat (S n)) +++ LF); Sleep 1 ]).
      set (name := "android.security.keystore"%string).
      assert (Hw : seconds_slept (t ++ wait) - seconds_slept t0 = elapsed + 1).
      { rewrite seconds_slept_app. unfold wait, elapsed.
        cbn [seconds_slept]. lia. }
      assert (Hs : seconds_slept ((t ++ wait) ++ [GetService name])
                   - seconds_slept t0 = elapsed + 1).
      { rewrite seconds_slept_app, <- Hw. cbn [seconds_slept]. lia. }
      rewrite Hsvc, Hw. intro Hrun.
      specialize (IH ((t ++ wait) ++ [GetService name]) t2 r).
      cbv zeta in IH. rewrite Hs in IH.
      destruct (IH Hrun) as [-> ->].
      replace (elapsed + 1 + Z.of_nat n) with (elapsed + Z.of_nat (S n)) by lia.
      split; [ reflexivity | lia ].
Qed.

End Service_manager.

End KeystoreBinderFacts.


(** X18.  When the service manager knows the keystore once [ready]
    seconds have passed since the call, [getKeystoreBinderRetry] returns
    the binder after sleeping exactly [ready] seconds if [ready] is at most
    50, and otherwise gives up with a null pointer after 50 seconds. *)
Theorem getKeystoreBinderRetry_finds_service_in_time
  (IBinder : Type) (getService : KeystoreBinder.trace -> string -> option IBinder)
  (binder : IBinder) (ready : Z) (t : KeystoreBinder.trace) :
  0 <= ready ->
  (forall t' name,
      getService t' name
      = if ready <=? KeystoreBinder.seconds_slept t' - KeystoreBinder.seconds_slept t
        then Some binder else None) ->
  exists t',
    KeystoreBinder.getKeystoreBinderRetry IBinder getService t
    = (if ready <=? 50 then Some binder else None, t')
    /\ KeystoreBinder.seconds_slept t' - KeystoreBinder.seconds_slept t
       = Z.min ready 50.
Proof.
  intros Hready Hsvc.
  destruct (KeystoreBinder.getKeystoreBinderRetry IBinder getService t) as [r t'] eqn:E.
  exists t'. revert E.
  unfold KeystoreBinder.getKeystoreBinderRetry, KeystoreBinder.getKeystoreBinder.
  set (start := [ KeystoreBinder.Printf ("Starting keystore..." +++ LF);
                  KeystoreBinder.PropertySet "ctl.start" "keystore" ]).
  set (name := "android.security.keystore"%string).
  assert (Hs : KeystoreBinder.seconds_slept
                 ((t ++ start) ++ [KeystoreBinder.GetService name])
               - KeystoreBinder.seconds_slept t = 0).
  { rewrite !KeystoreBinderFacts.seconds_slept_app. cbn. lia. }
  assert (Hw : KeystoreBinder.seconds_slept (t ++ start)
               - KeystoreBinder.seconds_slept t = 0).
  { rewrite !KeystoreBinderFacts.seconds_slept_app. cbn. lia. }
  rewrite Hsvc, Hw. intro Hrun.
  pose proof (KeystoreBinderFacts.getKeystoreBinderRetry_loop_timed
                IBinder getService ready binder t Hsvc 50
                ((t ++ start) ++ [KeystoreBinder.GetService name]) t' r) as H.
  cbv zeta in H. rewrite Hs in H.
  destruct (H Hrun) as [-> ->].
  split; [ reflexivity | lia ].
Qed.

Lemma getKeystoreBinderRetry_finds_service_in_time_witness :
  exists t',
    KeystoreBinder.getKeystoreBinderRetry nat (KeystoreBinder.up_after 3 7%nat) []
    = (if 3 <=? 50 then Some 7%nat else None, t')
    /\ KeystoreBinder.seconds_slept t' - KeystoreBinder.seconds_slept [] = Z.min 3 50.
Proof.
  apply (getKeystoreBinderRetry_finds_service_in_time nat
           (KeystoreBinder.up_after 3 7%nat) 7%nat 3 []).
  - lia.
  - intros t' name. unfold KeystoreBinder.up_after. cbn [KeystoreBinder.seconds_slept].
    now rewrite Z.sub_0_r.
Defined.

(** ** The metadata encryption options *)

Section Metadata_options.

Import MetadataCrypt.
Local Open Scope metadata_scope.

Lemma Split_not_nil s delimiters : Split s delimiters <> [].
Proof.
  destruct s as [|c s]; cbn [Split]; [ discriminate | ].
  destruct (is_delimiter delimiters c); [ discriminate | ].
  destruct (Split s delimiters); discriminate.
Qed.

Lemma Split_one delimiters s piece :
  Split s delimiters = [piece] <-> s = piece /\ has_delimiter delimiters piece = false.
Proof.
  revert piece. induction s as [|c s IH]; intro piece.
  - cbn. split.
    + intros [= <-]. auto.
    + intros [<- _]. reflexivity.
  - cbn [Split]. destruct (is_delimiter delimiters c) eqn:Ec.
    + split.
      * intros [= _ E]. now apply Split_not_nil in E.
      * intros [<- H]. unfold has_delimiter in H. cbn in H. now rewrite Ec in H.
    + destruct (Split s delimiters) as [|first others] eqn:Es.
      { now apply Split_not_nil in Es. }
      split.
      * intros [= <- ->]. destruct (proj1 (IH first) eq_refl) as [-> Hf].
        split; [ reflexivity | ].
        unfold has_delimiter in *. cbn. now rewrite Ec.
      * intros [<- H]. unfold has_delimiter in H. cbn in H. rewrite Ec in H.
        cbn in H. pose proof (proj2 (IH s) (conj eq_refl H)) as E.
        injection E as -> ->. reflexivity.
Qed.

Lemma Split_more delimiters s piece next rest :
  Split s delimiters = piece :: next :: rest <->
  exists c s',
    s = piece +++ String c s'
    /\ is_delimiter delimiters c = true
    /\ has_delimiter delimiters piece = false
    /\ Split s' delimiters = next :: rest.
Proof.
  revert piece. induction s as [|c s IH]; intro piece.
  - cbn. split; [ discriminate | ].
    intros (c & s' & E & _). destruct piece; discriminate E.
  - cbn [Split]. destruct (is_delimiter delimiters c) eqn:Ec.
    + split.
      * intros [= <- E]. exists c, s. auto.
      * intros (c' & s' & E & Hc & Hp & Hs).
        destruct piece as [|p piece].
        -- cbn in E. injection E as <- <-. now rewrite Hs.
        -- cbn in E. injection E as <- _.
           unfold has_delimiter in Hp. cbn in Hp. now rewrite Ec in Hp.
    + destruct (Split s delimiters) as [|first others] eqn:Es.
      { now apply Split_not_nil in Es. }
      split.
      * intros [= <- ->].
        destruct (proj1 (IH first) eq_refl) as (c' & s' & -> & Hc & Hp & Hs).
        exists c', s'. repeat split; auto.
        unfold has_delimiter in *. cbn. now rewrite Ec.
      * intros (c' & s' & E & Hc & Hp & Hs).
        destruct piece as [|p piece].
        -- cbn in E. injection E as <- _. congruence.
        -- cbn in E. injection E as <- ->.
           unfold has_delimiter in Hp. cbn in Hp. rewrite Ec in Hp. cbn in Hp.
           assert (E : first :: others = piece :: next :: rest).
           { apply (proj2 (IH piece)). exists c', s'. auto. }
           now injection E as -> ->.
Qed.

Lemma is_colon c : is_delimiter ":" c = true -> c = ":"%char.
Proof.
  unfold is_delimiter. cbn. rewrite orb_false_r. apply Ascii.eqb_eq.
Qed.

(** A run of [parse_options] that succeeds read a cipher name alone or
    followed by the one flag. *)
Lemma parse_options_true env options_string options options' t :
  fst (parse_options env options_string options t) = Ret (true, options') ->
  exists cipher_name c kernel_name,
    has_delimiter ":" cipher_name = false
    /\ lookup_cipher env cipher_name = Ret c
    /\ get_kernel_name c = Some kernel_name
    /\ ((options_string = cipher_name /\ options' = set_cipher options c)
        \/ (options_string = cipher_name +++ ":wrappedkey_v0"
            /\ options' = set_use_hw_wrapped_key (set_cipher options c) true)).
Proof.
  unfold parse_options.
  destruct (Split options_string ":") as [|piece [|flag [|more rest]]] eqn:Es.
  - now apply Split_not_nil in Es.
  - apply Split_one in Es. destruct Es as [-> Hp].
    cbn [List.length Nat.ltb Nat.leb orb nth Nat.eqb].
    unfold bind, lift, log, ret.
    destruct (lookup_cipher env piece) as [c|] eqn:El; [ | discriminate ].
    destruct (get_kernel_name c) as [k|] eqn:Ek; [ | discriminate ].
    cbn. intros [= <-]. exists piece, c, k.
    split; [ assumption | split; [ assumption | split; [ assumption | ] ] ].
    left. split; reflexivity.
  - apply Split_more in Es. destruct Es as (c' & s' & -> & Hc & Hp & Hs).
    apply is_colon in Hc. subst c'.
    apply Split_one in Hs. destruct Hs as [-> Hf].
    cbn [List.length Nat.ltb Nat.leb orb nth Nat.eqb].
    unfold bind, lift, log, ret.
    destruct (lookup_cipher env piece) as [c|] eqn:El; [ | discriminate ].
    destruct (get_kernel_name c) as [k|] eqn:Ek; [ | discriminate ].
    destruct (flag =? "wrappedkey_v0")%string eqn:Ef; [ | discriminate ].
    apply String.eqb_eq in Ef. subst flag.
    cbn. intros [= <-]. exists piece, c, k.
    split; [ assumption | split; [ assumption | split; [ assumption | ] ] ].
    right. split; reflexivity.
  - cbn. discriminate.
Qed.

Lemma parse_options_cipher_alone env cipher_name c kernel_name options t :
  has_delimiter ":" cipher_name = false ->
  lookup_cipher env cipher_name = Ret c ->
  get_kernel_name c = Some kernel_name ->
  parse_options env cipher_name options t = (Ret (true, set_cipher options c), t).
Proof.
  intros Hp El Ek. unfold parse_options.
  rewrite (proj2 (Split_one ":" cipher_name cipher_name) (conj eq_refl Hp)).
  cbn [List.length Nat.ltb Nat.leb orb nth Nat.eqb].
  unfold bind, lift, ret. now rewrite El, Ek.
Qed.

Lemma parse_options_cipher_wrapped env cipher_name c kernel_name options t :
  has_delimiter ":" cipher_name = false ->
  lookup_cipher env cipher_name = Ret c ->
  get_kernel_name c = Some kernel_name ->
  parse_options env (cipher_name +++ ":wrappedkey_v0") options t
  = (Ret (true, set_use_hw_wrapped_key (set_cipher options c) true), t).
Proof.
  intros Hp El Ek. unfold parse_options.
  assert (Es : Split (cipher_name +++ ":wrappedkey_v0") ":"
               = [cipher_name; "wrappedkey_v0"%string]).
  { apply Split_more. exists ":"%char, "wrappedkey_v0"%string.
    repeat split; auto. }
  rewrite Es.
  cbn [List.length Nat.ltb Nat.leb orb nth Nat.eqb].
  unfold bind, lift, ret. now rewrite El, Ek.
Qed.

(** X19.  [parse_options] accepts exactly two shapes of option string: a
    cipher name without a colon that [lookup_cipher] knows (the empty name
    stands for the default cipher), alone or followed by [:wrappedkey_v0].
    It then stores the cipher, sets [use_hw_wrapped_key] only for the
    flag, and leaves the other options as they were. *)
Theorem parse_options_accepts_exactly env options_string options options' t :
  fst (parse_options env options_string options t) = Ret (true, options') <->
  exists cipher_name c kernel_name,
    has_delimiter ":" cipher_name = false
    /\ lookup_cipher env cipher_name = Ret c
    /\ get_kernel_name c = Some kernel_name
    /\ ((options_string = cipher_name /\ options' = set_cipher options c)
        \/ (options_string = cipher_name +++ ":wrappedkey_v0"
            /\ options' = set_use_hw_wrapped_key (set_cipher options c) true)).
Proof.
  split.
  - apply parse_options_true.
  - intros (cipher_name & c & k & Hp & El & Ek & [[-> ->]|[-> ->]]).
    + now rewrite (parse_options_cipher_alone env cipher_name c k options t).
    + now rewrite (parse_options_cipher_wrapped env cipher_name c k options t).
Qed.

End Metadata_options.

(** ** The dm-default-key device *)

(** Case analysis on the next call whose answer the run depends on. *)
Ltac crypto_dev_step :=
  match goal with
  | |- context [match ?x with _ => _ end] =>
      match x with
      | context [match _ with _ => _ end] => fail 1
      | _ => destruct x eqn:?
      end
  | |- context [if ?x then _ else _] =>
      match x with
      | context [if _ then _ else _] => fail 1
      | _ => destruct x eqn:?
      end
  end.

Section Metadata_device.

Import MetadataCrypt.
Local Open Scope metadata_scope.

(** Clearing the low three bits of a [uint64_t]. *)
Lemma land_not_7 n :
  Z.land (to_uint64 n) (to_uint64 (Z.lnot 7)) = 8 * (to_uint64 n / 8).
Proof.
  unfold to_uint64.
  replace (Z.lnot 7 mod 2 ^ 64) with (Z.ldiff (Z.ones 64) (Z.ones 3)) by reflexivity.
  assert (E : Z.land (n mod 2 ^ 64) (Z.ldiff (Z.ones 64) (Z.ones 3))
              = Z.ldiff (Z.land (n mod 2 ^ 64) (Z.ones 64)) (Z.ones 3)).
  { apply Z.bits_inj'. intros i Hi.
    rewrite Z.land_spec, !Z.ldiff_spec, Z.land_spec.
    now rewrite andb_assoc. }
  rewrite E, Z.land_ones, Z.mod_mod, Z.ldiff_ones_r by lia.
  rewrite Z.shiftr_div_pow2, Z.shiftl_mul_pow2 by lia.
  change (2 ^ 3) with 8. lia.
Qed.

(** X20.  [create_crypto_blk_dev] hands the device mapper at most one
    table, under the name it was given.  The table has one target that
    starts at sector 0 of the block device and whose length is the number
    of 512-byte sectors measured, rounded down to a multiple of 8 (a whole
    number of 4096-byte sectors); it carries the kernel name of the cipher
    and the three flags of the options. *)
Theorem create_crypto_blk_dev_table env dm_name blk_device key options
  crypto_blkdev nr_sec t :
  let measured := to_uint64 (snd (GetBlockDev512Sectors env t blk_device nr_sec)) in
  exists calls,
    snd (create_crypto_blk_dev env dm_name blk_device key options crypto_blkdev nr_sec t)
    = t ++ calls
    /\ (submitted_tables calls = []
        \/ exists target,
             submitted_tables calls = [(dm_name, [target])]
             /\ dm_start target = 0
             /\ dm_length target = 8 * (measured / 8)
             /\ dm_blockdev target = blk_device
             /\ dm_start_sector target = 0
             /\ get_kernel_name (cipher options) = Some (dm_cipher target)
             /\ dm_use_legacy_options_format target = use_legacy_options_format options
             /\ dm_set_dun target = set_dun options
             /\ dm_is_hw_wrapped target = use_hw_wrapped_key options).
Proof.
  intro measured. subst measured.
  unfold create_crypto_blk_dev, get_number_of_sectors, bind, ask, log, plog, ret, undef.
  destruct (GetBlockDev512Sectors env t blk_device nr_sec) as [status n].
  cbn [snd].
  destruct (negb (status =? OK)); cbv beta iota zeta; rewrite ?land_not_7.
  all: repeat crypto_dev_step.
  all: cbn [snd]; repeat rewrite <- app_assoc; eexists; (split; [ reflexivity | ]).
  all: cbn [submitted_tables flat_map List.app].
  all: try (left; reflexivity).
  all: right; eexists; repeat split; try reflexivity; auto.
Qed.

(** X21.  When [create_crypto_blk_dev] returns [true], the size was
    measured and exactly one table went to the device mapper; [*nr_sec] is
    the measured number of sectors rounded down to a multiple of 8; and
    for the devices [userdata] and [userdata_zoned] the path reported is
    [/dev/block/mapper/<name>], whatever the device mapper answered. *)
Theorem create_crypto_blk_dev_success env dm_name blk_device key options
  crypto_blkdev nr_sec t path n :
  fst (create_crypto_blk_dev env dm_name blk_device key options crypto_blkdev nr_sec t)
  = Ret (true, path, n) ->
  fst (GetBlockDev512Sectors env t blk_device nr_sec) = OK
  /\ n = 8 * (to_uint64 (snd (GetBlockDev512Sectors env t blk_device nr_sec)) / 8)
  /\ (dm_name = kDmNameUserdata \/ dm_name = kDmNameUserdataZoned ->
      path = ("/dev/block/mapper/" +++ dm_name)%string)
  /\ exists calls target,
       snd (create_crypto_blk_dev env dm_name blk_device key options crypto_blkdev
              nr_sec t) = t ++ calls
       /\ submitted_tables calls = [(dm_name, [target])].
Proof.
  unfold create_crypto_blk_dev, get_number_of_sectors, bind, ask, log, plog, ret, undef.
  destruct (GetBlockDev512Sectors env t blk_device nr_sec) as [status m].
  cbn [snd fst].
  destruct (status =? OK) eqn:Es; cbv beta iota zeta delta [negb]; rewrite ?land_not_7;
    [ apply Z.eqb_eq in Es | discriminate ].
  repeat crypto_dev_step.
  all: cbn [fst snd]; try discriminate.
  all: intros [= <- <-]; repeat rewrite <- app_assoc.
  all: split; [ assumption | split; [ reflexivity | split ] ].
  all: try (do 2 eexists; split; [ reflexivity | reflexivity ]).
  all: intros [->| ->]; try reflexivity; discriminate.
Qed.

Lemma create_crypto_blk_dev_success_witness :
  let env := bench_env 1003 SUSPENDED "" "/metadata/vold/metadata_encryption" in
  fst (GetBlockDev512Sectors env [] "/dev/block/sda9" 0) = OK
  /\ 1000 = 8 * (to_uint64 (snd (GetBlockDev512Sectors env [] "/dev/block/sda9" 0)) / 8)
  /\ (kDmNameUserdata = kDmNameUserdata \/ kDmNameUserdata = kDmNameUserdataZoned ->
      "/dev/block/mapper/userdata"%string = ("/dev/block/mapper/" +++ kDmNameUserdata)%string)
  /\ exists calls target,
       snd (create_crypto_blk_dev env kDmNameUserdata "/dev/block/sda9" [x01; x02]
              (bench_options env) "" 0 []) = [] ++ calls
       /\ submitted_tables calls = [(kDmNameUserdata, [target])].
Proof.
  intro env.
  apply (create_crypto_blk_dev_success env kDmNameUserdata "/dev/block/sda9" [x01; x02]
           (bench_options env) "" 0 [] "/dev/block/mapper/userdata" 1000).
  vm_compute. reflexivity.
Defined.

End Metadata_device.

(** ** Removing the key directory of a DSU slot *)

Section Metadata_dsu.

Import MetadataCrypt.
Local Open Scope metadata_scope.



Ltac dsu_trace :=
  cbn [fst snd]; repeat rewrite <- app_assoc; cbn [List.app].


(** X23.  When the key directory of the DSU slot is the directory in
    which the host keeps the metadata key of [/data] (by the fstab in
    use, read first if it was empty), [destroy_dsu_metadata_key] deletes
    nothing, and it returns [false] unless the directory does not
    exist. *)
Theorem destroy_dsu_metadata_key_spares_host_keys env dsu_slot fstab_default t data_rec :
  let dir := GetDsuMetadataKeyDir env dsu_slot in
  let t1 := t ++ [LOG INFO ("destroy_dsu_metadata_key: " +++ dsu_slot); PathExists dir] in
  let fstab := match fstab_default with
               | [] => snd (ReadDefaultFstab env t1 [])
               | _ :: _ => fstab_default
               end in
  GetEntryForMountPoint fstab "/data" = Some data_rec ->
  metadata_key_dir data_rec = dir ->
  exists ok fstab' calls,
    destroy_dsu_metadata_key env dsu_slot fstab_default t = (Ret (ok, fstab'), t ++ calls)
    /\ Forall (fun c => destructive c = false) calls
    /\ (ok = true ->
        pathExists env (t ++ [LOG INFO ("destroy_dsu_metadata_key: " +++ dsu_slot)]) dir
        = false).
Proof.
  intros dir t1 fstab Hrec Hdir.
  destruct (destroy_dsu_metadata_key env dsu_slot fstab_default t) as [r t'] eqn:E.
  revert E. unfold destroy_dsu_metadata_key. fold dir.
  unfold bind at 1. unfold log at 1. unfold bind at 1. unfold ask at 1.
  replace ((t ++ [LOG INFO ("destroy_dsu_metadata_key: " +++ dsu_slot)])
             ++ [PathExists dir]) with t1 by (unfold t1; now rewrite <- app_assoc).
  destruct (pathExists env _ dir) eqn:Ep; cbn [negb].
  2:{ unfold bind, log, ret, t1. intros [= <- <-]. dsu_trace.
      do 3 eexists. split; [ reflexivity | ].
      split; [ repeat constructor | reflexivity ]. }
  unfold bind at 1.
  match goal with
  | |- context [match ?x with _ => _ end] =>
      match x with
      | _ t1 => set (read := x)
      end
  end.
  assert (Hread : exists opened calls0,
             read = (Ret (opened, fstab), t1 ++ calls0)
             /\ Forall (fun c => destructive c = false) calls0).
  { subst fstab read. destruct fstab_default.
    - unfold ask. destruct (ReadDefaultFstab env t1 []) as [o f].
      exists o, [ReadFstab]. repeat split; auto.
    - unfold ret. eexists. exists []. rewrite app_nil_r. repeat split; auto. }
  clearbody read. destruct Hread as (opened & calls0 & -> & Hq0).
  destruct opened; cbn [negb].
  2:{ unfold bind, plog, ret, t1. intros [= <- <-]. dsu_trace.
      do 3 eexists. split; [ reflexivity | ].
      split; [ | discriminate ].
      repeat (constructor; [ reflexivity | ]).
      apply Forall_app. split; [ assumption | repeat constructor ]. }
  rewrite Hrec, Hdir, String.eqb_refl.
  unfold bind, log, ret, t1. intros [= <- <-]. dsu_trace.
  do 3 eexists. split; [ reflexivity | ].
  split; [ | discriminate ].
  repeat (constructor; [ reflexivity | ]).
  apply Forall_app. split; [ assumption | repeat constructor ].
Qed.

Lemma destroy_dsu_metadata_key_spares_host_keys_witness :
  let env := bench_env 1003 SUSPENDED "" "/metadata/gsi/dsu/dsu" in
  exists ok fstab' calls,
    destroy_dsu_metadata_key env "dsu" [] [] = (Ret (ok, fstab'), [] ++ calls)
    /\ Forall (fun c => destructive c = false) calls
    /\ (ok = true ->
        pathExists env ([] ++ [LOG INFO ("destroy_dsu_metadata_key: " +++ "dsu")])
          (GetDsuMetadataKeyDir env "dsu")
        = false).
Proof.
  intro env.
  apply (destroy_dsu_metadata_key_spares_host_keys env "dsu" [] []
           (bench_data_rec "" "/metadata/gsi/dsu/dsu"));
    reflexivity.
Defined.

End Metadata_dsu.

(** ** Options and device of an external volume *)

Section Metadata_volume.

Import MetadataCrypt.
Local Open Scope metadata_scope.

Variable env : Env.

(** What the [static_assert]s on the table of supported types and
    [CryptoType.h] give: the supported types have their names, the invalid
    type has none. *)
Hypothesis aes_256_xts_named : get_config_name (aes_256_xts env) <> None.
Hypothesis adiantum_named : get_config_name (adiantum env) <> None.
Hypothesis invalid_crypto_type_unnamed : get_kernel_name (invalid_crypto_type env) = None.

Lemma lookup_cipher_defined cipher_name :
  exists c,
    lookup_cipher env cipher_name = Ret c
    /\ (In c (supported_crypto_types env) \/ c = invalid_crypto_type env).
Proof.
  unfold lookup_cipher, supported_crypto_types.
  destruct (cipher_name =? "")%string.
  - eexists. split; [ reflexivity | ]. left. now left.
  - cbn [lookup_cipher_loop].
    destruct (get_config_name (aes_256_xts env)) as [n1|]; [ | now destruct aes_256_xts_named ].
    destruct (get_config_name (adiantum env)) as [n2|]; [ | now destruct adiantum_named ].
    destruct (cipher_name =? n1)%string.
    + eexists. split; [ reflexivity | ]. left. now left.
    + destruct (cipher_name =? n2)%string.
      * eexists. split; [ reflexivity | ]. left. right. now left.
      * eexists. split; [ reflexivity | ]. now right.
Qed.

Lemma parse_options_defined options_string options t :
  exists ok options' logs,
    parse_options env options_string options t = (Ret (ok, options'), t ++ logs)
    /\ submitted_tables logs = []
    /\ (ok = true ->
        In (cipher options') (supported_crypto_types env)
        /\ get_kernel_name (cipher options') <> None
        /\ use_legacy_options_format options' = use_legacy_options_format options
        /\ set_dun options' = set_dun options).
Proof.
  unfold parse_options.
  destruct (_ || _).
  { unfold bind, log, ret. do 3 eexists. split; [ reflexivity | ].
    split; [ reflexivity | discriminate ]. }
  destruct (lookup_cipher_defined (nth 0 (Split options_string ":") EmptyString))
    as (c & El & Hc).
  unfold bind at 1. unfold lift. rewrite El.
  destruct (get_kernel_name c) as [k|] eqn:Ek.
  2:{ unfold bind, log, ret. do 3 eexists. split; [ reflexivity | ].
      split; [ reflexivity | discriminate ]. }
  assert (Hin : In c (supported_crypto_types env)).
  { destruct Hc as [Hc| ->]; [ exact Hc | ]. congruence. }
  destruct (_ =? 2)%nat.
  - destruct (_ =? _)%string.
    + unfold ret. do 2 eexists. exists []. rewrite app_nil_r.
      split; [ reflexivity | split; [ reflexivity | ] ].
      intros _. cbn. rewrite Ek. repeat split; auto. discriminate.
    + unfold bind, log, ret. do 3 eexists. split; [ reflexivity | ].
      split; [ reflexivity | discriminate ].
  - unfold ret. do 2 eexists. exists []. rewrite app_nil_r.
    split; [ reflexivity | split; [ reflexivity | ] ].
    intros _. cbn. rewrite Ek. repeat split; auto. discriminate.
Qed.

(** X24.  With the supported cipher types complete, as the
    [static_assert]s demand, [defaultkey_setup_ext_volume] has a defined
    result, and a table it hands to the device mapper is for the device
    named by the label, with one target: the cipher is the kernel name of
    a supported type (never built from a null pointer), the DUN flag is
    set and the legacy options format is not used. *)
Theorem defaultkey_setup_ext_volume_defined label blk_device key out_crypto_blkdev t :
  exists ok crypto_blkdev calls,
    defaultkey_setup_ext_volume env label blk_device key out_crypto_blkdev t
    = (Ret (ok, crypto_blkdev), t ++ calls)
    /\ (submitted_tables calls = []
        \/ exists target,
             submitted_tables calls = [(label, [target])]
             /\ In (Some (dm_cipher target))
                  (map get_kernel_name (supported_crypto_types env))
             /\ dm_set_dun target = true
             /\ dm_use_legacy_options_format target = false
             /\ dm_blockdev target = blk_device).
Proof.
  destruct (defaultkey_setup_ext_volume env label blk_device key out_crypto_blkdev t)
    as [r t'] eqn:E.
  revert E. unfold defaultkey_setup_ext_volume, get_volume_options.
  unfold bind at 1. unfold log at 1. unfold bind at 1. unfold bind at 1. unfold ask at 1.
  match goal with
  | |- context [parse_options env ?v ?o ?t0] =>
      destruct (parse_options_defined v o t0) as (ok & options & logs & -> & Hlogs & Hok)
  end.
  destruct ok; cbn [negb].
  2:{ unfold ret. intros [= <- <-]. repeat rewrite <- app_assoc.
      do 3 eexists. split; [ reflexivity | ].
      left. cbn [submitted_tables flat_map List.app].
      fold (submitted_tables logs). exact Hlogs. }
  destruct (Hok eq_refl) as (Hin & Hk & Hlegacy & Hdun). clear Hok.
  cbn in Hlegacy, Hdun.
  destruct (get_kernel_name (cipher options)) as [k|] eqn:Ek; [ clear Hk | now destruct Hk ].
  assert (Hcipher : In (Some k) (map get_kernel_name (supported_crypto_types env))).
  { rewrite <- Ek. now apply in_map. }
  unfold create_crypto_blk_dev, get_number_of_sectors, bind, ask, log, plog, ret, undef.
  rewrite Ek.
  repeat crypto_dev_step.
  all: intros [= <- <-]; repeat rewrite <- app_assoc.
  all: do 3 eexists; (split; [ reflexivity | ]).
  all: cbn [submitted_tables flat_map List.app]; fold (submitted_tables logs);
    rewrite ?flat_map_app; fold (submitted_tables logs); rewrite ?Hlogs;
    cbn [submitted_tables flat_map List.app].
  all: try (left; reflexivity).
  all: right; eexists; split; [ reflexivity | ]; cbn; auto.
Qed.

(** X25.  [defaultkey_volume_keygen] reads the property
    [ro.crypto.volume.metadata.encryption].  It returns [true] exactly
    when the value is a name that [lookup_cipher] resolves to a supported
    cipher with a kernel name (the empty name gives the default one), alone
    or followed by [:wrappedkey_v0].  When it returns [false], [*gen] is
    as it was.  For a value of that shape, [*gen] has the key size of the
    cipher, allows generation, and asks for hardware wrapping exactly when
    the flag is there. *)
Theorem defaultkey_volume_keygen_result gen t :
  let value := GetProperty env t "ro.crypto.volume.metadata.encryption" "" in
  exists ok gen' calls,
    defaultkey_volume_keygen env gen t = (Ret (ok, gen'), t ++ calls)
    /\ (ok = true <->
        exists cipher_name c kernel_name,
          has_delimiter ":" cipher_name = false
          /\ In c (supported_crypto_types env)
          /\ lookup_cipher env cipher_name = Ret c
          /\ get_kernel_name c = Some kernel_name
          /\ (value = cipher_name \/ value = cipher_name +++ ":wrappedkey_v0"))
    /\ (ok = false -> gen' = gen)
    /\ (forall cipher_name c kernel_name,
           has_delimiter ":" cipher_name = false ->
           lookup_cipher env cipher_name = Ret c ->
           get_kernel_name c = Some kernel_name ->
           (value = cipher_name ->
            gen' = {| keysize := get_keysize c; allow_gen := true;
                      gen_use_hw_wrapped_key := false |})
           /\ (value = cipher_name +++ ":wrappedkey_v0" ->
               gen' = {| keysize := get_keysize c; allow_gen := true;
                         gen_use_hw_wrapped_key := true |})).
Proof.
  intro value.
  pose proof parse_options_defined as Hdefined.
  destruct (defaultkey_volume_keygen env gen t) as [r t'] eqn:E.
  revert E. unfold defaultkey_volume_keygen, get_volume_options.
  unfold bind at 1. unfold bind at 1. unfold ask at 1. fold value.
  set (t1 := t ++ [Property "ro.crypto.volume.metadata.encryption"]).
  pose proof (parse_options_true env value (CryptoOptions_default env)) as Htrue.
  pose proof (parse_options_cipher_alone env) as Halone.
  pose proof (parse_options_cipher_wrapped env) as Hwrapped.
  destruct (Hdefined value (CryptoOptions_default env) t1)
    as (ok & options & logs & Ep & _ & Hok).
  specialize (Htrue options t1). rewrite Ep in *. cbn [fst] in Htrue.
  destruct ok; cbn [negb]; unfold ret; intros [= <- <-]; unfold t1;
    repeat rewrite <- app_assoc; do 3 eexists; (split; [ reflexivity | ]).
  - split; [ split; [ intros _ | reflexivity ] | split; [ discriminate | ] ].
    + destruct (Hok eq_refl) as (Hin & _).
      destruct (Htrue eq_refl) as (name & c & k & Hname & El & Ek & Hshape).
      exists name, c, k.
      assert (Hc : cipher options = c) by (destruct Hshape as [[_ ->]|[_ ->]]; reflexivity).
      rewrite Hc in Hin.
      split; [ assumption | split; [ assumption | split; [ assumption | split; [ assumption | ] ] ] ].
      destruct Hshape as [[Hv _]|[Hv _]]; [ left | right ]; exact Hv.
    + intros name c k Hname El Ek. split; intro Hv; rewrite Hv in Ep.
      * rewrite (Halone name c k _ t1 Hname El Ek) in Ep.
        injection Ep as <- _. reflexivity.
      * rewrite (Hwrapped name c k _ t1 Hname El Ek) in Ep.
        injection Ep as <- _. reflexivity.
  - split; [ split; [ discriminate | ] | split; [ reflexivity | ] ].
    + intros (name & c & k & Hname & Hin & El & Ek & [Hv|Hv]); exfalso; rewrite Hv in Ep.
      * rewrite (Halone name c k _ t1 Hname El Ek) in Ep. discriminate Ep.
      * rewrite (Hwrapped name c k _ t1 Hname El Ek) in Ep. discriminate Ep.
    + intros name c k Hname El Ek. split; intro Hv; exfalso; rewrite Hv in Ep.
      * rewrite (Halone name c k _ t1 Hname El Ek) in Ep. discriminate Ep.
      * rewrite (Hwrapped name c k _ t1 Hname El Ek) in Ep. discriminate Ep.
Qed.

End Metadata_volume.

Lemma defaultkey_setup_ext_volume_defined_witness :
  let env := MetadataCrypt.bench_env 1003 MetadataCrypt.SUSPENDED "adiantum"
               "/metadata/vold/metadata_encryption" in
  exists ok crypto_blkdev calls,
    MetadataCrypt.defaultkey_setup_ext_volume env "sdcard" "/dev/block/sdb1" [x01] "" []
    = (Ret (ok, crypto_blkdev), [] ++ calls)
    /\ (MetadataCrypt.submitted_tables calls = []
        \/ exists target,
             MetadataCrypt.submitted_tables calls = [("sdcard"%string, [target])]
             /\ In (Some (MetadataCrypt.dm_cipher target))
                  (map MetadataCrypt.get_kernel_name (MetadataCrypt.supported_crypto_types env))
             /\ MetadataCrypt.dm_set_dun target = true
             /\ MetadataCrypt.dm_use_legacy_options_format target = false
             /\ MetadataCrypt.dm_blockdev target = "/dev/block/sdb1"%string).
Proof.
  intro env.
  apply (defaultkey_setup_ext_volume_defined env); [ discriminate | discriminate | reflexivity ].
Defined.

Lemma defaultkey_volume_keygen_result_witness :
  let env := MetadataCrypt.bench_env 1003 MetadataCrypt.SUSPENDED "adiantum:wrappedkey_v0"
               "/metadata/vold/metadata_encryption" in
  let gen := {| MetadataCrypt.keysize := 0; MetadataCrypt.allow_gen := false;
                MetadataCrypt.gen_use_hw_wrapped_key := false |} in
  let value := MetadataCrypt.GetProperty env []
                 "ro.crypto.volume.metadata.encryption" "" in
  exists ok gen' calls,
    MetadataCrypt.defaultkey_volume_keygen env gen [] = (Ret (ok, gen'), [] ++ calls)
    /\ (ok = true <->
        exists cipher_name c kernel_name,
          MetadataCrypt.has_delimiter ":" cipher_name = false
          /\ In c (MetadataCrypt.supported_crypto_types env)
          /\ MetadataCrypt.lookup_cipher env cipher_name = Ret c
          /\ MetadataCrypt.get_kernel_name c = Some kernel_name
          /\ (value = cipher_name \/ value = cipher_name +++ ":wrappedkey_v0"))
    /\ (ok = false -> gen' = gen)
    /\ (forall cipher_name c kernel_name,
           MetadataCrypt.has_delimiter ":" cipher_name = false ->
           MetadataCrypt.lookup_cipher env cipher_name = Ret c ->
           MetadataCrypt.get_kernel_name c = Some kernel_name ->
           (value = cipher_name ->
            gen' = {| MetadataCrypt.keysize := MetadataCrypt.get_keysize c;
                      MetadataCrypt.allow_gen := true;
                      MetadataCrypt.gen_use_hw_wrapped_key := false |})
           /\ (value = cipher_name +++ ":wrappedkey_v0" ->
               gen' = {| MetadataCrypt.keysize := MetadataCrypt.get_keysize c;
                         MetadataCrypt.allow_gen := true;
                         MetadataCrypt.gen_use_hw_wrapped_key := true |})).
Proof.
  intros env gen.
  apply (defaultkey_volume_keygen_result env); [ discriminate | discriminate | reflexivity ].
Defined.

(** ** Mounting the metadata-encrypted file system *)

Section Metadata_hoare.

Import MetadataCrypt.
Local Open Scope metadata_scope.

Variable P : call -> Prop.

Lemma hoare_ret {A} (Q : A -> Prop) (a : A) : Q a -> hoare P Q (ret a).
Proof.
  intros H t. exists []. cbn. rewrite app_nil_r.
  repeat split; auto. now intros a' [= <-].
Qed.

Lemma hoare_undef {A} (Q : A -> Prop) : hoare P Q undef.
Proof.
  intro t. exists []. cbn. rewrite app_nil_r. repeat split; auto. discriminate.
Qed.

Lemma hoare_lift {A} (Q : A -> Prop) (o : outcome A) :
  (forall a, o = Ret a -> Q a) -> hoare P Q (lift o).
Proof.
  intros H t. exists []. cbn. rewrite app_nil_r. repeat split; auto.
Qed.

Lemma hoare_log (Q : unit -> Prop) s text : P (LOG s text) -> Q tt -> hoare P Q (log s text).
Proof.
  intros H HQ t. exists [LOG s text]. cbn. repeat split; auto. now intros [] _.
Qed.

Lemma hoare_plog (Q : unit -> Prop) s text :
  P (PLOG s text) -> Q tt -> hoare P Q (plog s text).
Proof.
  intros H HQ t. exists [PLOG s text]. cbn. repeat split; auto. now intros [] _.
Qed.

Lemma hoare_ask {A} (Q : A -> Prop) c (oracle : trace -> A) :
  P c -> (forall t, Q (oracle t)) -> hoare P Q (ask c oracle).
Proof.
  intros H HQ t. exists [c]. cbn. repeat split; auto. now intros a [= <-].
Qed.

Lemma hoare_bind {A B} (Q1 : A -> Prop) (Q : B -> Prop) (m : Run A) (k : A -> Run B) :
  hoare P Q1 m -> (forall a, Q1 a -> hoare P Q (k a)) -> hoare P Q (bind m k).
Proof.
  intros Hm Hk t. unfold bind.
  destruct (Hm t) as (calls1 & E1 & H1 & HQ1).
  destruct (m t) as [[a|] t1]; cbn [fst snd] in E1, HQ1; subst t1.
  - destruct (Hk a (HQ1 a eq_refl) (t ++ calls1)) as (calls2 & E2 & H2 & HQ2).
    exists (calls1 ++ calls2). rewrite E2, app_assoc. split; [ reflexivity | ].
    split; [ apply Forall_app; auto | exact HQ2 ].
  - exists calls1. repeat split; auto. discriminate.
Qed.

Lemma hoare_weaken {A} (Q Q' : A -> Prop) (m : Run A) :
  hoare P Q m -> (forall a, Q a -> Q' a) -> hoare P Q' m.
Proof.
  intros Hm HQ t. destruct (Hm t) as (calls & E & H & Hq).
  exists calls. repeat split; auto.
Qed.

(** The rules for runs of which only the calls matter. *)
Lemma calls_ret {A} (a : A) : emits P (ret a).
Proof. now apply hoare_ret. Qed.

Lemma calls_undef {A} : emits P (@undef A).
Proof. apply hoare_undef. Qed.

Lemma calls_lift {A} (o : outcome A) : emits P (lift o).
Proof. now apply hoare_lift. Qed.

Lemma calls_log s text : P (LOG s text) -> emits P (log s text).
Proof. intro H. now apply hoare_log. Qed.

Lemma calls_plog s text : P (PLOG s text) -> emits P (plog s text).
Proof. intro H. now apply hoare_plog. Qed.

Lemma calls_ask {A} c (oracle : trace -> A) : P c -> emits P (ask c oracle).
Proof. intro H. now apply hoare_ask. Qed.

Lemma calls_bind {A B} (m : Run A) (k : A -> Run B) :
  emits P m -> (forall a, emits P (k a)) -> emits P (bind m k).
Proof.
  intros Hm Hk. apply (hoare_bind (fun _ => True)); [ exact Hm | ].
  intros a _. apply Hk.
Qed.

Lemma calls_of_hoare {A} (Q : A -> Prop) (m : Run A) : hoare P Q m -> emits P m.
Proof. intro H. apply (hoare_weaken Q); [ exact H | ]. intros a _. exact I. Qed.

End Metadata_hoare.

(** Splits a run into its calls; [side] proves that a call is allowed. *)
Ltac metadata_emits side :=
  repeat first
    [ apply calls_ret
    | apply calls_undef
    | apply calls_lift
    | apply calls_log; side
    | apply calls_plog; side
    | apply calls_ask; side
    | apply calls_bind; [ | intro ]
    | progress cbv beta
    | match goal with
      | |- MetadataCrypt.emits _ (if ?b then _ else _) => destruct b
      | |- MetadataCrypt.emits _ (match ?x with _ => _ end) => destruct x
      end ].

Section Metadata_mount.

Import MetadataCrypt.
Local Open Scope metadata_scope.

Variable env : Env.

(** *** The result of the mount is dropped *)

Lemma quiet_reports_mount (m : Run (bool * Fstab)) :
  emits (fun c => mount_attempted c = false) m -> reports_mount m.
Proof.
  intros H t. destruct (H t) as (calls & E & Hq & _).
  exists calls. split; [ exact E | ].
  intro Hm. exfalso. apply existsb_exists in Hm. destruct Hm as (c & Hin & Hc).
  rewrite Forall_forall in Hq. rewrite (Hq c Hin) in Hc. discriminate Hc.
Qed.

Lemma reports_mount_bind {A} (m : Run A) (k : A -> Run (bool * Fstab)) :
  emits (fun c => mount_attempted c = false) m ->
  (forall a, reports_mount (k a)) ->
  reports_mount (bind m k).
Proof.
  intros Hm Hk t. unfold bind.
  destruct (Hm t) as (calls1 & E1 & H1 & _).
  assert (Hq : existsb mount_attempted calls1 = false).
  { apply not_true_is_false. intro Hx. apply existsb_exists in Hx.
    destruct Hx as (c & Hin & Hc). rewrite Forall_forall in H1.
    rewrite (H1 c Hin) in Hc. discriminate Hc. }
  destruct (m t) as [[a|] t1]; cbn [snd] in E1; subst t1.
  - destruct (Hk a (t ++ calls1)) as (calls2 & E2 & H2).
    exists (calls1 ++ calls2). rewrite E2, app_assoc. split; [ reflexivity | ].
    rewrite existsb_app, Hq. exact H2.
  - exists calls1. split; [ reflexivity | ]. rewrite Hq. discriminate.
Qed.

Lemma mount_block_reports_true fstab_default mount_point crypto_blkdev needs_encrypt :
  reports_mount (fscrypt_mount_metadata_encrypted_mount env fstab_default mount_point
                   crypto_blkdev needs_encrypt).
Proof.
  intro t.
  unfold fscrypt_mount_metadata_encrypted_mount, mount_via_fs_mgr,
    bind, ask, log, plog, ret.
  repeat crypto_dev_step.
  all: cbn [fst snd]; repeat rewrite <- app_assoc.
  all: eexists; (split; [ reflexivity | ]); intros _; eexists; reflexivity.
Qed.

(** X26.  [fscrypt_mount_metadata_encrypted] drops the result of
    [mount_via_fs_mgr]: once the mount has been attempted, it returns
    [true], whatever [setexeccon] and [fs_mgr_do_mount] answered. *)
Theorem mount_failure_is_not_reported blk_device mount_point needs_encrypt
  should_format fs_type zoned_device fstab_path fstab_default t :
  exists calls,
    snd (fscrypt_mount_metadata_encrypted env blk_device mount_point needs_encrypt
           should_format fs_type zoned_device fstab_path fstab_default t) = t ++ calls
    /\ (existsb mount_attempted calls = true ->
        exists fstab,
          fst (fscrypt_mount_metadata_encrypted env blk_device mount_point needs_encrypt
                 should_format fs_type zoned_device fstab_path fstab_default t)
          = Ret (true, fstab)).
Proof.
  revert t.
  change (reports_mount
            (fscrypt_mount_metadata_encrypted env blk_device mount_point needs_encrypt
               should_format fs_type zoned_device fstab_path fstab_default)).
  unfold fscrypt_mount_metadata_encrypted, fscrypt_mount_metadata_encrypted_fstab,
    fscrypt_mount_metadata_encrypted_options, fscrypt_mount_metadata_encrypted_devices,
    fscrypt_mount_metadata_encrypted_encrypt, read_key, create_crypto_blk_dev,
    get_number_of_sectors, parse_options.
  repeat first
    [ apply mount_block_reports_true
    | solve [ apply quiet_reports_mount; metadata_emits ltac:(reflexivity) ]
    | apply reports_mount_bind; [ solve [ metadata_emits ltac:(reflexivity) ] | intro ]
    | progress cbv beta
    | match goal with
      | |- reports_mount (if ?b then _ else _) => destruct b
      | |- reports_mount (match ?x with _ => _ end) => destruct x
      end ].
Qed.

(** *** Mounting without encrypting *)

(** X27.  Called with [needs_encrypt] false,
    [fscrypt_mount_metadata_encrypted] never formats and never encrypts in
    place, whatever [should_format] says; each key is retrieved with the
    generation parameters [neverGen()], so that no key is created; and the
    mount is asked for without encryption. *)
Theorem mount_without_encryption_leaves_data_alone blk_device mount_point
  should_format fs_type zoned_device fstab_path fstab_default t :
  exists calls,
    snd (fscrypt_mount_metadata_encrypted env blk_device mount_point false
           should_format fs_type zoned_device fstab_path fstab_default t) = t ++ calls
    /\ Forall (leaves_data_alone env) calls.
Proof.
  assert (H : emits (leaves_data_alone env)
                (fscrypt_mount_metadata_encrypted env blk_device mount_point false
                   should_format fs_type zoned_device fstab_path fstab_default)).
  { unfold fscrypt_mount_metadata_encrypted, fscrypt_mount_metadata_encrypted_fstab,
      fscrypt_mount_metadata_encrypted_options, fscrypt_mount_metadata_encrypted_devices,
      fscrypt_mount_metadata_encrypted_encrypt, fscrypt_mount_metadata_encrypted_mount,
      mount_via_fs_mgr, read_key, create_crypto_blk_dev, get_number_of_sectors,
      parse_options.
    cbv beta iota zeta.
    metadata_emits ltac:(first [ exact I | reflexivity ]). }
  destruct (H t) as (calls & E & Hc & _). exists calls. auto.
Qed.

(** *** Reading the metadata key *)

(** X28.  [read_key] calls [Keystore::deleteAllKeys] only for the first
    key, outside DSU mode, when the key directory does not exist after
    [MkdirsSync] and the property
    [ro.crypto.metadata_init_delete_all_keys.enabled] is true. *)
Theorem read_key_deleteAllKeys_guard metadata_key_dir gen first_key key t :
  let dir := metadata_key_dir +++ "/key" in
  let t1 := t ++ [LOG INFO ("metadata_key_dir/key: " +++ dir); Mkdirs dir 448] in
  let t2 := t1 ++ [Property "ro.gsid.image_running"] in
  let t3 := t2 ++ [PathExists dir] in
  exists calls,
    snd (read_key env metadata_key_dir gen first_key key t) = t ++ calls
    /\ (In DeleteAllKeys calls ->
        first_key = true
        /\ GetBoolProperty env t1 "ro.gsid.image_running" false = false
        /\ pathExists env t2 dir = false
        /\ GetBoolProperty env t3 "ro.crypto.metadata_init_delete_all_keys.enabled" false
           = true).
Proof.
  intros dir t1 t2 t3. subst t3 t2 t1.
  unfold read_key, bind, ask, log, ret. fold dir.
  repeat crypto_dev_step.
  all: cbn [fst snd]; repeat rewrite <- app_assoc in *; cbn [List.app] in *.
  all: eexists; (split; [ first [ reflexivity | symmetry; apply app_nil_r ] | ]).
  all: cbn [In]; intro Hin.
  all: try (exfalso; repeat destruct Hin as [Hin|Hin]; solve [ discriminate Hin | exact Hin ]).
  all: repeat match goal with
         | H : _ && _ = true |- _ => apply andb_true_iff in H; destruct H
         | H : negb _ = true |- _ => apply negb_true_iff in H
         end.
  all: auto.
Qed.

(** *** The tables of the default-key devices *)

Lemma parse_options_keeps P options_string options :
  (forall s text, P (LOG s text)) ->
  hoare P (fun parsed =>
             use_legacy_options_format (snd parsed) = use_legacy_options_format options
             /\ set_dun (snd parsed) = set_dun options)
    (parse_options env options_string options).
Proof.
  intros HP t. unfold parse_options, bind, lift, log, ret.
  repeat crypto_dev_step.
  all: cbn [fst snd]; eexists; (split; [ | split ]);
    [ first [ reflexivity | symmetry; apply app_nil_r ]
    | repeat constructor; apply HP
    | intros ? [= <-]; cbn; auto ].
Qed.

Lemma create_crypto_blk_dev_tables dm_name blk_device key options crypto_blkdev nr_sec :
  mount_options_ok options ->
  dm_name = kDmNameUserdata \/ dm_name = kDmNameUserdataZoned ->
  emits submits_well_formed_tables
    (create_crypto_blk_dev env dm_name blk_device key options crypto_blkdev nr_sec).
Proof.
  intros Hoptions Hname t.
  unfold create_crypto_blk_dev, get_number_of_sectors, bind, ask, log, plog, ret, undef.
  destruct (GetBlockDev512Sectors env t blk_device nr_sec) as [status n].
  destruct (negb (status =? OK)); cbv beta iota zeta; rewrite ?land_not_7.
  all: repeat crypto_dev_step.
  all: cbn [fst snd]; repeat rewrite <- app_assoc; eexists;
    (split; [ reflexivity | split; [ | auto ] ]).
  all: repeat (apply Forall_cons; [ try exact I | ]); try apply Forall_nil.
  all: cbn [submits_well_formed_tables].
  all: (split;
        [ first [ assumption | now apply String.eqb_eq ]
        | eexists; split; [ reflexivity | ];
          cbn [dm_start dm_start_sector dm_length dm_use_legacy_options_format
                 dm_set_dun dm_cipher];
          split; [ reflexivity | split; [ reflexivity | split ] ];
          [ rewrite Z.mul_comm; apply Z.mod_mul; lia
          | destruct Hoptions as [[Hl Hk]|[Hl Hd]];
            [ left; split; [ exact Hl | congruence ] | right; auto ] ] ]).
Qed.

Lemma options_block_ok data_rec :
  hoare submits_well_formed_tables
    (fun chosen => forall options, chosen = Some options -> mount_options_ok options)
    (fscrypt_mount_metadata_encrypted_options env data_rec).
Proof.
  unfold fscrypt_mount_metadata_encrypted_options.
  apply (hoare_bind _ (fun _ => True)).
  { destruct (negb _); [ apply hoare_log | apply hoare_ret ]; exact I. }
  intros _ _.
  destruct (_ =? 1).
  - destruct (negb _).
    + apply (hoare_bind _ (fun _ => True)); [ now apply hoare_log | ].
      intros _ _. apply hoare_ret. discriminate.
    + apply (hoare_bind _ (fun _ => True)); [ now apply hoare_ask | ].
      intros wrapped _.
      apply (hoare_bind _ (fun _ => True)); [ now apply hoare_ask | ].
      intros dun _. cbv beta zeta.
      destruct (_ && _).
      * apply (hoare_bind _ (fun _ => True)); [ now apply hoare_log | ].
        intros _ _. apply hoare_ret. discriminate.
      * apply hoare_ret. intros options [= <-]. left. destruct wrapped; cbn; auto.
  - destruct (_ =? 2).
    + eapply hoare_bind; [ apply parse_options_keeps; intros; exact I | ].
      intros [ok options] [Hl Hd]. cbn [snd] in Hl, Hd. cbn in Hl, Hd.
      destruct (negb ok); apply hoare_ret; [ discriminate | ].
      intros o [= <-]. right. auto.
    + apply (hoare_bind _ (fun _ => True)); [ now apply hoare_log | ].
      intros _ _. apply hoare_ret. discriminate.
Qed.

Lemma devices_block_tables blk_device zoned_device needs_encrypt data_rec options :
  mount_options_ok options ->
  emits submits_well_formed_tables
    (fscrypt_mount_metadata_encrypted_devices env blk_device zoned_device needs_encrypt
       data_rec options).
Proof.
  intro Hoptions.
  unfold fscrypt_mount_metadata_encrypted_devices.
  cbv beta zeta.
  apply calls_bind; [ unfold read_key; metadata_emits ltac:(exact I) | ].
  intros [ok key]. destruct (negb ok); [ metadata_emits ltac:(exact I) | ].
  apply calls_bind; [ apply create_crypto_blk_dev_tables; auto | ].
  intros [[ok1 crypto_blkdev] nr_sec].
  destruct (negb ok1); [ metadata_emits ltac:(exact I) | ].
  destruct (negb _); [ | apply calls_ret ].
  apply calls_bind; [ unfold read_key; metadata_emits ltac:(exact I) | ].
  intros [ok2 key2]. destruct (negb ok2); [ metadata_emits ltac:(exact I) | ].
  apply calls_bind; [ apply create_crypto_blk_dev_tables; auto | ].
  intros [[ok3 crypto_zoned_blkdev] nr_sec3].
  destruct (negb ok3); metadata_emits ltac:(exact I).
Qed.

(** X29.  Every table that [fscrypt_mount_metadata_encrypted] hands to
    the device mapper is for the device [userdata] or [userdata_zoned] and
    has a single target that starts at sector 0 and covers a whole number
    of 4096-byte sectors; it is either in the legacy options format with
    the cipher [AES-256-XTS], or in the current format with the DUN flag
    set. *)
Theorem mount_submits_well_formed_tables blk_device mount_point needs_encrypt
  should_format fs_type zoned_device fstab_path fstab_default t :
  exists calls,
    snd (fscrypt_mount_metadata_encrypted env blk_device mount_point needs_encrypt
           should_format fs_type zoned_device fstab_path fstab_default t) = t ++ calls
    /\ Forall submits_well_formed_tables calls.
Proof.
  assert (H : emits submits_well_formed_tables
                (fscrypt_mount_metadata_encrypted env blk_device mount_point needs_encrypt
                   should_format fs_type zoned_device fstab_path fstab_default)).
  { unfold fscrypt_mount_metadata_encrypted.
    apply calls_bind; [ now apply calls_log | intros _ ].
    apply calls_bind; [ now apply calls_ask | intros encrypted_state ].
    destruct (_ && _); [ metadata_emits ltac:(exact I) | ].
    apply calls_bind.
    { unfold fscrypt_mount_metadata_encrypted_fstab. metadata_emits ltac:(exact I). }
    intros [opened fstab]. destruct (negb opened); [ apply calls_ret | ].
    destruct (GetEntryForMountPoint fstab mount_point) as [data_rec|];
      [ | metadata_emits ltac:(exact I) ].
    eapply hoare_bind; [ apply options_block_ok | ].
    intros [options|] Hoptions; [ | apply calls_ret ].
    specialize (Hoptions options eq_refl).
    apply calls_bind; [ now apply devices_block_tables | ].
    intros [[[crypto_blkdev crypto_zoned_blkdev] nr_sec]|]; [ | apply calls_ret ].
    unfold fscrypt_mount_metadata_encrypted_encrypt,
      fscrypt_mount_metadata_encrypted_mount, mount_via_fs_mgr.
    metadata_emits ltac:(exact I). }
  destruct (H t) as (calls & E & Hc & _). exists calls. auto.
Qed.

End Metadata_mount.

Lemma mount_failure_is_not_reported_witness :
  let env := MetadataCrypt.bench_env 1003 MetadataCrypt.SUSPENDED ""
               "/metadata/vold/metadata_encryption" in
  let run := MetadataCrypt.fscrypt_mount_metadata_encrypted env "/dev/block/sda9" "/data"
               false false "f2fs" "" "" [] [] in
  In (MetadataCrypt.DoMount "/data" "/dev/block/mapper/userdata" false false) (snd run)
  /\ fst (MetadataCrypt.fs_mgr_do_mount env [] [] "/data" "/dev/block/mapper/userdata"
            false false) = -1
  /\ exists fstab, fst run = Ret (true, fstab).
Proof.
  intros env run.
  split; [ vm_compute; tauto | split; [ reflexivity | ] ].
  destruct (mount_failure_is_not_reported env "/dev/block/sda9" "/data" false false
              "f2fs" "" "" [] []) as (calls & E & H).
  apply H. cbn [List.app] in E. rewrite <- E. vm_compute. reflexivity.
Defined.
